(** * mkgo: build orchestration core

    A shallow embedding of the TypeScript sources of the mkgo build
    orchestrator (the CLI's target resolution and configuration assembly,
    [BuildCache], [GoBuilder]) together with the properties its
    specification states about cache keys, the scheduler and the result.

    JavaScript strings are modelled as byte strings (their UTF-8 encoding,
    which is what [crypto]'s [update] hashes); JavaScript objects used as
    maps (the cache directory, the output directory, [process.env]) are
    finite maps; the numbers of a configuration are what [parseInt]
    returns, an integer or NaN. What the program awaits from its
    surroundings (the [find] process, file reads and copies, the Go
    toolchain) is an input of the model: the source tree fixes what the
    enumeration and the reads give, and a schedule of labels fixes in
    which order the jobs of a batch advance and what each awaited
    operation answers. Logging is left out. *)

From Stdlib Require Import ZArith Ascii String List Bool Lia Permutation.
From stdpp Require Import base option list gmap strings fin_maps.
Import ListNotations.

Local Open Scope string_scope.
Local Open Scope Z_scope.
Local Open Scope list_scope.

(** ** JavaScript string primitives *)

Module JS.

Definition byte_of (c : ascii) : Z := Z.of_N (N_of_ascii c).

Definition chr (z : Z) : ascii := ascii_of_N (Z.to_N z).

Fixpoint bytes (s : string) : list Z :=
  match s with
  | EmptyString => []
  | String c r => byte_of c :: bytes r
  end.

Definition LF : ascii := chr 10.

(** [s.split(sep)] for a one-character separator: always at least one
    piece. *)
Fixpoint split (sep : ascii) (s : string) : list string :=
  match s with
  | EmptyString => [""]
  | String c r =>
      if Ascii.eqb c sep then "" :: split sep r
      else
        match split sep r with
        | x :: xs => String c x :: xs
        | [] => [String c ""]
        end
  end.

(** [l.join(sep)] *)
Fixpoint join (sep : string) (l : list string) : string :=
  match l with
  | [] => ""
  | [x] => x
  | x :: r => x +:+ sep +:+ join sep r
  end.

(** [s.replace(/[cs]/g, "")]: drop every character of the class. *)
Fixpoint remove_chars (cs : list ascii) (s : string) : string :=
  match s with
  | EmptyString => EmptyString
  | String c r =>
      if existsb (Ascii.eqb c) cs then remove_chars cs r
      else String c (remove_chars cs r)
  end.

(** [s.slice(0, n)] *)
Fixpoint substring0 (n : nat) (s : string) : string :=
  match n, s with
  | S n, String c r => String c (substring0 n r)
  | _, _ => ""
  end.

(** Truthiness of a string: the empty string is falsy. *)
Definition truthy (s : string) : bool :=
  match s with EmptyString => false | _ => true end.

(** [o || d] for an optional string: [undefined] and [""] give [d]. *)
Definition or_default (o : option string) (d : string) : string :=
  match o with
  | Some s => if truthy s then s else d
  | None => d
  end.

(** [o || false] for an optional boolean. *)
Definition or_false (o : option bool) : bool :=
  match o with Some b => b | None => false end.

(** [o !== false] *)
Definition not_false (o : option bool) : bool :=
  match o with Some false => false | _ => true end.

(** White space as [String.prototype.trim] sees it, on the UTF-8 bytes:
    TAB, LF, VT, FF, CR, SPACE, and the encodings of U+00A0, U+1680,
    U+2000..U+200A, U+2028, U+2029, U+202F, U+205F, U+3000, U+FEFF.
    [blank_bytes l] holds when [l] is white space only, that is when
    [s.trim()] is empty. *)
Fixpoint blank_bytes (l : list Z) : bool :=
  match l with
  | [] => true
  | b :: r =>
      if (9 <=? b) && (b <=? 13) || (b =? 32) then blank_bytes r
      else
        match r with
        | b1 :: r1 =>
            if (b =? 194) && (b1 =? 160) then blank_bytes r1
            else
              match r1 with
              | b2 :: r2 =>
                  if (b =? 225) && (b1 =? 154) && (b2 =? 128)
                     || (b =? 226) && (b1 =? 128)
                        && ((128 <=? b2) && (b2 <=? 138)
                            || (b2 =? 168) || (b2 =? 169) || (b2 =? 175))
                     || (b =? 226) && (b1 =? 129) && (b2 =? 159)
                     || (b =? 227) && (b1 =? 128) && (b2 =? 128)
                     || (b =? 239) && (b1 =? 187) && (b2 =? 191)
                  then blank_bytes r2
                  else false
              | [] => false
              end
        | [] => false
        end
  end.

(** The pieces of [s.split(/\s/)]: [/\s/] matches the white space of
    [trim], read here on the UTF-8 bytes as in [blank_bytes]. *)
Definition push (c : ascii) (pieces : list string) : list string :=
  match pieces with
  | w :: ws => String c w :: ws
  | [] => [String c ""]
  end.

Fixpoint pieces (s : string) : list string :=
  match s with
  | EmptyString => [""]
  | String c r =>
      let b := byte_of c in
      if (9 <=? b) && (b <=? 13) || (b =? 32) then "" :: pieces r
      else
        match r with
        | String c1 r1 =>
            let b1 := byte_of c1 in
            if (b =? 194) && (b1 =? 160) then "" :: pieces r1
            else
              match r1 with
              | String c2 r2 =>
                  let b2 := byte_of c2 in
                  if (b =? 225) && (b1 =? 154) && (b2 =? 128)
                     || (b =? 226) && (b1 =? 128)
                        && ((128 <=? b2) && (b2 <=? 138)
                            || (b2 =? 168) || (b2 =? 169) || (b2 =? 175))
                     || (b =? 226) && (b1 =? 129) && (b2 =? 159)
                     || (b =? 227) && (b1 =? 128) && (b2 =? 128)
                     || (b =? 239) && (b1 =? 187) && (b2 =? 191)
                  then "" :: pieces r2
                  else push c (pieces r)
              | EmptyString => push c (pieces r)
              end
        | EmptyString => push c (pieces r)
        end
  end.

(** [s.split(/\s+/).filter(Boolean)]: the maximal runs of characters
    that are not white space. *)
Definition words (s : string) : list string :=
  List.filter truthy (pieces s).

(** [path.basename(p)] for a path without a trailing slash. *)
Definition basename (p : string) : string := List.last (split "/" p) "".

(** [path.normalize(p)] of POSIX, without the slash it keeps at the end
    of a path that ends in one: empty and [.] components go, [..]
    takes the component before it away (and stays at the front of a
    relative path). *)
Fixpoint resolve (absolute : bool) (stack components : list string)
    : list string :=
  match components with
  | [] => rev stack
  | c :: rest =>
      if String.eqb c "" || String.eqb c "." then resolve absolute stack rest
      else if String.eqb c ".." then
        match stack with
        | top :: below =>
            if String.eqb top ".." then resolve absolute (c :: stack) rest
            else resolve absolute below rest
        | [] => resolve absolute (if absolute then [] else [c]) rest
        end
      else resolve absolute (c :: stack) rest
  end.

Definition normalize (p : string) : string :=
  let absolute := String.prefix "/" p in
  let body := join "/" (resolve absolute [] (split "/" p)) in
  if absolute then "/" +:+ body
  else if truthy body then body else ".".

(** [path.join(a, b)] for non-empty [a] and [b]. *)
Definition path_join (a b : string) : string := normalize (a +:+ "/" +:+ b).

(** [s.trim()] is truthy, [s.trim().length > 0] *)
Definition has_text (s : string) : bool := negb (blank_bytes (bytes s)).

(** *** Numbers, as [parseInt] produces them: an integer or NaN *)

(** [Int z] stands for the double of value [z], which is the integer
    itself up to 2^53 in size; beyond that [parseInt] rounds and
    [JSON.stringify] turns to the exponent notation, and neither is
    modelled. *)

Inductive number := Int (z : Z) | NaN.

Definition Math_min (a b : number) : number :=
  match a, b with
  | Int x, Int y => Int (Z.min x y)
  | _, _ => NaN
  end.

Definition num_lt (a b : number) : bool :=
  match a, b with
  | Int x, Int y => x <? y
  | _, _ => false
  end.

Definition num_add (a b : number) : number :=
  match a, b with
  | Int x, Int y => Int (x + y)
  | _, _ => NaN
  end.

Definition num_mul (a b : number) : number :=
  match a, b with
  | Int x, Int y => Int (x * y)
  | _, _ => NaN
  end.

(** [ToIntegerOrInfinity]: NaN becomes 0. *)
Definition to_integer (a : number) : Z :=
  match a with Int z => z | NaN => 0 end.

(** [arr.slice(start, end)]: a negative index counts from the end, and
    both are clamped to the array. *)
Definition slice {A} (l : list A) (s e : number) : list A :=
  let len := Z.of_nat (List.length l) in
  let clamp k := if k <? 0 then Z.max (len + k) 0 else Z.min k len in
  let i := clamp (to_integer s) in
  let j := clamp (to_integer e) in
  firstn (Z.to_nat (Z.max (j - i) 0)) (skipn (Z.to_nat i) l).

Definition digit_val (c : ascii) : option Z :=
  let b := byte_of c in
  if (48 <=? b) && (b <=? 57) then Some (b - 48)
  else if (97 <=? b) && (b <=? 122) then Some (b - 87)
  else if (65 <=? b) && (b <=? 90) then Some (b - 55)
  else None.

(** The longest prefix of digits below [radix], folded into a value;
    [None] when there is no digit at all. *)
Fixpoint digits (radix : Z) (s : string) (accu : option Z) : option Z :=
  match s with
  | EmptyString => accu
  | String c r =>
      match digit_val c with
      | Some d =>
          if d <? radix
          then digits radix r (Some (match accu with Some a => a * radix + d | None => d end))
          else accu
      | None => accu
      end
  end.

Fixpoint skip_blank (s : string) : string :=
  match s with
  | String c r =>
      let b := byte_of c in
      if (9 <=? b) && (b <=? 13) || (b =? 32) then skip_blank r else s
  | EmptyString => s
  end.

(** [parseInt(s)] without a radix: leading white space, a sign, a [0x]
    prefix for base 16, then the longest run of digits. *)
Definition parseInt (s : string) : number :=
  let s := skip_blank s in
  let '(neg, s) :=
    match s with
    | String "-" r => (true, r)
    | String "+" r => (false, r)
    | _ => (false, s)
    end in
  let '(radix, s) :=
    match s with
    | String "0" (String "x" r) => (16, r)
    | String "0" (String "X" r) => (16, r)
    | _ => (10, s)
    end in
  match digits radix s None with
  | Some v => Int (if neg : bool then - v else v)
  | None => NaN
  end.

Definition hex_digit (z : Z) : ascii :=
  if z <? 10 then chr (48 + z) else chr (87 + z).

Fixpoint dec_go (fuel : nat) (z : Z) (accu : string) : string :=
  match fuel with
  | O => accu
  | S f =>
      let accu := String (chr (48 + z mod 10)) accu in
      if z <? 10 then accu else dec_go f (z / 10) accu
  end.

(** Decimal digits of an integer, as [String(n)] prints them. *)
Definition dec (z : Z) : string :=
  if z <? 0 then String "-" (dec_go (Z.to_nat (Z.log2 (- z)) + 1) (- z) "")
  else dec_go (Z.to_nat (Z.log2 z) + 1) z "".

(** *** [JSON.stringify] on the values a [BuildConfig] holds *)

(** The one-character string holding a double quote. *)
Definition DQ : string := String (chr 34) "".

Definition quote_char (c : ascii) : string :=
  let b := byte_of c in
  if b =? 34 then "\" +:+ DQ
  else if b =? 92 then "\\"
  else if b =? 8 then "\b"
  else if b =? 12 then "\f"
  else if b =? 10 then "\n"
  else if b =? 13 then "\r"
  else if b =? 9 then "\t"
  else if b <? 32 then "\u00" +:+ String (hex_digit (b / 16)) (String (hex_digit (b mod 16)) "")
  else String c "".

Fixpoint quote_body (s : string) : string :=
  match s with
  | EmptyString => ""
  | String c r => quote_char c +:+ quote_body r
  end.

Definition json_string (s : string) : string :=
  DQ +:+ quote_body s +:+ DQ.

Definition json_bool (b : bool) : string := if b then "true" else "false".

Definition json_number (n : number) : string :=
  match n with Int z => dec z | NaN => "null" end.

Definition json_array (items : list string) : string :=
  "[" +:+ join "," items +:+ "]".

(** An object literal: the properties in insertion order, those whose
    value is [undefined] left out. *)
Definition json_object (props : list (string * option string)) : string :=
  "{" +:+ join "," (omap (fun p => (fun v => json_string (fst p) +:+ ":" +:+ v) <$> snd p) props) +:+ "}".

End JS.

(** ** MD5 (RFC 1321), as [crypto.createHash('md5')] computes it *)

Module MD5.

Definition K : list Z :=
  [ 3614090360; 3905402710; 606105819; 3250441966;
    4118548399; 1200080426; 2821735955; 4249261313;
    1770035416; 2336552879; 4294925233; 2304563134;
    1804603682; 4254626195; 2792965006; 1236535329;
    4129170786; 3225465664; 643717713; 3921069994;
    3593408605; 38016083; 3634488961; 3889429448;
    568446438; 3275163606; 4107603335; 1163531501;
    2850285829; 4243563512; 1735328473; 2368359562;
    4294588738; 2272392833; 1839030562; 4259657740;
    2763975236; 1272893353; 4139469664; 3200236656;
    681279174; 3936430074; 3572445317; 76029189;
    3654602809; 3873151461; 530742520; 3299628645;
    4096336452; 1126891415; 2878612391; 4237533241;
    1700485571; 2399980690; 4293915773; 2240044497;
    1873313359; 4264355552; 2734768916; 1309151649;
    4149444226; 3174756917; 718787259; 3951481745 ].

Definition R : list Z :=
  [ 7; 12; 17; 22; 7; 12; 17; 22; 7; 12; 17; 22; 7; 12; 17; 22;
    5; 9; 14; 20; 5; 9; 14; 20; 5; 9; 14; 20; 5; 9; 14; 20;
    4; 11; 16; 23; 4; 11; 16; 23; 4; 11; 16; 23; 4; 11; 16; 23;
    6; 10; 15; 21; 6; 10; 15; 21; 6; 10; 15; 21; 6; 10; 15; 21 ].

Definition mask32 : Z := 4294967295.

Definition add32 (a b : Z) : Z := Z.land (a + b) mask32.

Definition not32 (a : Z) : Z := Z.lxor a mask32.

Definition rotl32 (x n : Z) : Z :=
  Z.land (Z.lor (Z.shiftl x n) (Z.shiftr x (32 - n))) mask32.

Definition at_ (l : list Z) (i : nat) : Z := nth i l 0.

Definition state : Type := Z * Z * Z * Z.

Definition init : state := (1732584193, 4023233417, 2562383102, 271733878).

(** One of the 64 operations of a block, on the words [M] of the block. *)
Definition op (M : list Z) (s : state) (i : nat) : state :=
  let '(a, b, c, d) := s in
  let '(f, g) :=
    if (i <? 16)%nat then (Z.lor (Z.land b c) (Z.land (not32 b) d), i)
    else if (i <? 32)%nat then (Z.lor (Z.land d b) (Z.land (not32 d) c), ((5 * i + 1) mod 16)%nat)
    else if (i <? 48)%nat then (Z.lxor (Z.lxor b c) d, ((3 * i + 5) mod 16)%nat)
    else (Z.lxor c (Z.lor b (not32 d)), ((7 * i) mod 16)%nat) in
  let f := add32 (add32 (add32 f a) (at_ K i)) (at_ M g) in
  (d, add32 b (rotl32 f (at_ R i)), b, c).

(** Little-endian 32-bit words of a block of bytes. *)
Fixpoint words (l : list Z) : list Z :=
  match l with
  | b0 :: b1 :: b2 :: b3 :: r =>
      (b0 + 256 * b1 + 65536 * b2 + 16777216 * b3) :: words r
  | _ => []
  end.

Definition block (s : state) (blk : list Z) : state :=
  let '(a0, b0, c0, d0) := s in
  let '(a, b, c, d) := fold_left (op (words blk)) (seq 0 64) s in
  (add32 a0 a, add32 b0 b, add32 c0 c, add32 d0 d).

Fixpoint le_bytes (n : nat) (z : Z) : list Z :=
  match n with
  | O => []
  | S n => z mod 256 :: le_bytes n (z / 256)
  end.

(** Padding: a 1 bit, zeros up to 56 mod 64, the bit length on 64 bits. *)
Definition pad (msg : list Z) : list Z :=
  let len := List.length msg in
  msg ++ [128] ++ repeat 0 ((119 - len mod 64) mod 64)%nat
      ++ le_bytes 8 (8 * Z.of_nat len).

Fixpoint blocks (n : nat) (l : list Z) (s : state) : state :=
  match n with
  | O => s
  | S n => blocks n (skipn 64 l) (block s (firstn 64 l))
  end.

Definition digest (msg : list Z) : list Z :=
  let p := pad msg in
  let '(a, b, c, d) := blocks (List.length p / 64)%nat p init in
  le_bytes 4 a ++ le_bytes 4 b ++ le_bytes 4 c ++ le_bytes 4 d.

Fixpoint hex (l : list Z) : string :=
  match l with
  | [] => ""
  | b :: r => String (JS.hex_digit (b / 16)) (String (JS.hex_digit (b mod 16)) (hex r))
  end.

(** [crypto.createHash('md5').update(s).digest('hex')] *)
Definition md5_hex (s : string) : string := hex (digest (JS.bytes s)).

End MD5.

(** ** The records of [types.ts] *)

Inductive result (A : Type) : Type :=
  | Ok (a : A)
  | Throw (message : string).
Arguments Ok {A} a.
Arguments Throw {A} message.

Definition blob : Type := string.

Record BuildTarget := mkTarget {
  os : string;
  arch : string;
  output : string;
  platform : string
}.

Record BuildConfig := mkConfig {
  targets : list BuildTarget;
  ldflags : string;
  tags : list string;
  cgo : bool;
  race : bool;
  compress : bool;
  version : string;
  buildVersion : string;
  checksum : bool;
  clean : bool;
  debug : bool;
  verbose : bool;
  timestamp : string;
  gitHash : string;
  randomHash : string;
  outputDir : string;
  binaryName : string;
  static : bool;
  strip : bool;
  timeout : JS.number;
  parallel : JS.number;
  skipTests : bool;
  skipVerification : bool;
  noCache : option bool
}.

(** The configuration with its [noCache] property replaced. *)
Definition with_noCache (x : option bool) (c : BuildConfig) : BuildConfig :=
  mkConfig (targets c) (ldflags c) (tags c) (cgo c) (race c) (compress c)
    (version c) (buildVersion c) (checksum c) (clean c) (debug c) (verbose c)
    (timestamp c) (gitHash c) (randomHash c) (outputDir c) (binaryName c)
    (static c) (strip c) (timeout c) (parallel c) (skipTests c)
    (skipVerification c) x.

(** The configuration without the per-target fields: of each target only
    the platform label is kept. *)
Definition without_target_fields (c : BuildConfig) : BuildConfig :=
  mkConfig (map (fun t => mkTarget "" "" "" (platform t)) (targets c))
    (ldflags c) (tags c) (cgo c) (race c) (compress c)
    (version c) (buildVersion c) (checksum c) (clean c) (debug c) (verbose c)
    (timestamp c) (gitHash c) (randomHash c) (outputDir c) (binaryName c)
    (static c) (strip c) (timeout c) (parallel c) (skipTests c)
    (skipVerification c) (noCache c).

(** The options of the [build] command that reach the configuration; a
    field is [None] when the option object has no such property. *)
Record CLIOptions := mkOptions {
  opt_target : option (list string);
  opt_os : option (list string);
  opt_arch : option (list string);
  opt_all : option bool;
  opt_version : option string;
  opt_buildVersion : option string;
  opt_ldflags : option string;
  opt_tags : option string;
  opt_cgo : option bool;
  opt_race : option bool;
  opt_compress : option bool;
  opt_checksum : option bool;
  opt_clean : option bool;
  opt_debug : option bool;
  opt_verbose : option bool;
  opt_output : option string;
  opt_name : option string;
  opt_static : option bool;
  opt_strip : option bool;
  opt_timeout : option string;
  opt_parallel : option string;
  opt_skipTests : option bool;
  opt_skipVerification : option bool;
  opt_noCache : option bool
}.

Record BuildResult := mkResult {
  success : bool;
  binaries : list string;
  checksums : list string;
  failed : list string;
  duration : Z
}.

(** What one invocation of the process reads from its surroundings:
    [process.platform], [process.arch], [process.env], the clock
    ([clock k] is the ISO string of the [k]-th [new Date()] of the
    invocation), the output of [git rev-parse --short HEAD] ([None] when
    the command fails) and the bytes [crypto.randomBytes] returns. *)
Record Env := mkEnv {
  process_platform : string;
  process_arch : string;
  process_env : gmap string string;
  clock : nat -> string;
  git_stdout : option string;
  randomBytes : nat -> list Z
}.

(** ** [core/constants.ts] *)

Definition SUPPORTED_PLATFORMS : list string :=
  [ "linux/amd64"; "linux/arm64"; "linux/386"; "darwin/amd64";
    "darwin/arm64"; "windows/amd64"; "windows/arm64"; "windows/386" ].

(** ** [core/GoUtils.ts] *)

Module GoUtils.

Definition parseTags (tags : option string) : list string :=
  match tags with
  | None => []
  | Some s =>
      if JS.truthy s then List.filter JS.has_text (JS.split "," s) else []
  end.

Definition generateRandomHash (e : Env) (length : nat) : string :=
  JS.substring0 length (MD5.hex (randomBytes e (Nat.div (length + 1) 2))).

Definition getGitHash (e : Env) : string :=
  match git_stdout e with
  | Some out => out
  | None => "unknown"
  end.

End GoUtils.

(** ** The file system the build works on *)

(** The Go sources as [calculateSourceHash] sees them: the output of
    [find . -name '*.go' -type f] ([None] when the command fails), and for
    each path whether it exists and what reading it gives ([Some None]: the
    file exists and reading it throws). *)
Record SourceTree := mkTree {
  find_stdout : option string;
  files : gmap string (option string)
}.

(** [cache] is the directory [.mkgo-cache], [None] while it does not
    exist, with the blob of [<key>.bin] under each key; [fsys] holds the
    other files by path; [go_project] tells whether [go.mod] is there.
    A file is named by the spelling of its path, and an entry by the
    spelling of its key: two spellings of one path ([dist/a] and
    [./dist/a], which [path.join] and the file system bring together)
    are two names here, so the maps are the code's store and files for
    paths and keys in normal form, relative and without an empty, [.]
    or [..] component. *)
Record World := mkWorld {
  tree : SourceTree;
  cache : option (gmap string blob);
  fsys : gmap string blob;
  go_project : bool
}.

Definition set_cache (c : option (gmap string blob)) (w : World) : World :=
  mkWorld (tree w) c (fsys w) (go_project w).

Definition set_fsys (f : gmap string blob) (w : World) : World :=
  mkWorld (tree w) (cache w) f (go_project w).

(** What the build does to its surroundings, in the order it happens. *)
Inductive event :=
  | EvCleanBuildDir (dir : string)
  | EvCleanCache (existed : bool)
  | EvLookup (key : string) (hit : bool)
  | EvGo (args : list string) (env : gmap string string) (timeout : JS.number)
  | EvGoExit (platform : string) (ok : bool)
  | EvStore (key : string).

(** ** [build/BuildCache.ts] *)

Module BuildCache.

Definition stringifyTarget (t : BuildTarget) : string :=
  JS.json_object
    [ ("os", Some (JS.json_string (os t)));
      ("arch", Some (JS.json_string (arch t)));
      ("output", Some (JS.json_string (output t)));
      ("platform", Some (JS.json_string (platform t))) ].

(** [JSON.stringify(config)]: the properties in the order
    [createBuildConfig] writes them. *)
Definition stringify (c : BuildConfig) : string :=
  JS.json_object
    [ ("targets", Some (JS.json_array (map stringifyTarget (targets c))));
      ("ldflags", Some (JS.json_string (ldflags c)));
      ("tags", Some (JS.json_array (map JS.json_string (tags c))));
      ("cgo", Some (JS.json_bool (cgo c)));
      ("race", Some (JS.json_bool (race c)));
      ("compress", Some (JS.json_bool (compress c)));
      ("version", Some (JS.json_string (version c)));
      ("buildVersion", Some (JS.json_string (buildVersion c)));
      ("checksum", Some (JS.json_bool (checksum c)));
      ("clean", Some (JS.json_bool (clean c)));
      ("debug", Some (JS.json_bool (debug c)));
      ("verbose", Some (JS.json_bool (verbose c)));
      ("timestamp", Some (JS.json_string (timestamp c)));
      ("gitHash", Some (JS.json_string (gitHash c)));
      ("randomHash", Some (JS.json_string (randomHash c)));
      ("outputDir", Some (JS.json_string (outputDir c)));
      ("binaryName", Some (JS.json_string (binaryName c)));
      ("static", Some (JS.json_bool (static c)));
      ("strip", Some (JS.json_bool (strip c)));
      ("timeout", Some (JS.json_number (timeout c)));
      ("parallel", Some (JS.json_number (parallel c)));
      ("skipTests", Some (JS.json_bool (skipTests c)));
      ("skipVerification", Some (JS.json_bool (skipVerification c)));
      ("noCache", JS.json_bool <$> noCache c) ].

(** The loop over [goFiles]: [hash] is what [hash.update] has been fed
    so far; [None] when a read throws. *)
Fixpoint hashFiles (t : SourceTree) (goFiles : list string) (hash : string)
    : option string :=
  match goFiles with
  | [] => Some hash
  | file :: rest =>
      match files t !! file with
      | None => hashFiles t rest hash
      | Some (Some content) => hashFiles t rest (hash +:+ content)
      | Some None => None
      end
  end.

Definition goFiles (stdout : string) : list string :=
  List.filter JS.has_text (JS.split JS.LF stdout).

Definition calculateSourceHash (t : SourceTree) : string :=
  match find_stdout t with
  | None => "unknown"
  | Some stdout =>
      match hashFiles t (goFiles stdout) "" with
      | Some data => JS.substring0 12 (MD5.md5_hex data)
      | None => "unknown"
      end
  end.

Definition getCacheKey (t : SourceTree) (target : BuildTarget)
    (config : BuildConfig) : string :=
  platform target +:+ "-" +:+ calculateSourceHash t +:+ "-"
    +:+ MD5.md5_hex (stringify config).

Definition entries (w : World) : gmap string blob := default ∅ (cache w).

(** [restoreFromCache]: [io] tells whether the copy goes through. The
    result is the world and whether the cache hit. *)
Definition restoreFromCache (cacheKey outputPath : string) (io : bool)
    (w : World) : World * bool :=
  match entries w !! cacheKey with
  | Some b =>
      if io then (set_fsys (<[outputPath := b]> (fsys w)) w, true)
      else (w, false)
  | None => (w, false)
  end.

(** [saveToCache]: [io] tells whether the directory and the copy can be
    written; the flag of the result is [false] when it throws. *)
Definition saveToCache (cacheKey binaryPath : string) (io : bool)
    (w : World) : World * bool :=
  if io then
    match fsys w !! binaryPath with
    | Some b => (set_cache (Some (<[cacheKey := b]> (entries w))) w, true)
    | None => (set_cache (Some (entries w)) w, false)
    end
  else (w, false).

Definition cleanCache (w : World) : World * list event :=
  match cache w with
  | Some _ => (set_cache None w, [EvCleanCache true])
  | None => (w, [EvCleanCache false])
  end.

End BuildCache.

(** ** [build/GoBuilder.ts] *)

Module GoBuilder.

Record Builder := mkBuilder {
  builtBinaries : list string;
  checksumFiles : list string;
  failedBuilds : list string
}.

Definition fresh : Builder := mkBuilder [] [] [].

Definition push_built (p : string) (b : Builder) : Builder :=
  mkBuilder (builtBinaries b ++ [p]) (checksumFiles b) (failedBuilds b).

Definition push_failed (p : string) (b : Builder) : Builder :=
  mkBuilder (builtBinaries b) (checksumFiles b) (failedBuilds b ++ [p]).

Definition buildGoArgs (target : BuildTarget) (config : BuildConfig)
    : list string :=
  let ldflags :=
    [ "-X main.Version=" +:+ version config;
      "-X main.BuildDate=" +:+ timestamp config;
      "-X main.CommitHash=" +:+ gitHash config;
      "-s"; "-w" ]
    ++ (if JS.truthy (ldflags config) then JS.words (ldflags config) else []) in
  ["build"; "-o"; output target]
    ++ ["-ldflags"; JS.join " " ldflags]
    ++ (match tags config with [] => [] | ts => ["-tags"; JS.join "," ts] end)
    ++ (if race config then ["-race"] else [])
    ++ ["-trimpath"]
    ++ (if debug config then ["-gcflags"; "all=-N -l"] else [])
    ++ ["."].

(** The [env] option of the toolchain call: an object literal with the
    three cross-compilation variables first and the spread of
    [process.env] after them, so a property of [process.env] replaces a
    variable of the same name. *)
Definition goEnv (penv : gmap string string) (target : BuildTarget)
    (config : BuildConfig) : gmap string string :=
  penv ∪ <["GOOS" := os target]>
           (<["GOARCH" := arch target]>
              (<["CGO_ENABLED" := if cgo config then "1" else "0"]> ∅)).

(** Where the job of one target stands; the last three are terminal. *)
Inductive phase :=
  | Hashing
  | Restoring (key : string)
  | Building (key : string)
  | Chmod (key : string)
  | Saving (key : string)
  | Restored
  | CachePersisted
  | BuildFailed.

Definition terminal (ph : phase) : bool :=
  match ph with
  | Restored | CachePersisted | BuildFailed => true
  | _ => false
  end.

Definition is_building (ph : phase) : bool :=
  match ph with Building _ => true | _ => false end.

(** What the surroundings answer to the operation a job awaits: a file
    operation goes through or throws, the toolchain exits with status 0
    leaving a binary, or fails (a non-zero status, the timeout). *)
Inductive outcome :=
  | Done
  | Failed
  | Exit0 (binary : blob).

Record JobStep := mkStep {
  next_phase : phase;
  next_world : World;
  next_builder : Builder;
  emitted : list event
}.

(** The [catch] of [buildTargetWithCache]. *)
Definition caught (target : BuildTarget) (w : World) (b : Builder)
    (evs : list event) : JobStep :=
  mkStep BuildFailed w (push_failed (platform target) b) evs.

(** The start of [executeGoBuild]: the toolchain is spawned. ([execa]
    refuses a timeout that is [NaN] or negative before it starts a
    process, and the job fails; here that job spawns and fails, with
    the same lists and files and two more events in the trace.) *)
Definition spawn (penv : gmap string string) (target : BuildTarget)
    (config : BuildConfig) (key : string) (w : World) (b : Builder)
    : JobStep :=
  mkStep (Building key) w b
    [ EvLookup key false;
      EvGo (buildGoArgs target config) (goEnv penv target config)
           (JS.num_mul (timeout config) (JS.Int 1000)) ].

(** [buildTargetWithCache], from one [await] to the next. *)
Definition job_step (penv : gmap string string) (config : BuildConfig)
    (target : BuildTarget) (o : outcome) (ph : phase) (w : World)
    (b : Builder) : option JobStep :=
  match ph, o with
  | Hashing, Done =>
      Some (mkStep (Restoring (BuildCache.getCacheKey (tree w) target config)) w b [])
  | Restoring key, (Done | Failed) =>
      let '(w', hit) :=
        BuildCache.restoreFromCache key (output target)
          (match o with Done => true | _ => false end) w in
      if hit then
        Some (mkStep Restored w' (push_built (output target) b) [EvLookup key true])
      else Some (spawn penv target config key w' b)
  | Building key, Exit0 binary =>
      let w' := set_fsys (<[output target := binary]> (fsys w)) w in
      Some (mkStep (if String.eqb (os target) "windows" then Saving key else Chmod key)
              w' b [EvGoExit (platform target) true])
  | Building key, Failed =>
      Some (caught target w b [EvGoExit (platform target) false])
  | Chmod key, Done => Some (mkStep (Saving key) w b [])
  | Chmod key, Failed => Some (caught target w b [])
  | Saving key, (Done | Failed) =>
      let '(w', ok) :=
        BuildCache.saveToCache key (output target)
          (match o with Done => true | _ => false end) w in
      if ok then
        Some (mkStep CachePersisted w' (push_built (output target) b) [EvStore key])
      else Some (caught target w' b [])
  | _, _ => None
  end.

(** The loop that fills [batches]: [i] is the loop variable. [None]
    when [fuel] iterations do not end it. *)
Fixpoint batches_loop (fuel : nat) (ts : list BuildTarget)
    (parallelLimit i : JS.number) : option (list (list BuildTarget)) :=
  if JS.num_lt i (JS.Int (Z.of_nat (List.length ts))) then
    match fuel with
    | O => None
    | S fuel =>
        cons (JS.slice ts i (JS.num_add i parallelLimit))
          <$> batches_loop fuel ts parallelLimit (JS.num_add i parallelLimit)
    end
  else Some [].

Definition parallelLimit (config : BuildConfig) (cpus : nat) : JS.number :=
  JS.Math_min (parallel config) (JS.Int (Z.of_nat cpus)).

(** The batches of [buildTargetsParallel], with fuel for one iteration
    per target, which is all a positive limit can take. *)
Definition make_batches (config : BuildConfig) (cpus : nat)
    : option (list (list BuildTarget)) :=
  batches_loop (List.length (targets config)) (targets config)
    (parallelLimit config cpus) (JS.Int 0).

(** The scheduler between two steps: the jobs of the batch under way,
    the jobs of the batches that ended, the batches still to start. *)
Record Sched := mkSched {
  world : World;
  builder : Builder;
  finished : list (BuildTarget * phase);
  running : list (BuildTarget * phase);
  waiting : list (list BuildTarget);
  trace : list event
}.

(** [Next]: [Promise.allSettled] of the batch under way resolves and the
    loop starts the jobs of the next batch. [Job i o]: the operation job
    [i] of the batch awaits completes with [o]. *)
Inductive label :=
  | Next
  | Job (i : nat) (o : outcome).

Definition settled (jobs : list (BuildTarget * phase)) : bool :=
  forallb (fun j => terminal (snd j)) jobs.

Definition sched_step (penv : gmap string string) (config : BuildConfig)
    (l : label) (s : Sched) : option Sched :=
  match l with
  | Next =>
      if settled (running s) then
        match waiting s with
        | batch :: rest =>
            Some (mkSched (world s) (builder s) (finished s ++ running s)
                    (map (fun t => (t, Hashing)) batch) rest (trace s))
        | [] => None
        end
      else None
  | Job i o =>
      match running s !! i with
      | Some (target, ph) =>
          match job_step penv config target o ph (world s) (builder s) with
          | Some js =>
              Some (mkSched (next_world js) (next_builder js) (finished s)
                      (<[i := (target, next_phase js)]> (running s))
                      (waiting s) (trace s ++ emitted js))
          | None => None
          end
      | None => None
      end
  end.

(** A run: the steps of a list of labels, [None] when one of them is not
    possible in the state it meets. *)
Fixpoint run (penv : gmap string string) (config : BuildConfig)
    (ls : list label) (s : Sched) : option Sched :=
  match ls with
  | [] => Some s
  | l :: ls =>
      match sched_step penv config l s with
      | Some s' => run penv config ls s'
      | None => None
      end
  end.

(** The number of toolchain processes in flight. *)
Definition in_flight (s : Sched) : nat :=
  List.length (List.filter (fun j => is_building (snd j)) (running s)).

(** [buildTargetsParallel] has returned: no batch is left and every job
    of the last one has settled. *)
Definition completed (s : Sched) : bool :=
  settled (running s) && match waiting s with [] => true | _ => false end.

Definition start (config : BuildConfig) (cpus : nat) (w : World)
    (b : Builder) (evs : list event) : option Sched :=
  (fun bs => mkSched w b [] [] bs evs) <$> make_batches config cpus.

(** [buildTargetsParallel] under the schedule [ls]: [None] when the
    batches are never formed or [ls] is not a complete run. *)
Definition buildTargetsParallel (penv : gmap string string)
    (config : BuildConfig) (cpus : nat) (ls : list label) (w : World)
    (b : Builder) (evs : list event) : option Sched :=
  match start config cpus w b evs with
  | Some s0 =>
      match run penv config ls s0 with
      | Some s => if completed s then Some s else None
      | None => None
      end
  | None => None
  end.

(** Whether the path [p] is [dir] or lies below it, for paths in normal
    form. *)
Definition inside (dir p : string) : bool :=
  String.eqb dir p || String.prefix (dir +:+ "/") p.

(** [cleanBuildDir]: [fs.remove] takes away what lies at the path that
    [outputDir] names, a file or the files below a directory. The path
    is resolved as [path.normalize] does, which is how the file system
    resolves it when the directories that a [..] steps out of exist. *)
Definition cleanBuildDir (outputDir : string) (w : World)
    : World * list event :=
  (set_fsys
     (filter (fun kv => negb (inside (JS.normalize outputDir)
                                (JS.normalize (fst kv))))
        (fsys w)) w,
   [EvCleanBuildDir outputDir]).

(** The list [ChecksumUtil.writeChecksumFiles] returns; the contents of
    the files it writes (SHA-256 digests) are left out. *)
Definition writeChecksumFiles (binaries : list string) (outputDir : string)
    : list string :=
  let individualDir := JS.path_join outputDir "checksums" in
  JS.path_join outputDir "checksums.txt"
    :: map (fun b => JS.path_join individualDir (JS.basename b +:+ ".sha256"))
         binaries.

Definition generateChecksums (config : BuildConfig) (b : Builder) : Builder :=
  mkBuilder (builtBinaries b)
    (writeChecksumFiles (builtBinaries b) (outputDir config))
    (failedBuilds b).

Definition createBuildResult (b : Builder) (duration : Z) : BuildResult :=
  {| success := Nat.eqb (List.length (failedBuilds b)) 0;
     binaries := builtBinaries b;
     checksums := checksumFiles b;
     failed := failedBuilds b;
     duration := duration |}.

Record Built := mkBuilt {
  outcome_of : result BuildResult;
  world_after : World;
  trace_of : list event
}.

(** [build] on a new [GoBuilder], under the schedule [ls]; [elapsed] is
    the difference of the two [Date.now()]. The removal of the output
    and cache directories, [ensureDir] and the writing of the checksum
    files are taken to go through, and the cache directory to lie
    outside the output directory. [None]: the batches are never formed,
    or [ls] is not a complete run. *)
Definition build (penv : gmap string string) (cpus : nat)
    (config : BuildConfig) (ls : list label) (elapsed : Z) (w : World)
    : option Built :=
  if negb (go_project w) then
    Some (mkBuilt (Throw "Not a Go project (go.mod not found)") w [])
  else
    let '(w1, evs) :=
      if clean config then
        let '(wa, e1) := cleanBuildDir (outputDir config) w in
        let '(wb, e2) := BuildCache.cleanCache wa in
        (wb, e1 ++ e2)
      else (w, []) in
    match buildTargetsParallel penv config cpus ls w1 fresh evs with
    | Some s =>
        let b :=
          if checksum config && negb (Nat.eqb (List.length (builtBinaries (builder s))) 0)
          then generateChecksums config (builder s)
          else builder s in
        Some (mkBuilt (Ok (createBuildResult b elapsed)) (world s) (trace s))
    | None => None
    end.

(** The answers that take the one job of a batch from the lookup to
    the store when the toolchain succeeds (no [chmod] for Windows),
    and those that take it through a lookup. *)
Definition builds (target : BuildTarget) (binary : blob) : list label :=
  [Job 0 Done; Job 0 Done; Job 0 (Exit0 binary)]
    ++ (if String.eqb (os target) "windows" then [] else [Job 0 Done])
    ++ [Job 0 Done].

Definition looks_up : list label := [Job 0 Done; Job 0 Done].

End GoBuilder.

(** ** [cli.ts]: target resolution and configuration assembly *)

Module CLI.

(** The properties an object literal inherits from [Object.prototype]
    that are functions, and how a template literal prints such a
    function; [constructor] is the function [Object], and [__proto__]
    the prototype object itself. *)
Definition inherited : list string :=
  [ "__defineGetter__"; "__defineSetter__"; "hasOwnProperty";
    "__lookupGetter__"; "__lookupSetter__"; "isPrototypeOf";
    "propertyIsEnumerable"; "toString"; "valueOf"; "toLocaleString" ].

Definition native (name : string) : string :=
  "function " +:+ name +:+ "() { [native code] }".

(** [NODE_TO_GO_ARCH[arch] || arch], as [`${os}/${goArch}`] prints it:
    the lookup finds the four properties of the literal and those it
    inherits, all of them truthy. *)
Definition NODE_TO_GO_ARCH (a : string) : string :=
  if String.eqb a "x64" then "amd64"
  else if String.eqb a "ia32" then "386"
  else if String.eqb a "arm64" then "arm64"
  else if String.eqb a "arm" then "arm"
  else if String.eqb a "constructor" then native "Object"
  else if String.eqb a "__proto__" then "[object Object]"
  else if existsb (String.eqb a) inherited then native a
  else a.

Definition generateOutputName (now : string)
    (os arch version outputDir binaryName : string) : string :=
  let timestamp := JS.remove_chars ["-"%char] (hd "" (JS.split "T" now)) in
  let ext := if String.eqb os "windows" then ".exe" else "" in
  outputDir +:+ "/" +:+ binaryName +:+ "-" +:+ version +:+ "-" +:+ os
    +:+ "-" +:+ arch +:+ "-" +:+ timestamp +:+ ext.

(** The platform strings the directives of [options] stand for
    ([options.target] is the array a variadic option gives). *)
Definition platforms (options : CLIOptions) (e : Env) : list string :=
  if JS.or_false (opt_all options) then SUPPORTED_PLATFORMS
  else
    match opt_target options, opt_os options, opt_arch options with
    | Some (p :: ps), _, _ => p :: ps
    | _, Some oses, Some archs =>
        flat_map (fun o => map (fun a => o +:+ "/" +:+ NODE_TO_GO_ARCH a) archs) oses
    | _, Some oses, None =>
        map (fun o => o +:+ "/" +:+ NODE_TO_GO_ARCH (process_arch e)) oses
    | _, None, Some archs =>
        map (fun a => process_platform e +:+ "/" +:+ NODE_TO_GO_ARCH a) archs
    | _, None, None =>
        [process_platform e +:+ "/" +:+ NODE_TO_GO_ARCH (process_arch e)]
    end.

(** The body of [platforms.map(...)] for one platform string; [now] is
    what [new Date().toISOString()] gives when it runs. *)
Definition resolveTarget (options : CLIOptions) (now : string)
    (platform : string) : result BuildTarget :=
  match JS.split "/" platform with
  | os :: arch :: _ =>
      if JS.truthy os && JS.truthy arch then
        Ok (mkTarget os arch
              (generateOutputName now os arch
                 (JS.or_default (opt_version options) "1.0.0")
                 (JS.or_default (opt_output options) "dist")
                 (JS.or_default (opt_name options) "app"))
              platform)
      else Throw ("Invalid platform format: " +:+ platform)
  | _ => Throw ("Invalid platform format: " +:+ platform)
  end.

(** [platforms.map(...)]: the first exception ends the map; [k] counts
    the calls of [new Date()] so far. *)
Fixpoint resolveTargets (options : CLIOptions) (e : Env) (k : nat)
    (ps : list string) : result (list BuildTarget) :=
  match ps with
  | [] => Ok []
  | p :: ps =>
      match resolveTarget options (clock e k) p with
      | Throw m => Throw m
      | Ok t =>
          match resolveTargets options e (S k) ps with
          | Throw m => Throw m
          | Ok ts => Ok (t :: ts)
          end
      end
  end.

Definition determineTargets (options : CLIOptions) (e : Env)
    : result (list BuildTarget) :=
  resolveTargets options e 0 (platforms options e).

Definition createBuildConfig (options : CLIOptions) (e : Env)
    : result BuildConfig :=
  match determineTargets options e with
  | Throw m => Throw m
  | Ok targets =>
      let timestamp :=
        hd "" (JS.split "." (JS.remove_chars ["-"%char; ":"%char]
                               (clock e (List.length targets)))) in
      Ok {| targets := targets;
            ldflags := JS.or_default (opt_ldflags options) "";
            tags := GoUtils.parseTags (opt_tags options);
            cgo := JS.or_false (opt_cgo options);
            race := JS.or_false (opt_race options);
            compress := JS.or_false (opt_compress options);
            version := JS.or_default (opt_version options) "1.0.0";
            buildVersion := JS.or_default (opt_buildVersion options) "";
            checksum := JS.not_false (opt_checksum options);
            clean := JS.not_false (opt_clean options);
            debug := JS.or_false (opt_debug options);
            verbose := JS.or_false (opt_verbose options);
            timestamp := timestamp;
            gitHash := GoUtils.getGitHash e;
            randomHash := GoUtils.generateRandomHash e 10;
            outputDir := JS.or_default (opt_output options) "dist";
            binaryName := JS.or_default (opt_name options) "app";
            static := JS.or_false (opt_static options);
            strip := JS.or_false (opt_strip options);
            timeout := JS.parseInt (JS.or_default (opt_timeout options) "300");
            parallel := JS.parseInt (JS.or_default (opt_parallel options) "2");
            skipTests := JS.or_false (opt_skipTests options);
            skipVerification := JS.or_false (opt_skipVerification options);
            noCache := Some (JS.or_false (opt_noCache options)) |}
  end.

(** The [cache] command: [--clear] purges the store. *)
Definition cache_command (clear : bool) (w : World) : World * list event :=
  if clear then BuildCache.cleanCache w else (w, []).

(** The [clean] command, as far as the cache store goes: the loop over
    the directories removes [.mkgo-cache] under [--all] or [--cache],
    and [cleanCache] runs after it under the same flags. *)
Definition clean_command (all cache_flag : bool) (w : World)
    : World * list event :=
  let w1 :=
    match cache w with
    | Some _ => if all || cache_flag then set_cache None w else w
    | None => w
    end in
  if cache_flag || all then BuildCache.cleanCache w1 else (w1, []).

(** [runBuild]: a new [GoBuilder] builds the configuration. *)
Definition runBuild (e : Env) (cpus : nat) (config : BuildConfig)
    (ls : list GoBuilder.label) (elapsed : Z) (w : World)
    : option GoBuilder.Built :=
  GoBuilder.build (process_env e) cpus config ls elapsed w.

End CLI.

(** ** Reading the jobs of a scheduler state *)

Module Jobs.
Import GoBuilder.

(** The platform label a job adds to [failedBuilds]. *)
Definition fail_of (j : BuildTarget * phase) : option string :=
  match snd j with
  | BuildFailed => Some (platform (fst j))
  | _ => None
  end.

(** The path a job adds to [builtBinaries]. *)
Definition built_of (j : BuildTarget * phase) : option string :=
  match snd j with
  | Restored | CachePersisted => Some (output (fst j))
  | _ => None
  end.

Definition fails (jobs : list (BuildTarget * phase)) : list string :=
  omap fail_of jobs.

Definition built (jobs : list (BuildTarget * phase)) : list string :=
  omap built_of jobs.

Definition is_job (l : label) : bool :=
  match l with Job _ _ => true | Next => false end.

Definition is_purge (e : event) : bool :=
  match e with EvCleanCache _ => true | _ => false end.

(** The bookkeeping between a state [s0] and a later state [s]: what
    the builder's lists gained is what the jobs that settled since
    account for, and every path gained names a file that exists. *)
Definition accounted (s0 s : Sched) : Prop :=
  exists F B,
    failedBuilds (builder s) = failedBuilds (builder s0) ++ F
    /\ builtBinaries (builder s) = builtBinaries (builder s0) ++ B
    /\ checksumFiles (builder s) = checksumFiles (builder s0)
    /\ fails (finished s ++ running s) ≡ₚ fails (finished s0 ++ running s0) ++ F
    /\ built (finished s ++ running s) ≡ₚ built (finished s0 ++ running s0) ++ B
    /\ Forall (fun p => is_Some (fsys (world s) !! p)) B.


(** The batches [bs] run one after the other: the jobs of the batches
    that ended have all settled, and the jobs under way are those of
    one batch, the batches after it still waiting. *)
Definition in_sequence (bs : list (list BuildTarget)) (s : Sched) : Prop :=
  settled (finished s) = true
  /\ exists ended,
       map fst (finished s) = concat ended
       /\ ((running s = [] /\ ended = [] /\ bs = waiting s)
           \/ bs = ended ++ map fst (running s) :: waiting s).


(** Between [s0] and a later state [s] the cache store only grows: the
    events added hold no purge, every entry is still there, and every
    new entry was stored by a job. *)
Definition grows (s0 s : Sched) : Prop :=
  exists added,
    trace s = trace s0 ++ added
    /\ forallb (fun e => negb (is_purge e)) added = true
    /\ dom (BuildCache.entries (world s0)) ⊆ dom (BuildCache.entries (world s))
    /\ forall k, k ∈ dom (BuildCache.entries (world s)) ->
         k ∈ dom (BuildCache.entries (world s0)) \/ In (EvStore k) added.

(** The characters of a string, and the lower-case hexadecimal digits. *)
Definition chars (s : string) : list ascii := list_ascii_of_string s.

Definition is_hex (c : ascii) : bool :=
  let b := JS.byte_of c in
  (48 <=? b) && (b <=? 57) || (97 <=? b) && (b <=? 102).

(** What [calculateSourceHash] returns: the sentinel or 12 hexadecimal
    digits. *)
Definition hash_shaped (sh : string) : Prop :=
  sh = "unknown"
  \/ (List.length (chars sh) = 12%nat
      /\ Forall (fun c => is_hex c = true) (chars sh)).

(** A platform string the resolver accepts: split at the slashes it has
    a first and a second component, neither of them empty. *)
Definition well_formed (p : string) : Prop :=
  exists os arch rest,
    JS.split "/" p = os :: arch :: rest /\ os <> "" /\ arch <> "".

End Jobs.

(** ** Concrete inputs, for the examples below *)

Module Samples.
Import GoBuilder.

(** A Linux host at a fixed instant, with nothing in its environment. *)
Definition host : Env :=
  mkEnv "linux" "x64" ∅ (fun _ => "2026-11-03T10:15:00.123Z")
    (Some "abc1234") (fun _ => [1; 35; 69; 103; 137]).

(** The same host a moment later: the clock and the random bytes have
    moved on. *)
Definition host_later : Env :=
  mkEnv "linux" "x64" ∅ (fun _ => "2026-11-03T10:15:07.480Z")
    (Some "abc1234") (fun _ => [171; 205; 239; 1; 35]).

(** The options of [build] with the defaults the command declares and
    the given directives. *)
Definition options (target os arch : option (list string))
    (all : option bool) (parallel : string) (clean : bool) : CLIOptions :=
  mkOptions target os arch all (Some "1.0.0") None None None
    (Some false) (Some false) (Some false) (Some true) (Some clean)
    (Some false) (Some false) (Some "dist") (Some "app") (Some false)
    (Some false) (Some "300") (Some parallel) (Some false) (Some false)
    (Some false).

Definition linux : BuildTarget :=
  mkTarget "linux" "amd64" "dist/app-1.0.0-linux-amd64-20261103" "linux/amd64".

Definition windows : BuildTarget :=
  mkTarget "windows" "amd64" "dist/app-1.0.0-windows-amd64-20261103.exe"
    "windows/amd64".

Definition config_of (ts : list BuildTarget) (parallel : JS.number)
    (clean : bool) (noCache : option bool) : BuildConfig :=
  mkConfig ts "" [] false false false "1.0.0" "" true clean false false
    "20261103T101500" "abc1234" "0123456789" "dist" "app" false false
    (JS.Int 300) parallel false false noCache.

Definition sources : SourceTree :=
  mkTree (Some ("./main.go" +:+ String JS.LF "./util.go"))
    (<["./main.go" := Some "package main"]>
       (<["./util.go" := Some "package util"]> ∅)).

(** A Go project with no cache directory and nothing built yet. *)
Definition empty_world : World := mkWorld sources None ∅ true.

(** The same project with one entry in its cache. *)
Definition cached_world : World :=
  mkWorld sources (Some {["linux/amd64-old-key" := "ELF"]}) ∅ true.

(** A state in which the batch of [ts] has just started. *)
Definition batch_started (ts : list BuildTarget) : Sched :=
  mkSched empty_world fresh [] (map (fun t => (t, Hashing)) ts) [] [].

Definition two_targets : BuildConfig :=
  config_of [linux; windows] (JS.Int 2) false (Some false).

(** An interleaving of the two jobs of the batch in which the toolchain
    fails for Windows and succeeds for Linux. *)
Definition windows_fails : list label :=
  [ Job 0 Done; Job 1 Done; Job 1 Done; Job 0 Done; Job 1 Failed;
    Job 0 (Exit0 "ELF"); Job 0 Done; Job 0 Done ].

Definition after_windows_fails : Sched :=
  default (batch_started [linux; windows])
    (run ∅ two_targets windows_fails (batch_started [linux; windows])).

(** What [--parallel abc] and [--parallel 0] lead to. *)
Definition parallel_nan : BuildConfig :=
  config_of [linux; windows] JS.NaN false (Some false).

Definition parallel_zero : BuildConfig :=
  config_of [linux; windows] (JS.Int 0) false (Some false).

Definition duplicated : CLIOptions :=
  options (Some ["linux/amd64"; "linux/amd64"]) None None None "2" true.

(** [--os linux --arch x64 amd64]: two spellings of one architecture. *)
Definition aliased : CLIOptions :=
  options None (Some ["linux"]) (Some ["x64"; "amd64"]) None "2" true.

Definition everything : CLIOptions :=
  options None None None (Some true) "2" true.

(** A pair outside the supported set, a string with a third component,
    and the comma-separated form the help of [--target] shows. *)
Definition odd_platforms : CLIOptions :=
  options (Some ["plan9/mips"; "linux/amd64/extra"; "linux/amd64,darwin/arm64"])
    None None None "2" true.

Definition no_separator : CLIOptions :=
  options (Some ["linux/amd64"; "windows"]) None None None "2" true.

(** A build of the Linux target alone with [clean] set, as the [build]
    command has it by default, in a project whose cache has an entry;
    the toolchain succeeds. *)
Definition cleaning : BuildConfig :=
  config_of [linux] (JS.Int 2) true (Some false).

Definition linux_builds : list label :=
  [ Next; Job 0 Done; Job 0 Done; Job 0 (Exit0 "ELF2"); Job 0 Done; Job 0 Done ].

Definition after_cleaning : Built :=
  default (mkBuilt (Throw "") cached_world [])
    (build ∅ 8 cleaning linux_builds 1500 cached_world).

(** [two_targets] with the cache-bypass flag set. *)
Definition bypass : BuildConfig := with_noCache (Some true) two_targets.



(** The sources with [util.go] renamed to [util_windows.go], which
    takes it out of the Linux build. *)
Definition sources_renamed : SourceTree :=
  mkTree (Some ("./main.go" +:+ String JS.LF "./util_windows.go"))
    (<["./main.go" := Some "package main"]>
       (<["./util_windows.go" := Some "package util"]> ∅)).

(** The sources next to a file that [find] does not list. *)
Definition sources_with_notes : SourceTree :=
  mkTree (find_stdout sources) (<["./notes.txt" := Some "todo"]> (files sources)).

(** The sources as [find] lists them in another directory order. *)
Definition sources_reordered : SourceTree :=
  mkTree (Some ("./util.go" +:+ String JS.LF "./main.go")) (files sources).

(** [two_targets] with the Linux binary written under another name. *)
Definition two_targets_moved : BuildConfig :=
  config_of
    [ mkTarget "linux" "amd64" "dist/app-1.0.0-linux-amd64-20261104" "linux/amd64";
      windows ]
    (JS.Int 2) false (Some false).

(** A complete run of [two_targets] in which both toolchain calls
    succeed, one in which both lookups hit, and one in which the
    toolchain of the second target runs into the timeout. *)
Definition both_build : list label :=
  [ Next; Job 0 Done; Job 1 Done; Job 0 Done; Job 1 Done;
    Job 1 (Exit0 "PE"); Job 0 (Exit0 "ELF"); Job 0 Done; Job 0 Done; Job 1 Done ].

Definition both_restore : list label :=
  [ Next; Job 0 Done; Job 1 Done; Job 0 Done; Job 1 Done ].

Definition second_times_out : list label :=
  [ Next; Job 0 Done; Job 1 Done; Job 0 Done; Job 1 Done;
    Job 1 Failed; Job 0 (Exit0 "ELF"); Job 0 Done; Job 0 Done ].

Definition after_both_build : World :=
  from_option world_after empty_world
    (build ∅ 8 two_targets both_build 2000 empty_world).

(** The [build] command with its defaults, for the host's platform. *)
Definition defaults : CLIOptions := options None None None None "2" true.

(** A shell that exports [GOOS] and [CGO_ENABLED], as a CI image or a
    developer's profile may. *)
Definition exported : gmap string string :=
  <["GOOS" := "linux"]> (<["CGO_ENABLED" := "1"]> (<["HOME" := "/root"]> ∅)).

End Samples.

(** ** Reading the trace of a build *)

Module Trace.
Import GoBuilder.

Definition is_spawn (e : event) : bool :=
  match e with EvGo _ _ _ => true | _ => false end.

Definition is_exit (e : event) : bool :=
  match e with EvGoExit _ _ => true | _ => false end.




(** How many events of a trace satisfy [p]. *)
Definition count (p : event -> bool) (tr : list event) : nat :=
  List.length (List.filter p tr).


(** The sum of [e] over a trace, and of [m] over the phases of jobs. *)
Fixpoint weight (e : event -> Z) (tr : list event) : Z :=
  match tr with
  | [] => 0
  | ev :: tr => e ev + weight e tr
  end.

Fixpoint load (m : phase -> Z) (jobs : list (BuildTarget * phase)) : Z :=
  match jobs with
  | [] => 0
  | j :: jobs => m (snd j) + load m jobs
  end.

Definition indicator {A} (p : A -> bool) (x : A) : Z := if p x then 1 else 0.


(** A bound on the steps a job in phase [ph] is away from having
    settled. *)
Definition rank (ph : phase) : nat :=
  match ph with
  | Hashing => 3
  | Restoring _ => 2
  | Building _ | Chmod _ | Saving _ => 1
  | Restored | CachePersisted | BuildFailed => 0
  end.


(** A batch of [ts] has just started after the events [evs]. *)
Definition batch_after (w : World) (evs : list event) (ts : list BuildTarget)
    : Sched :=
  mkSched w fresh [] (map (fun t => (t, Hashing)) ts) [] evs.

End Trace.

(** ** Reading strings *)

Module Text.

(** Whether the character [c] occurs in [s]. *)
Fixpoint has_char (c : ascii) (s : string) : bool :=
  match s with
  | EmptyString => false
  | String d r => Ascii.eqb d c || has_char c r
  end.

(** A non-empty name without a slash: what one component of a platform
    string is. *)
Definition component (s : string) : Prop :=
  s <> "" /\ has_char "/" s = false.

(** A relative path in normal form: no component is empty, [.] or
    [..], so it has no leading, trailing or doubled slash. *)
Definition named (c : string) : bool :=
  negb (String.eqb c "" || String.eqb c "." || String.eqb c "..").

Definition plain (p : string) : bool := forallb named (JS.split "/" p).

End Text.

(** ** [cli.ts]: the size of a directory *)

Module Disk.

(** What [getDirectorySize] finds on its way: a file of so many bytes, a
    directory and its items, a directory that cannot be listed, an item
    whose [stat] throws. *)
#[local] Set Warnings "-register-all".

Inductive node :=
  | File (size : Z)
  | Folder (items : list node)
  | Locked
  | Gone.

Definition MiB : Z := 1048576.

(** [Math.round(total / 1024 / 1024)] on a count of bytes. *)
Definition round_mb (total : Z) : Z := (2 * total + MiB) / (2 * MiB).

(** [getDirectorySize]: the sizes of the files and, for each directory
    among the items, what [getDirectorySize] returns for it, are added
    up; any exception on the way makes the result 0. *)
Fixpoint getDirectorySize (dir : node) : Z :=
  match dir with
  | Folder items =>
      let fix total (l : list node) : option Z :=
        match l with
        | [] => Some 0
        | item :: rest =>
            match item with
            | Gone => None
            | File size => Z.add size <$> total rest
            | Folder _ | Locked => Z.add (getDirectorySize item) <$> total rest
            end
        end in
      match total items with
      | Some bytes => round_mb bytes
      | None => 0
      end
  | File _ | Locked | Gone => 0
  end.

(** The loop of [getDirectorySize] over the items of a directory. *)
Fixpoint totalSize (l : list node) : option Z :=
  match l with
  | [] => Some 0
  | item :: rest =>
      match item with
      | Gone => None
      | File size => Z.add size <$> totalSize rest
      | Folder _ | Locked => Z.add (getDirectorySize item) <$> totalSize rest
      end
  end.

(** A directory of files of the given sizes. *)
Definition flat (sizes : list Z) : node := Folder (map File sizes).

Fixpoint sum (sizes : list Z) : Z :=
  match sizes with
  | [] => 0
  | z :: rest => z + sum rest
  end.

End Disk.

(** ** [cli.ts]: the [build] command *)

Module Command.

(** The options of [build] that steer [execute] itself. *)
Record Flags := mkFlags {
  listPlatforms : bool;
  silent : bool;
  metrics : bool;
  benchmark : bool
}.

(** How [execute] ends: it returns, or it calls [process.exit]. *)
Inductive status :=
  | Returned
  | Exited (code : Z).

Record Run := mkRun {
  status_of : status;
  built_of : option GoBuilder.Built
}.

(** What the file system answers to the operations of the command that
    the model of [build] takes to go through: whether the removal of
    the output and cache directories and [ensureDir] go through,
    whether the checksum files can be written, and whether
    [generateBuildMetrics] can write its file (the files themselves
    are left out). *)
Record Files := mkFiles {
  prepared : bool;
  summed : bool;
  metrics_written : bool
}.

(** [execute]. An operation of [build] that throws makes [build]
    throw, and the command exit with status 1: the directory
    operations come after the check for [go.mod] and before the
    batches, the checksum files after them, when [config.checksum] is
    set and a binary was built. [None] when the build under the
    schedule [ls] gives no result. *)
Definition execute (flags : Flags) (options : CLIOptions) (e : Env)
    (cpus : nat) (ls : list GoBuilder.label) (elapsed : Z)
    (io : Files) (w : World) : option Run :=
  if listPlatforms flags then Some (mkRun Returned None)
  else
    match CLI.createBuildConfig options e with
    | Throw _ => Some (mkRun (Exited 1) None)
    | Ok config =>
        if go_project w && negb (prepared io) then Some (mkRun (Exited 1) None)
        else
          match CLI.runBuild e cpus config ls elapsed w with
          | None => None
          | Some r =>
              match GoBuilder.outcome_of r with
              | Throw _ => Some (mkRun (Exited 1) (Some r))
              | Ok result =>
                  if checksum config
                     && negb (Nat.eqb (List.length (binaries result)) 0)
                     && negb (summed io)
                  then Some (mkRun (Exited 1) None)
                  else if metrics flags && negb (metrics_written io)
                  then Some (mkRun (Exited 1) (Some r))
                  else if negb (success result)
                  then Some (mkRun (Exited 1) (Some r))
                  else Some (mkRun Returned (Some r))
              end
          end
    end.

End Command.

(** ** Concrete runs of the command *)

Module Cases.
Import GoBuilder.

(** The build of [Samples.two_targets] in which the toolchain of the
    second target runs into the timeout, and its result. *)
Definition timed_out : Built :=
  default (mkBuilt (Throw "") Samples.empty_world [])
    (build ∅ 8 Samples.two_targets Samples.second_times_out 300500
       Samples.empty_world).

Definition timed_out_result : BuildResult :=
  match outcome_of timed_out with
  | Ok res => res
  | Throw _ => mkResult false [] [] [] 0
  end.

(** The configuration of the [build] command with its defaults. *)
Definition default_config : BuildConfig :=
  match CLI.createBuildConfig Samples.defaults Samples.host with
  | Ok config => config
  | Throw _ => Samples.two_targets
  end.

(** [build] with no flag of its own, and the run in which the one
    target of the defaults is built. *)
Definition plain : Command.Flags := Command.mkFlags false false false false.

Definition writable : Command.Files := Command.mkFiles true true true.

Definition one_build : list label :=
  Next :: match targets default_config with
          | t :: _ => builds t "ELF"
          | [] => []
          end.

Definition ended : Command.Run :=
  default (Command.mkRun (Command.Exited 1) None)
    (Command.execute plain Samples.defaults Samples.host 8 one_build 1200 writable
       Samples.empty_world).

End Cases.

(** * Properties *)

(** ** The primitives on known values *)

Example md5_empty : MD5.md5_hex "" = "d41d8cd98f00b204e9800998ecf8427e".
Proof. vm_compute. reflexivity. Qed.

Example md5_abc : MD5.md5_hex "abc" = "900150983cd24fb0d6963f7d28e17f72".
Proof. vm_compute. reflexivity. Qed.

Example md5_two_blocks :
  MD5.md5_hex "aaaaaaaaaaaaaaaaaaaaaaaaaaaaaaaaaaaaaaaaaaaaaaaaaaaaaaaa"
  = "3b0c8ac703f828b04c6c197006d17218".
Proof. vm_compute. reflexivity. Qed.

Example md5_three_blocks :
  MD5.md5_hex "The quick brown fox jumps over the lazy dogThe quick brown fox jumps over the lazy dogThe quick brown fox jumps over the lazy dog"
  = "4e67db4a7a406b0cfdadd887cde7888e".
Proof. vm_compute. reflexivity. Qed.

Example parseInt_ex :
  JS.parseInt "300" = JS.Int 300 /\ JS.parseInt " -12px" = JS.Int (-12)
  /\ JS.parseInt "0x1f" = JS.Int 31 /\ JS.parseInt "abc" = JS.NaN
  /\ JS.parseInt "" = JS.NaN /\ JS.dec 1203 = "1203" /\ JS.dec 0 = "0" /\ JS.dec (-45) = "-45".
Proof. vm_compute. repeat split; reflexivity. Qed.

Example split_ex :
  JS.split "/" "linux/amd64" = ["linux"; "amd64"] /\ JS.split "/" "" = [""]
  /\ JS.split "/" "a//b/" = ["a"; ""; "b"; ""].
Proof. vm_compute. repeat split; reflexivity. Qed.

Example getCacheKey_two_targets :
  BuildCache.getCacheKey Samples.sources Samples.linux Samples.two_targets
  = "linux/amd64-e1dfb8155737-dfe47ccd98e7bab11d30f0e38af04cb0"
  /\ BuildCache.getCacheKey Samples.sources Samples.linux Samples.bypass
     = "linux/amd64-e1dfb8155737-5f698b0febd9d8c8d742106e50d538f0"
  /\ BuildCache.getCacheKey Samples.sources Samples.linux Samples.two_targets_moved
     = "linux/amd64-e1dfb8155737-10d2e0cffdb62a79fffb896e5c71aab8".
Proof. vm_compute. repeat split; reflexivity. Qed.

(** ** The scenarios of the specification, on one configuration record *)

Example both_targets_build :
  GoBuilder.outcome_of <$> GoBuilder.build ∅ 8 Samples.two_targets Samples.both_build 2000 Samples.empty_world
  = Some (Ok (mkResult true [output Samples.linux; output Samples.windows]
                [ "dist/checksums.txt";
                  "dist/checksums/app-1.0.0-linux-amd64-20261103.sha256";
                  "dist/checksums/app-1.0.0-windows-amd64-20261103.exe.sha256" ]
                [] 2000)).
Proof. by vm_compute. Qed.

Example both_targets_restored :
  (fun r => (GoBuilder.outcome_of r, existsb (fun e => match e with EvGo _ _ _ => true | _ => false end) (GoBuilder.trace_of r)))
    <$> GoBuilder.build ∅ 8 Samples.two_targets Samples.both_restore 40 Samples.after_both_build
  = Some (Ok (mkResult true [output Samples.linux; output Samples.windows]
                [ "dist/checksums.txt";
                  "dist/checksums/app-1.0.0-linux-amd64-20261103.sha256";
                  "dist/checksums/app-1.0.0-windows-amd64-20261103.exe.sha256" ]
                [] 40), false).
Proof. by vm_compute. Qed.

Example one_target_times_out :
  GoBuilder.outcome_of <$> GoBuilder.build ∅ 8 Samples.two_targets Samples.second_times_out 300500 Samples.empty_world
  = Some (Ok (mkResult false [output Samples.linux]
                [ "dist/checksums.txt";
                  "dist/checksums/app-1.0.0-linux-amd64-20261103.sha256" ]
                ["windows/amd64"] 300500)).
Proof. by vm_compute. Qed.

(** ** The batching loop *)

Section Batches.
Import GoBuilder.

Context {A : Type}.

Lemma slice_window (l : list A) (i n : Z) :
  0 <= i -> 1 <= n ->
  JS.slice l (JS.Int i) (JS.Int (i + n))
  = firstn (Z.to_nat n) (skipn (Z.to_nat i) l).
Proof.
  intros Hi Hn. unfold JS.slice. cbn [JS.to_integer].
  destruct (Z.ltb_spec i 0) as [|_]; [lia|].
  destruct (Z.ltb_spec (i + n) 0) as [|_]; [lia|].
  remember (Z.of_nat (List.length l)) as len eqn:E.
  destruct (Z.le_gt_cases len i) as [Hle|Hlt].
  - rewrite (Z.min_r i len) by lia.
    assert (H1 : drop (Z.to_nat len) l = []) by (apply drop_ge; lia).
    assert (H2 : drop (Z.to_nat i) l = []) by (apply drop_ge; lia).
    by rewrite H1, H2, !take_nil.
  - rewrite (Z.min_l i len) by lia.
    destruct (Z.le_gt_cases (i + n) len) as [Hin|Hout].
    + rewrite (Z.min_l (i + n) len) by lia. f_equal. lia.
    + rewrite (Z.min_r (i + n) len) by lia.
      rewrite !firstn_all2; [done| |]; rewrite length_skipn; lia.
Qed.

End Batches.

Section BatchesOfTargets.
Import GoBuilder.

Lemma batches_loop_eq fuel ts limit i :
  batches_loop fuel ts limit i
  = if JS.num_lt i (JS.Int (Z.of_nat (List.length ts))) then
      match fuel with
      | O => None
      | S fuel =>
          cons (JS.slice ts i (JS.num_add i limit))
            <$> batches_loop fuel ts limit (JS.num_add i limit)
      end
    else Some [].
Proof. destruct fuel; reflexivity. Qed.

(** With a limit of at least one, the loop ends within one iteration
    per remaining target and cuts the targets from [i] on into
    consecutive pieces of [n] targets, the last one possibly shorter. *)
Lemma batches_loop_positive (n : Z) (ts : list BuildTarget) :
  1 <= n ->
  forall fuel i, 0 <= i ->
    (List.length ts - Z.to_nat i <= fuel)%nat ->
    exists bs,
      batches_loop fuel ts (JS.Int n) (JS.Int i) = Some bs
      /\ concat bs = drop (Z.to_nat i) ts
      /\ Forall (fun b => List.length b = Z.to_nat n) (removelast bs)
      /\ Forall (fun b => (0 < List.length b <= Z.to_nat n)%nat) bs.
Proof.
  intros Hn. induction fuel as [|fuel IH]; intros i Hi Hfuel;
    rewrite batches_loop_eq; cbn [JS.num_lt JS.num_add];
    destruct (Z.ltb_spec i (Z.of_nat (List.length ts))) as [Hlt|Hge].
  - lia.
  - exists []. rewrite drop_ge by lia. by repeat split.
  - destruct (IH (i + n)) as (bs & Hbs & Hcat & Hfull & Hlen); [lia|lia|].
    rewrite Hbs. cbn [fmap option_fmap option_map].
    rewrite slice_window by lia.
    exists (take (Z.to_nat n) (drop (Z.to_nat i) ts) :: bs).
    assert (Hdrop : drop (Z.to_nat (i + n)) ts
                    = drop (Z.to_nat n) (drop (Z.to_nat i) ts)).
    { rewrite drop_drop. f_equal. lia. }
    split; [done|]. split; [|split].
    + cbn [concat]. rewrite Hcat, Hdrop. apply take_drop.
    + destruct bs as [|b bs]; [constructor|].
      change (removelast (?x :: b :: bs)) with (x :: removelast (b :: bs)).
      constructor; [|done].
      apply Forall_cons in Hlen as [Hb _].
      assert (Hne : (0 < List.length (drop (Z.to_nat (i + n)) ts))%nat).
      { rewrite <- Hcat. cbn [concat]. rewrite length_app. lia. }
      rewrite length_drop in Hne.
      rewrite length_take, length_drop. lia.
    + constructor; [|done].
      rewrite length_take, length_drop. lia.
  - exists []. rewrite drop_ge by lia. by repeat split.
Qed.

(** With a limit that is NaN the loop runs once and leaves one empty
    batch; with a limit of zero or less it never ends. *)
Lemma batches_loop_nan fuel t ts :
  batches_loop (S fuel) (t :: ts) JS.NaN (JS.Int 0) = Some [[]].
Proof.
  rewrite batches_loop_eq. cbn [JS.num_lt JS.num_add].
  destruct (Z.ltb_spec 0 (Z.of_nat (List.length (t :: ts)))) as [_|H];
    [|cbn in H; lia].
  rewrite batches_loop_eq. reflexivity.
Qed.

Lemma batches_loop_diverges (n : Z) (ts : list BuildTarget) :
  n <= 0 ->
  forall fuel i, i < Z.of_nat (List.length ts) ->
    batches_loop fuel ts (JS.Int n) (JS.Int i) = None.
Proof.
  intros Hn. induction fuel as [|fuel IH]; intros i Hi;
    rewrite batches_loop_eq; cbn [JS.num_lt JS.num_add];
    destruct (Z.ltb_spec i (Z.of_nat (List.length ts))) as [_|Hge];
    try lia; [done|].
  rewrite IH by lia. done.
Qed.

End BatchesOfTargets.

(** ** The scheduler: what every run preserves *)

Section ListFacts.
Context {A B : Type} (f : A -> option B).

Lemma omap_insert_new (l : list A) (i : nat) (x y : A) :
  l !! i = Some x -> f x = None ->
  omap f (<[i := y]> l) ≡ₚ omap f l ++ option_list (f y).
Proof.
  intros Hi Hx.
  rewrite insert_take_drop by (by eapply lookup_lt_Some).
  rewrite <- (take_drop_middle l i x Hi) at 3.
  rewrite !omap_app. cbn [omap list_omap]. rewrite Hx.
  destruct (f y) as [v|]; cbn [option_list].
  - rewrite <- app_assoc. apply Permutation_app_head.
    apply Permutation_cons_append.
  - by rewrite app_nil_r.
Qed.

Lemma omap_none (l : list A) :
  Forall (fun x => f x = None) l -> omap f l = [].
Proof.
  induction 1 as [|x l Hx _ IH]; [done|].
  cbn [omap list_omap]. by rewrite Hx.
Qed.

Lemma omap_all (g : A -> B) (l : list A) :
  Forall (fun x => f x = Some (g x)) l -> omap f l = map g l.
Proof.
  induction 1 as [|x l Hx _ IH]; [done|].
  cbn [omap list_omap map]. rewrite Hx. by f_equal.
Qed.

Lemma Forall_but (P : A -> Prop) (l : list A) (i : nat) :
  (forall j x, j <> i -> l !! j = Some x -> P x) ->
  Forall P (take i l) /\ Forall P (drop (S i) l).
Proof.
  intros H. split; apply Forall_lookup; intros j x Hj.
  - apply lookup_take_Some in Hj as [Hj Hlt]. apply (H j); [lia|done].
  - rewrite lookup_drop in Hj. apply (H (S i + j)%nat); [lia|done].
Qed.

End ListFacts.

Section Scheduler.
Import GoBuilder Jobs.

Variable penv : gmap string string.
Variable config : BuildConfig.

Lemma run_app ls1 ls2 s :
  run penv config (ls1 ++ ls2) s
  = match run penv config ls1 s with
    | Some s1 => run penv config ls2 s1
    | None => None
    end.
Proof.
  revert s. induction ls1 as [|l ls1 IH]; intros s; [done|].
  cbn [run app]. destruct (sched_step penv config l s); [apply IH|done].
Qed.

(** A property every step preserves holds all along a run. *)
Lemma run_preserves (P : Sched -> Prop) :
  (forall l s s', P s -> sched_step penv config l s = Some s' -> P s') ->
  forall ls s s', P s -> run penv config ls s = Some s' -> P s'.
Proof.
  intros Hstep. induction ls as [|l ls IH]; intros s s' Hs Hrun.
  - cbn in Hrun. by simplify_eq.
  - cbn [run] in Hrun.
    destruct (sched_step penv config l s) as [s1|] eqn:E; [|done].
    eapply IH; [|done]. by eapply Hstep.
Qed.

(** What one step of a job does to the lists of the builder. *)
Lemma job_step_builder target o ph w b js :
  job_step penv config target o ph w b = Some js ->
  terminal ph = false
  /\ match next_phase js with
     | BuildFailed => next_builder js = push_failed (platform target) b
     | Restored | CachePersisted =>
         next_builder js = push_built (output target) b
         /\ is_Some (fsys (next_world js) !! output target)
     | _ => next_builder js = b
     end.
Proof.
  unfold job_step, BuildCache.restoreFromCache, BuildCache.saveToCache,
    caught, spawn.
  intros H. split; [by destruct ph|].
  destruct ph, o; simplify_eq; cbn; try done;
    repeat (case_match; simplify_eq; cbn in * ); try done;
    split; try done; cbn; rewrite ?lookup_insert_eq; eauto.
Qed.

(** A job removes no file and no cache entry, and never purges. *)
Lemma job_step_world target o ph w b js :
  job_step penv config target o ph w b = Some js ->
  dom (fsys w) ⊆ dom (fsys (next_world js))
  /\ dom (BuildCache.entries w) ⊆ dom (BuildCache.entries (next_world js))
  /\ forallb (fun e => negb (is_purge e)) (emitted js) = true.
Proof.
  unfold job_step, BuildCache.restoreFromCache, BuildCache.saveToCache,
    caught, spawn, BuildCache.entries.
  intros H.
  destruct ph, o; simplify_eq; cbn;
    repeat (case_match; simplify_eq; cbn in * );
    repeat split; try done; cbn; try set_solver.
Qed.

Lemma fresh_batch_silent (batch : list BuildTarget) :
  fails (map (fun t => (t, Hashing)) batch) = []
  /\ built (map (fun t => (t, Hashing)) batch) = [].
Proof.
  split; induction batch as [|t batch IH]; done.
Qed.

Lemma fails_app a b : fails (a ++ b) = fails a ++ fails b.
Proof. apply omap_app. Qed.

Lemma built_app a b : built (a ++ b) = built a ++ built b.
Proof. apply omap_app. Qed.

Lemma accounted_refl s : accounted s s.
Proof.
  exists [], []. rewrite !app_nil_r. repeat split; done.
Qed.

Lemma accounted_step s0 l s s' :
  accounted s0 s -> sched_step penv config l s = Some s' -> accounted s0 s'.
Proof.
  intros (F & B & HF & HB & HC & HpF & HpB & Hex) Hstep.
  destruct l as [|i o]; cbn [sched_step] in Hstep.
  - destruct (settled (running s)); [|done].
    destruct (waiting s) as [|batch rest]; simplify_eq.
    exists F, B. cbn [builder finished running world].
    rewrite fails_app, built_app.
    destruct (fresh_batch_silent batch) as [-> ->].
    rewrite !app_nil_r. done.
  - destruct (running s !! i) as [[target ph]|] eqn:Hi; [|done].
    destruct (job_step penv config target o ph (world s) (builder s))
      as [js|] eqn:Hjs; simplify_eq.
    destruct (job_step_builder _ _ _ _ _ _ Hjs) as [Hph Hb].
    destruct (job_step_world _ _ _ _ _ _ Hjs) as (Hfs & _ & _).
    assert (Hkeep : Forall (fun p => is_Some (fsys (next_world js) !! p)) B).
    { eapply Forall_impl; [exact Hex|]. intros p Hp.
      apply elem_of_dom. apply Hfs. by apply elem_of_dom. }
    assert (HnF : fail_of (target, ph) = None) by (by destruct ph).
    assert (HnB : built_of (target, ph) = None) by (by destruct ph).
    pose proof (omap_insert_new fail_of _ _ _ (target, next_phase js) Hi HnF) as HiF.
    pose proof (omap_insert_new built_of _ _ _ (target, next_phase js) Hi HnB) as HiB.
    fold (fails (running s)) in HiF. fold (built (running s)) in HiB.
    exists (F ++ option_list (fail_of (target, next_phase js))),
           (B ++ option_list (built_of (target, next_phase js))).
    cbn [builder finished running world].
    rewrite fails_app, built_app in *.
    assert (HbF : failedBuilds (next_builder js)
                  = failedBuilds (builder s) ++ option_list (fail_of (target, next_phase js))).
    { destruct (next_phase js); cbn [fail_of snd fst option_list];
        destruct_and?; rewrite ?app_nil_r; by rewrite ?Hb, ?H. }
    assert (HbB : builtBinaries (next_builder js)
                  = builtBinaries (builder s) ++ option_list (built_of (target, next_phase js))).
    { destruct (next_phase js); cbn [built_of snd fst option_list];
        destruct_and?; rewrite ?app_nil_r; by rewrite ?Hb, ?H. }
    assert (HbC : checksumFiles (next_builder js) = checksumFiles (builder s)).
    { destruct (next_phase js); destruct_and?; by rewrite ?Hb, ?H. }
    repeat split.
    + by rewrite HbF, HF, app_assoc.
    + by rewrite HbB, HB, app_assoc.
    + by rewrite HbC.
    + unfold fails at 2. rewrite HiF.
      rewrite (app_assoc (fails (finished s))), HpF. by rewrite <- app_assoc.
    + unfold built at 2. rewrite HiB.
      rewrite (app_assoc (built (finished s))), HpB. by rewrite <- app_assoc.
    + apply Forall_app. split; [done|].
      destruct (next_phase js); cbn [built_of snd fst option_list];
        destruct_and?; by repeat constructor.
Qed.

Lemma accounted_run ls s0 s :
  run penv config ls s0 = Some s -> accounted s0 s.
Proof.
  intros Hrun.
  eapply (run_preserves (accounted s0)); [|apply accounted_refl|exact Hrun].
  intros l s1 s2. apply accounted_step.
Qed.

Lemma fresh_batch_targets (batch : list BuildTarget) :
  map fst (map (fun t => (t, Hashing)) batch) = batch.
Proof. induction batch as [|t batch IH]; [done|]. cbn. by rewrite IH. Qed.

Lemma map_fst_insert (jobs : list (BuildTarget * phase)) i t ph ph' :
  jobs !! i = Some (t, ph) ->
  map fst (<[i := (t, ph')]> jobs) = map fst jobs.
Proof.
  revert i. induction jobs as [|j jobs IH]; intros [|i] Hi; try done.
  - cbn in Hi. by simplify_eq.
  - cbn in *. by rewrite IH.
Qed.

Lemma settled_app a b : settled (a ++ b) = settled a && settled b.
Proof. apply forallb_app. Qed.

Lemma in_sequence_step bs l s s' :
  in_sequence bs s -> sched_step penv config l s = Some s' ->
  in_sequence bs s'.
Proof.
  intros (Hfin & ended & Hcat & Hrun) Hstep.
  destruct l as [|i o]; cbn [sched_step] in Hstep.
  - destruct (settled (running s)) eqn:Hset; [|done].
    destruct (waiting s) as [|batch rest] eqn:Hw; simplify_eq.
    split; cbn [finished running waiting].
    { by rewrite settled_app, Hfin, Hset. }
    rewrite fresh_batch_targets, map_app.
    destruct Hrun as [(Hr & -> & ->) | -> ].
    + exists []. rewrite Hr. cbn in *. rewrite Hcat. split; [done|]. by right.
    + exists (ended ++ [map fst (running s)]). split.
      * rewrite concat_app, Hcat. cbn. by rewrite app_nil_r.
      * right. by rewrite <- app_assoc.
  - destruct (running s !! i) as [[target ph]|] eqn:Hi; [|done].
    destruct (job_step penv config target o ph (world s) (builder s))
      as [js|]; simplify_eq.
    split; [done|]. exists ended. cbn [finished running waiting].
    split; [done|]. rewrite (map_fst_insert _ _ _ _ _ Hi).
    destruct Hrun as [(Hr & _)|Hrun]; [|by right].
    rewrite Hr in Hi. done.
Qed.

Lemma in_sequence_run bs ls s0 s :
  in_sequence bs s0 -> run penv config ls s0 = Some s -> in_sequence bs s.
Proof.
  intros H0 Hrun.
  eapply (run_preserves (in_sequence bs)); [|exact H0|exact Hrun].
  intros l s1 s2. apply in_sequence_step.
Qed.

Lemma in_sequence_targets bs s :
  in_sequence bs s ->
  map fst (finished s) ++ map fst (running s) ++ concat (waiting s) = concat bs
  /\ (running s = [] \/ In (map fst (running s)) bs).
Proof.
  intros (_ & ended & Hcat & [(Hr & -> & ->) | -> ]).
  - rewrite Hcat, Hr. split; [done|by left].
  - rewrite Hcat, concat_app. split; [done|].
    right. apply in_or_app. right. by left.
Qed.

Lemma in_flight_le s : (in_flight s <= List.length (running s))%nat.
Proof.
  unfold in_flight. induction (running s) as [|j jobs IH]; [done|].
  cbn [List.filter List.length]. destruct (is_building (snd j)); cbn; lia.
Qed.

(** The steps of jobs leave the batches where they are. *)
Lemma jobs_frame ls s0 s :
  forallb is_job ls = true -> run penv config ls s0 = Some s ->
  finished s = finished s0 /\ waiting s = waiting s0
  /\ map fst (running s) = map fst (running s0).
Proof.
  revert s0. induction ls as [|l ls IH]; intros s0 Hjobs Hrun.
  - cbn in Hrun. by simplify_eq.
  - cbn [forallb run] in *. apply andb_prop in Hjobs as [Hl Hjobs].
    destruct l as [|i o]; [done|].
    destruct (sched_step penv config (Job i o) s0) as [s1|] eqn:Hstep; [|done].
    destruct (IH _ Hjobs Hrun) as (-> & -> & ->).
    cbn [sched_step] in Hstep.
    destruct (running s0 !! i) as [[target ph]|] eqn:Hi; [|done].
    destruct (job_step penv config target o ph (world s0) (builder s0))
      as [js|]; simplify_eq.
    cbn [finished running waiting]. by rewrite (map_fst_insert _ _ _ _ _ Hi).
Qed.

(** [Promise.allSettled]: the next batch starts only once every job of
    the batch under way has settled. *)
Lemma next_waits s :
  settled (running s) = false -> sched_step penv config Next s = None.
Proof. intros H. cbn [sched_step]. by rewrite H. Qed.

(** Jobs that have all settled without a failure each recorded their
    binary. *)
Lemma settled_built jobs :
  settled jobs = true -> fails jobs = [] ->
  built jobs = map output (map fst jobs).
Proof.
  induction jobs as [|[t ph] jobs IH]; [done|].
  cbn [settled forallb snd]. intros [Hph Hset]%andb_prop Hf.
  destruct ph; try done; cbn in Hf |- *; f_equal; by apply IH.
Qed.

(** A settled batch with one failure, the job at [i]. *)
Lemma only_failure jobs i t :
  jobs !! i = Some (t, BuildFailed) ->
  settled jobs = true ->
  List.length (fails jobs) = 1%nat ->
  fails jobs = [platform t]
  /\ built jobs = map output (delete i (map fst jobs)).
Proof.
  intros Hi Hset Hone.
  assert (Hlen : List.length (take i jobs) = i).
  { apply length_take_le, Nat.lt_le_incl. by eapply lookup_lt_Some. }
  rewrite <- (take_drop_middle jobs i _ Hi) in Hset, Hone |- *.
  rewrite settled_app in Hset. apply andb_prop in Hset as [Hs1 Hs2].
  cbn [settled forallb snd terminal andb] in Hs2.
  rewrite fails_app in Hone |- *. rewrite built_app.
  change (fails ((t, BuildFailed) :: ?l)) with (platform t :: fails l) in *.
  change (built ((t, BuildFailed) :: ?l)) with (built l).
  rewrite length_app in Hone. cbn [List.length] in Hone.
  destruct (fails (take i jobs)) as [|? ?] eqn:E1; [|cbn in Hone; lia].
  destruct (fails (drop (S i) jobs)) as [|? ?] eqn:E2; [|cbn in Hone; lia].
  split; [done|].
  rewrite map_app. cbn [map fst].
  rewrite <- Hlen at 3. rewrite <- (length_map fst (take i jobs)).
  rewrite delete_middle, map_app.
  by rewrite !settled_built.
Qed.

End Scheduler.

(** C4. Partial-failure isolation. A batch has just started in [s0]
    (every job of [batch] at its first step); [ls] is any interleaving of
    the steps of its jobs, with any answers of the surroundings, after
    which all its jobs have settled, exactly one of them, the job [i] of
    target [t], as failed. Then the failed list has gained exactly the
    platform label of [t], the built binaries have gained the outputs of
    the other targets of the batch (in the order their jobs ended), each
    of them a file that exists, and at no state on the way, as long as a
    job of the batch had not settled, could the next batch start. *)
Theorem partial_failure_isolation penv config s0 ls s batch i t :
  GoBuilder.running s0 = map (fun t => (t, GoBuilder.Hashing)) batch ->
  forallb Jobs.is_job ls = true ->
  GoBuilder.run penv config ls s0 = Some s ->
  GoBuilder.settled (GoBuilder.running s) = true ->
  GoBuilder.running s !! i = Some (t, GoBuilder.BuildFailed) ->
  List.length (Jobs.fails (GoBuilder.running s)) = 1%nat ->
  batch !! i = Some t
  /\ GoBuilder.failedBuilds (GoBuilder.builder s)
     = GoBuilder.failedBuilds (GoBuilder.builder s0) ++ [platform t]
  /\ (exists B,
        GoBuilder.builtBinaries (GoBuilder.builder s)
        = GoBuilder.builtBinaries (GoBuilder.builder s0) ++ B
        /\ B ≡ₚ map output (delete i batch)
        /\ List.length B = (List.length batch - 1)%nat
        /\ Forall (fun p => is_Some (fsys (GoBuilder.world s) !! p)) B)
  /\ (forall ls1 ls2 s1,
        ls = ls1 ++ ls2 -> GoBuilder.run penv config ls1 s0 = Some s1 ->
        GoBuilder.settled (GoBuilder.running s1) = false ->
        GoBuilder.sched_step penv config GoBuilder.Next s1 = None).
Proof.
  intros Hfresh Hjobs Hrun Hset Hi Hone.
  destruct (jobs_frame penv config ls s0 s Hjobs Hrun) as (Hfin & _ & Htargets).
  rewrite Hfresh, fresh_batch_targets in Htargets.
  destruct (only_failure _ _ _ Hi Hset Hone) as [Hfails Hbuilt].
  rewrite Htargets in Hbuilt.
  destruct (accounted_run penv config ls s0 s Hrun)
    as (F & B & HF & HB & _ & HpF & HpB & Hex).
  destruct (fresh_batch_silent batch) as [Hf0 Hb0].
  rewrite Hfin, !fails_app, Hfresh, Hf0, Hfails, app_nil_r in HpF.
  rewrite Hfin, !built_app, Hfresh, Hb0, Hbuilt, app_nil_r in HpB.
  apply Permutation_app_inv_l, Permutation_singleton_l in HpF.
  apply Permutation_app_inv_l in HpB.
  split; [|split; [|split]].
  - assert (Hm : map fst (GoBuilder.running s) !! i = Some t).
    { change (map fst ?l) with (fst <$> l). by rewrite list_lookup_fmap, Hi. }
    by rewrite Htargets in Hm.
  - by rewrite HF, <- HpF.
  - exists B. repeat split; [done|by symmetry| |done].
    rewrite <- HpB, length_map, length_delete; [done|].
    rewrite <- Htargets. change (map fst ?l) with (fst <$> l).
    rewrite list_lookup_fmap, Hi. done.
  - intros ls1 ls2 s1 _ _. apply next_waits.
Qed.

Lemma partial_failure_isolation_witness :
  [Samples.linux; Samples.windows] !! 1%nat = Some Samples.windows
  /\ GoBuilder.failedBuilds (GoBuilder.builder Samples.after_windows_fails)
     = [] ++ [platform Samples.windows]
  /\ (exists B,
        GoBuilder.builtBinaries (GoBuilder.builder Samples.after_windows_fails)
        = [] ++ B
        /\ B ≡ₚ map output (delete 1%nat [Samples.linux; Samples.windows])
        /\ List.length B = 1%nat
        /\ Forall (fun p => is_Some (fsys (GoBuilder.world Samples.after_windows_fails) !! p)) B)
  /\ (forall ls1 ls2 s1,
        Samples.windows_fails = ls1 ++ ls2 ->
        GoBuilder.run ∅ Samples.two_targets ls1
          (Samples.batch_started [Samples.linux; Samples.windows]) = Some s1 ->
        GoBuilder.settled (GoBuilder.running s1) = false ->
        GoBuilder.sched_step ∅ Samples.two_targets GoBuilder.Next s1 = None).
Proof.
  apply (partial_failure_isolation ∅ Samples.two_targets
           (Samples.batch_started [Samples.linux; Samples.windows])
           Samples.windows_fails Samples.after_windows_fails
           [Samples.linux; Samples.windows] 1 Samples.windows);
    vm_compute; reflexivity.
Defined.

(** C6, as the code has it. Concurrency bound, when the limit
    [min(config.parallel, availableCores)] is a number [n] of at least
    one: the loop that forms the batches ends, the batches are the target
    list cut into consecutive pieces of [n] targets (the last one may be
    shorter, none is empty); and in every state a run of the scheduler
    reaches, under any interleaving and any answers of the surroundings,
    at most [n] toolchain processes are in flight, the jobs under way are
    those of one batch, every job of the batches before it has settled,
    and the targets of the batches after it have not started. *)
Theorem concurrency_bound penv config cpus n :
  GoBuilder.parallelLimit config cpus = JS.Int n -> 1 <= n ->
  exists bs,
    GoBuilder.make_batches config cpus = Some bs
    /\ concat bs = targets config
    /\ Forall (fun b => List.length b = Z.to_nat n) (removelast bs)
    /\ Forall (fun b => (0 < List.length b <= Z.to_nat n)%nat) bs
    /\ forall w b evs ls s0 s,
         GoBuilder.start config cpus w b evs = Some s0 ->
         GoBuilder.run penv config ls s0 = Some s ->
         (GoBuilder.in_flight s <= Z.to_nat n)%nat
         /\ GoBuilder.settled (GoBuilder.finished s) = true
         /\ (GoBuilder.running s = [] \/ In (map fst (GoBuilder.running s)) bs)
         /\ map fst (GoBuilder.finished s) ++ map fst (GoBuilder.running s)
              ++ concat (GoBuilder.waiting s) = targets config.
Proof.
  intros Hlimit Hn.
  destruct (batches_loop_positive n (targets config) Hn
              (List.length (targets config)) 0)
    as (bs & Hbs & Hcat & Hfull & Hlen); [lia|lia|].
  cbn in Hcat.
  assert (Hmake : GoBuilder.make_batches config cpus = Some bs).
  { unfold GoBuilder.make_batches. by rewrite Hlimit. }
  exists bs. repeat split; try done.
  all: unfold GoBuilder.start in H; rewrite Hmake in H; cbn in H; simplify_eq.
  all: assert (Hseq : Jobs.in_sequence bs s)
         by (eapply in_sequence_run; [|exact H0];
             split; [done|]; exists []; split; [done|by left]).
  all: destruct (in_sequence_targets bs s Hseq) as [Hall Hone].
  - etransitivity; [apply in_flight_le|].
    destruct Hone as [->|Hin]; [cbn; lia|].
    rewrite List.Forall_forall in Hlen. apply Hlen in Hin.
    rewrite length_map in Hin. lia.
  - by destruct Hseq.
  - done.
  - by rewrite Hall.
Qed.

(** ** The result *)

Lemma createBuildResult_success b elapsed :
  success (GoBuilder.createBuildResult b elapsed) = true
  <-> failed (GoBuilder.createBuildResult b elapsed) = [].
Proof.
  cbn. destruct (GoBuilder.failedBuilds b); cbn; split; congruence.
Qed.

(** C5. In the [BuildResult] a build returns, under any schedule,
    [success] is true if and only if the list of failed platforms is
    empty. *)
Theorem success_iff_nothing_failed penv cpus config ls elapsed w :
  match GoBuilder.build penv cpus config ls elapsed w with
  | Some r =>
      match GoBuilder.outcome_of r with
      | Ok res => success res = true <-> failed res = []
      | Throw _ => True
      end
  | None => True
  end.
Proof.
  unfold GoBuilder.build.
  destruct (go_project w); cbn [negb]; [|done].
  destruct (clean config).
  - destruct (GoBuilder.cleanBuildDir _ w) as [wa e1].
    destruct (BuildCache.cleanCache wa) as [wb e2].
    destruct (GoBuilder.buildTargetsParallel _ _ _ _ wb _ _); [|done].
    apply createBuildResult_success.
  - destruct (GoBuilder.buildTargetsParallel _ _ _ _ w _ _); [|done].
    apply createBuildResult_success.
Qed.

(** ** Target resolution *)

Section Resolution.
Variable options : CLIOptions.
Variable e : Env.

Lemma resolveTarget_label now p t :
  CLI.resolveTarget options now p = Ok t -> platform t = p.
Proof.
  unfold CLI.resolveTarget. intros H.
  repeat (case_match; simplify_eq). done.
Qed.

Lemma resolveTarget_well_formed now p :
  match CLI.resolveTarget options now p with
  | Ok _ => Jobs.well_formed p
  | Throw m => ~ Jobs.well_formed p /\ m = "Invalid platform format: " +:+ p
  end.
Proof.
  unfold CLI.resolveTarget, Jobs.well_formed.
  destruct (JS.split "/" p) as [|o [|a rest]] eqn:E.
  - split; [|done]. intros (? & ? & ? & ? & _). done.
  - split; [|done]. intros (? & ? & ? & ? & _). done.
  - destruct o as [|c o]; cbn [JS.truthy andb].
    { split; [|done]. intros (? & ? & ? & ? & ? & _). by simplify_eq. }
    destruct a as [|c' a]; cbn [JS.truthy].
    { split; [|done]. intros (? & ? & ? & ? & _ & ?). by simplify_eq. }
    by eexists _, _, _.
Qed.

Lemma resolveTargets_labels ps : forall k ts,
  CLI.resolveTargets options e k ps = Ok ts -> map platform ts = ps.
Proof.
  induction ps as [|p ps IH]; intros k ts H; cbn [CLI.resolveTargets] in H.
  - by simplify_eq.
  - destruct (CLI.resolveTarget options (clock e k) p) as [t|] eqn:Ht; [|done].
    destruct (CLI.resolveTargets options e (S k) ps) as [ts'|] eqn:Hts; [|done].
    simplify_eq. cbn [map]. f_equal; [by eapply resolveTarget_label|by eapply IH].
Qed.

Lemma resolveTargets_throws ps : forall k,
  match CLI.resolveTargets options e k ps with
  | Ok _ => Forall Jobs.well_formed ps
  | Throw m =>
      exists p, In p ps /\ ~ Jobs.well_formed p
                /\ m = "Invalid platform format: " +:+ p
  end.
Proof.
  induction ps as [|p ps IH]; intros k; cbn [CLI.resolveTargets]; [done|].
  pose proof (resolveTarget_well_formed (clock e k) p) as Hp.
  destruct (CLI.resolveTarget options (clock e k) p) as [t|m].
  - specialize (IH (S k)).
    destruct (CLI.resolveTargets options e (S k) ps) as [ts|m].
    + by constructor.
    + destruct IH as (q & Hq & Hbad & ->). exists q. split; [by right|done].
  - destruct Hp as [Hbad ->]. exists p. split; [by left|done].
Qed.

End Resolution.

(** C7, as the code has it. The resolved target list has one target for
    each platform string the directives stand for, in their order and
    with their repetitions: [determineTargets] removes no duplicate. The
    labels of the list are therefore pairwise distinct exactly when the
    platform strings of the directives are. *)
Theorem resolved_labels options e ts :
  CLI.determineTargets options e = Ok ts ->
  map platform ts = CLI.platforms options e
  /\ (NoDup (map platform ts) <-> NoDup (CLI.platforms options e)).
Proof.
  intros H. apply resolveTargets_labels in H. by rewrite H.
Qed.

Lemma resolved_labels_witness :
  map platform
    [ mkTarget "linux" "amd64" "dist/app-1.0.0-linux-amd64-20261103" "linux/amd64";
      mkTarget "linux" "amd64" "dist/app-1.0.0-linux-amd64-20261103" "linux/amd64" ]
  = CLI.platforms Samples.aliased Samples.host
  /\ (NoDup (map platform
               [ mkTarget "linux" "amd64" "dist/app-1.0.0-linux-amd64-20261103" "linux/amd64";
                 mkTarget "linux" "amd64" "dist/app-1.0.0-linux-amd64-20261103" "linux/amd64" ])
      <-> NoDup (CLI.platforms Samples.aliased Samples.host)).
Proof.
  apply (resolved_labels Samples.aliased Samples.host). vm_compute. reflexivity.
Defined.

(** The all-platforms flag and the host default name each platform once. *)
Lemma all_platforms_distinct : NoDup SUPPORTED_PLATFORMS.
Proof.
  apply (bool_decide_unpack (NoDup SUPPORTED_PLATFORMS)). by vm_compute.
Qed.

(** An explicit list that names a platform twice is resolved to two
    targets with the same label (and the same output path). *)
Lemma resolved_labels_counterexample :
  CLI.determineTargets Samples.duplicated Samples.host
  = Ok [Samples.linux; Samples.linux]
  /\ ~ NoDup (map platform [Samples.linux; Samples.linux]).
Proof.
  split; [by vm_compute|].
  intros H. apply NoDup_cons in H as [H _]. apply H. by left.
Qed.

(** C8, as the code has it. Target resolution throws
    [Invalid platform format: <platform>], and with it the assembly of
    the configuration before any scheduling, exactly when some platform
    string of the directives, split at the slashes, lacks a first or a
    second component or has an empty one; the message names the first
    such string. Components after the second are ignored and the pair is
    not compared with the supported platforms. *)
Theorem invalid_target options e :
  match CLI.determineTargets options e with
  | Throw m =>
      (exists p, In p (CLI.platforms options e) /\ ~ Jobs.well_formed p
                 /\ m = "Invalid platform format: " +:+ p)
      /\ CLI.createBuildConfig options e = Throw m
  | Ok ts =>
      Forall Jobs.well_formed (CLI.platforms options e)
      /\ exists config,
           CLI.createBuildConfig options e = Ok config /\ targets config = ts
  end.
Proof.
  pose proof (resolveTargets_throws options e (CLI.platforms options e) 0) as H.
  unfold CLI.createBuildConfig.
  fold (CLI.determineTargets options e) in H.
  destruct (CLI.determineTargets options e) as [ts|m]; split; try done.
  by eexists.
Qed.

(** Strings that do not name one supported os/arch pair, and resolve. *)
Lemma invalid_target_counterexample :
  CLI.determineTargets Samples.odd_platforms Samples.host
  = Ok [ mkTarget "plan9" "mips" "dist/app-1.0.0-plan9-mips-20261103" "plan9/mips";
         mkTarget "linux" "amd64" "dist/app-1.0.0-linux-amd64-20261103"
           "linux/amd64/extra";
         mkTarget "linux" "amd64,darwin"
           "dist/app-1.0.0-linux-amd64,darwin-20261103" "linux/amd64,darwin/arm64" ]
  /\ ~ In "plan9/mips" SUPPORTED_PLATFORMS
  /\ JS.split "/" "linux/amd64/extra" = ["linux"; "amd64"; "extra"].
Proof.
  split; [by vm_compute|]. split; [|by vm_compute].
  unfold SUPPORTED_PLATFORMS. cbn [In]. intros H.
  repeat (destruct H as [H|H]; [discriminate H|]). done.
Qed.

Example missing_separator_throws :
  CLI.determineTargets Samples.no_separator Samples.host
  = Throw "Invalid platform format: windows".
Proof. by vm_compute. Qed.

(** ** The environment of the toolchain *)

Section ToolchainEnv.
Import GoBuilder.
Variable penv : gmap string string.
Variable target : BuildTarget.
Variable config : BuildConfig.

(** A variable of the parent environment goes to the toolchain as it
    is, the cross-compilation variables included. *)
Lemma goEnv_inherits k v :
  penv !! k = Some v -> goEnv penv target config !! k = Some v.
Proof. intros H. unfold goEnv. by apply lookup_union_Some_l. Qed.

(** The values of the target reach the toolchain when the parent
    environment does not define the variables. *)
Lemma goEnv_target :
  penv !! "GOOS" = None -> penv !! "GOARCH" = None ->
  penv !! "CGO_ENABLED" = None ->
  goEnv penv target config !! "GOOS" = Some (os target)
  /\ goEnv penv target config !! "GOARCH" = Some (arch target)
  /\ goEnv penv target config !! "CGO_ENABLED"
     = Some (if cgo config then "1" else "0").
Proof.
  intros H1 H2 H3. unfold goEnv.
  rewrite !lookup_union_r by done. by simplify_map_eq.
Qed.

End ToolchainEnv.

(** C9, where the code departs from it: with [GOOS] and [CGO_ENABLED]
    exported by the parent process, the job of the Windows target of a
    configuration without cgo spawns the toolchain with [GOOS=linux] and
    [CGO_ENABLED=1]: the spread of [process.env] comes after the three
    variables in the object literal and replaces them. *)
Theorem toolchain_env_overridden :
  os Samples.windows = "windows" /\ cgo Samples.two_targets = false
  /\ GoBuilder.goEnv Samples.exported Samples.windows Samples.two_targets !! "GOOS"
     = Some "linux"
  /\ GoBuilder.goEnv Samples.exported Samples.windows Samples.two_targets !! "CGO_ENABLED"
     = Some "1"
  /\ GoBuilder.goEnv Samples.exported Samples.windows Samples.two_targets !! "GOARCH"
     = Some "amd64"
  /\ exists key js,
       GoBuilder.job_step Samples.exported Samples.two_targets Samples.windows
         GoBuilder.Done (GoBuilder.Restoring key) Samples.empty_world
         GoBuilder.fresh = Some js
       /\ GoBuilder.next_phase js = GoBuilder.Building key
       /\ exists args env limit,
            GoBuilder.emitted js
            = [EvLookup key false; EvGo args env limit]
            /\ env !! "GOOS" = Some "linux".
Proof.
  repeat split; try by vm_compute.
  exists "k". eexists. split; [reflexivity|]. split; [reflexivity|].
  eexists _, _, _. split; [reflexivity|]. by vm_compute.
Qed.

(** ** The cache store along a build *)

Section Store.
Import GoBuilder Jobs.
Variable penv : gmap string string.
Variable config : BuildConfig.

Lemma job_step_stores target o ph w b js :
  job_step penv config target o ph w b = Some js ->
  forall k, k ∈ dom (BuildCache.entries (next_world js)) ->
    k ∈ dom (BuildCache.entries w) \/ In (EvStore k) (emitted js).
Proof.
  unfold job_step, BuildCache.restoreFromCache, BuildCache.saveToCache,
    caught, spawn.
  intros H k.
  destruct ph, o; simplify_eq;
    repeat (case_match; simplify_eq);
    cbn [next_world emitted set_fsys set_cache BuildCache.entries cache default In];
    try (by left).
  unfold id. rewrite dom_insert.
  intros [->%elem_of_singleton|Hk]%elem_of_union; [right; by left|by left].
Qed.

Lemma grows_refl s : grows s s.
Proof. exists []. rewrite app_nil_r. repeat split; try done. by left. Qed.

Lemma grows_step s0 l s s' :
  grows s0 s -> sched_step penv config l s = Some s' -> grows s0 s'.
Proof.
  intros (added & Htr & Hquiet & Hdom & Hnew) Hstep.
  destruct l as [|i o]; cbn [sched_step] in Hstep.
  - destruct (settled (running s)); [|done].
    destruct (waiting s); simplify_eq. by exists added.
  - destruct (running s !! i) as [[target ph]|]; [|done].
    destruct (job_step penv config target o ph (world s) (builder s))
      as [js|] eqn:Hjs; simplify_eq.
    destruct (job_step_world _ _ _ _ _ _ _ _ Hjs) as (_ & Hd & Hq).
    exists (added ++ emitted js). cbn [trace world].
    split; [by rewrite Htr, app_assoc|].
    split; [by rewrite forallb_app, Hquiet, Hq|].
    split; [by etransitivity|].
    intros k Hk.
    destruct (job_step_stores _ _ _ _ _ _ Hjs k Hk) as [Hold|Hst].
    + destruct (Hnew k Hold) as [?|?]; [by left|].
      right. apply in_or_app. by left.
    + right. apply in_or_app. by right.
Qed.

Lemma grows_run ls s0 s : run penv config ls s0 = Some s -> grows s0 s.
Proof.
  intros Hrun.
  eapply (run_preserves penv config (grows s0)); [|apply grows_refl|exact Hrun].
  intros l s1 s2. apply grows_step.
Qed.

Lemma no_purge evs :
  forallb (fun e => negb (is_purge e)) evs = true ->
  existsb is_purge evs = false.
Proof.
  induction evs as [|e evs IH]; [done|].
  cbn [forallb existsb]. intros [He Hevs]%andb_prop.
  rewrite IH by done. by destruct (is_purge e).
Qed.

End Store.

(** C3, as the code has it. A build that returns has called the purge
    of the cache store exactly when [config.clean] is set (and [go.mod]
    is there). The purge is then the second thing the build does, right
    after the removal of the output directory: every lookup, toolchain
    call and store comes after it and no other purge follows, so of the
    entries of the store after such a build, every one was stored by a
    job of this build, after the purge. When [config.clean] is not set,
    no step of the build removes an entry. The [cache --clear] request
    purges the store as well. *)
Theorem purge_on_the_build_path penv cpus config ls elapsed w r :
  GoBuilder.build penv cpus config ls elapsed w = Some r ->
  (existsb Jobs.is_purge (GoBuilder.trace_of r) = true
   <-> clean config = true /\ go_project w = true)
  /\ (clean config = false ->
      dom (BuildCache.entries w)
        ⊆ dom (BuildCache.entries (GoBuilder.world_after r)))
  /\ (clean config = true -> go_project w = true ->
      exists existed rest,
        GoBuilder.trace_of r
        = EvCleanBuildDir (outputDir config) :: EvCleanCache existed :: rest
        /\ existsb Jobs.is_purge rest = false
        /\ forall k, k ∈ dom (BuildCache.entries (GoBuilder.world_after r)) ->
                     In (EvStore k) rest)
  /\ cache (fst (CLI.cache_command true w)) = None.
Proof.
  intros Hbuild.
  assert (Hclear : cache (fst (CLI.cache_command true w)) = None).
  { unfold CLI.cache_command, BuildCache.cleanCache.
    by destruct (cache w) eqn:E. }
  unfold GoBuilder.build in Hbuild.
  destruct (go_project w); cbn [negb] in Hbuild.
  2:{ simplify_eq. cbn. repeat split; try done. by intros [_ ?]. }
  destruct (clean config).
  - unfold GoBuilder.cleanBuildDir, BuildCache.cleanCache in Hbuild.
    cbn [cache set_fsys] in Hbuild.
    unfold GoBuilder.buildTargetsParallel, GoBuilder.start in Hbuild.
    destruct (GoBuilder.make_batches config cpus) as [bs|]; [|by destruct (cache w)].
    destruct (cache w) as [m|] eqn:Hc; cbn in Hbuild;
      (destruct (GoBuilder.run penv config ls _) as [s|] eqn:Hrun; [|done]);
      (destruct (GoBuilder.completed s); [|done]); simplify_eq;
      destruct (grows_run _ _ _ _ _ Hrun) as (added & Htr & Hq & _ & Hnew);
      cbn in Htr, Hnew |- *; rewrite Htr; cbn.
    all: split; [done|]; split; [done|]; split; [|done].
    all: intros _ _; eexists _, added; split; [reflexivity|].
    all: split; [by apply no_purge|].
    all: intros k Hk; destruct (Hnew k Hk) as [Hold|Hst];
      [exfalso; rewrite ?Hc in Hold; clear -Hold; set_solver|done].
  - unfold GoBuilder.buildTargetsParallel, GoBuilder.start in Hbuild.
    destruct (GoBuilder.make_batches config cpus) as [bs|]; [|done].
    cbn in Hbuild.
    destruct (GoBuilder.run penv config ls _) as [s|] eqn:Hrun; [|done].
    destruct (GoBuilder.completed s); [|done]. simplify_eq.
    destruct (grows_run _ _ _ _ _ Hrun) as (added & Htr & Hq & Hdom & _).
    cbn in Htr, Hdom |- *. rewrite Htr, no_purge by done.
    repeat split; try done. by intros [? _].
Qed.

Lemma purge_on_the_build_path_witness :
  (existsb Jobs.is_purge (GoBuilder.trace_of Samples.after_cleaning) = true
   <-> clean Samples.cleaning = true /\ go_project Samples.cached_world = true)
  /\ (clean Samples.cleaning = false ->
      dom (BuildCache.entries Samples.cached_world)
        ⊆ dom (BuildCache.entries (GoBuilder.world_after Samples.after_cleaning)))
  /\ (clean Samples.cleaning = true -> go_project Samples.cached_world = true ->
      exists existed rest,
        GoBuilder.trace_of Samples.after_cleaning
        = EvCleanBuildDir (outputDir Samples.cleaning) :: EvCleanCache existed :: rest
        /\ existsb Jobs.is_purge rest = false
        /\ forall k,
             k ∈ dom (BuildCache.entries (GoBuilder.world_after Samples.after_cleaning)) ->
             In (EvStore k) rest)
  /\ cache (fst (CLI.cache_command true Samples.cached_world)) = None.
Proof.
  apply (purge_on_the_build_path ∅ 8 Samples.cleaning Samples.linux_builds 1500
           Samples.cached_world Samples.after_cleaning).
  vm_compute. reflexivity.
Defined.

(** A build with [clean] set, which is what the [build] command passes
    unless told otherwise, deletes the entry the store held. *)
Lemma purge_on_the_build_path_counterexample :
  GoBuilder.build ∅ 8 Samples.cleaning Samples.linux_builds 1500 Samples.cached_world
  = Some Samples.after_cleaning
  /\ BuildCache.entries Samples.cached_world !! "linux/amd64-old-key" = Some "ELF"
  /\ BuildCache.entries (GoBuilder.world_after Samples.after_cleaning)
       !! "linux/amd64-old-key" = None
  /\ existsb Jobs.is_purge (GoBuilder.trace_of Samples.after_cleaning) = true
  /\ clean Samples.cleaning = true.
Proof. repeat split; by vm_compute. Qed.

(** Without [clean] the entry the store held is still there after the
    build, next to those of the two targets, and nothing was purged. *)
Example entries_kept_without_clean :
  (fun r =>
     (BuildCache.entries (GoBuilder.world_after r) !! "linux/amd64-old-key",
      size (BuildCache.entries (GoBuilder.world_after r)),
      existsb Jobs.is_purge (GoBuilder.trace_of r)))
    <$> GoBuilder.build ∅ 8 Samples.two_targets Samples.both_build 2000
          Samples.cached_world
  = Some (Some "ELF", 3%nat, false).
Proof. by vm_compute. Qed.

(** [clean] is set unless the options say [false]. *)
Example clean_by_default :
  JS.not_false None = true /\ JS.not_false (Some true) = true
  /\ JS.not_false (Some false) = false.
Proof. by repeat split. Qed.

Lemma concurrency_bound_witness :
  exists bs,
    GoBuilder.make_batches Samples.two_targets 8 = Some bs
    /\ concat bs = targets Samples.two_targets
    /\ Forall (fun b => List.length b = Z.to_nat 2) (removelast bs)
    /\ Forall (fun b => (0 < List.length b <= Z.to_nat 2)%nat) bs
    /\ forall w b evs ls s0 s,
         GoBuilder.start Samples.two_targets 8 w b evs = Some s0 ->
         GoBuilder.run ∅ Samples.two_targets ls s0 = Some s ->
         (GoBuilder.in_flight s <= Z.to_nat 2)%nat
         /\ GoBuilder.settled (GoBuilder.finished s) = true
         /\ (GoBuilder.running s = [] \/ In (map fst (GoBuilder.running s)) bs)
         /\ map fst (GoBuilder.finished s) ++ map fst (GoBuilder.running s)
              ++ concat (GoBuilder.waiting s) = targets Samples.two_targets.
Proof.
  apply (concurrency_bound ∅ Samples.two_targets 8 2); [reflexivity|lia].
Defined.

(** With [--parallel abc] the limit is NaN: the loop leaves one empty
    batch, no target is scheduled and the build reports success with no
    binary. With [--parallel 0] the loop never ends. *)
Lemma concurrency_bound_counterexample :
  (JS.parseInt "abc" = JS.NaN
   /\ GoBuilder.parallelLimit Samples.parallel_nan 8 = JS.NaN
   /\ targets Samples.parallel_nan = [Samples.linux; Samples.windows]
   /\ GoBuilder.make_batches Samples.parallel_nan 8 = Some [[]]
   /\ GoBuilder.outcome_of
        <$> GoBuilder.build ∅ 8 Samples.parallel_nan [GoBuilder.Next] 7
              Samples.empty_world
      = Some (Ok (mkResult true [] [] [] 7)))
  /\ (JS.parseInt "0" = JS.Int 0
      /\ GoBuilder.parallelLimit Samples.parallel_zero 8 = JS.Int 0
      /\ forall fuel,
           GoBuilder.batches_loop fuel (targets Samples.parallel_zero)
             (GoBuilder.parallelLimit Samples.parallel_zero 8) (JS.Int 0) = None).
Proof.
  split; [repeat split; by vm_compute|].
  split; [by vm_compute|]. split; [by vm_compute|].
  intros fuel. by apply batches_loop_diverges.
Qed.

(** ** One job, from the lookup to the store *)

Section OneJob.
Import GoBuilder.
Variable penv : gmap string string.
Variable config : BuildConfig.
Variable target : BuildTarget.

Lemma job0_step o ph w b fin wait tr js :
  job_step penv config target o ph w b = Some js ->
  sched_step penv config (Job 0 o) (mkSched w b fin [(target, ph)] wait tr)
  = Some (mkSched (next_world js) (next_builder js) fin
            [(target, next_phase js)] wait (tr ++ emitted js)).
Proof.
  intros H. unfold sched_step. cbn [running world builder finished waiting trace].
  change ([(target, ph)] !! 0%nat) with (Some (target, ph)).
  cbv beta iota. by rewrite H.
Qed.

Lemma job_hit key blob w b :
  BuildCache.entries w !! key = Some blob ->
  job_step penv config target Done (Restoring key) w b
  = Some (mkStep Restored (set_fsys (<[output target := blob]> (fsys w)) w)
            (push_built (output target) b) [EvLookup key true]).
Proof.
  intros H. unfold job_step, BuildCache.restoreFromCache. by rewrite H.
Qed.

Lemma job_miss key w b :
  BuildCache.entries w !! key = None ->
  job_step penv config target Done (Restoring key) w b
  = Some (spawn penv target config key w b).
Proof.
  intros H. unfold job_step, BuildCache.restoreFromCache. by rewrite H.
Qed.

Lemma job_save key binary w b :
  fsys w !! output target = Some binary ->
  job_step penv config target Done (Saving key) w b
  = Some (mkStep CachePersisted
            (set_cache (Some (<[key := binary]> (BuildCache.entries w))) w)
            (push_built (output target) b) [EvStore key]).
Proof.
  intros H. unfold job_step, BuildCache.saveToCache. by rewrite H.
Qed.

(** A hit: the binary is copied out and no toolchain runs. *)
Lemma job_restores key blob w b fin wait tr :
  key = BuildCache.getCacheKey (tree w) target config ->
  BuildCache.entries w !! key = Some blob ->
  run penv config looks_up (mkSched w b fin [(target, Hashing)] wait tr)
  = Some (mkSched (set_fsys (<[output target := blob]> (fsys w)) w)
            (push_built (output target) b) fin [(target, Restored)] wait
            (tr ++ [EvLookup key true])).
Proof.
  intros -> Hhit. unfold looks_up. cbn [run].
  erewrite job0_step by reflexivity. cbn [next_world next_builder next_phase emitted].
  erewrite job0_step by (by apply job_hit).
  cbn [next_world next_builder next_phase emitted]. by rewrite app_nil_r.
Qed.

(** A miss followed by a successful build: the binary is stored. *)
Lemma job_builds key binary w b fin wait tr :
  key = BuildCache.getCacheKey (tree w) target config ->
  BuildCache.entries w !! key = None ->
  exists s,
    run penv config (builds target binary)
      (mkSched w b fin [(target, Hashing)] wait tr) = Some s
    /\ running s = [(target, CachePersisted)]
    /\ BuildCache.entries (world s) !! key = Some binary
    /\ fsys (world s) !! output target = Some binary
    /\ builder s = push_built (output target) b
    /\ trace s
       = tr ++ [ EvLookup key false;
                 EvGo (buildGoArgs target config) (goEnv penv target config)
                   (JS.num_mul (timeout config) (JS.Int 1000));
                 EvGoExit (platform target) true;
                 EvStore key ].
Proof.
  intros -> Hmiss. unfold builds.
  set (w1 := set_fsys (<[output target := binary]> (fsys w)) w).
  assert (Hout : fsys w1 !! output target = Some binary)
    by apply lookup_insert_eq.
  destruct (String.eqb (os target) "windows") eqn:Hos; cbn [app run].
  - erewrite job0_step by reflexivity.
    cbn [next_world next_builder next_phase emitted].
    erewrite job0_step by (by apply job_miss).
    cbn [spawn next_world next_builder next_phase emitted].
    erewrite job0_step by reflexivity.
    cbn [next_world next_builder next_phase emitted]. rewrite Hos.
    erewrite job0_step by (by apply job_save).
    cbn [next_world next_builder next_phase emitted].
    eexists. split; [reflexivity|].
    cbn [running world builder trace set_cache set_fsys BuildCache.entries cache fsys default].
    unfold id. rewrite !lookup_insert_eq, app_nil_r, <- !app_assoc.
    repeat split; reflexivity.
  - erewrite job0_step by reflexivity.
    cbn [next_world next_builder next_phase emitted].
    erewrite job0_step by (by apply job_miss).
    cbn [spawn next_world next_builder next_phase emitted].
    erewrite job0_step by reflexivity.
    cbn [next_world next_builder next_phase emitted]. rewrite Hos.
    erewrite job0_step by reflexivity.
    cbn [next_world next_builder next_phase emitted].
    erewrite job0_step by (by apply job_save).
    cbn [next_world next_builder next_phase emitted].
    eexists. split; [reflexivity|].
    cbn [running world builder trace set_cache set_fsys BuildCache.entries cache fsys default].
    unfold id. rewrite !lookup_insert_eq, !app_nil_r, <- !app_assoc.
    repeat split; reflexivity.
Qed.

End OneJob.




(** ** The shape of a cache key *)

Section KeyShape.
Import Jobs.

Lemma chars_app a b : chars (a +:+ b) = chars a ++ chars b.
Proof.
  unfold chars. induction a as [|c a IH]; [done|].
  change (String c a +:+ b) with (String c (a +:+ b)).
  cbn [list_ascii_of_string app]. by rewrite IH.
Qed.

Lemma chars_inj a b : chars a = chars b -> a = b.
Proof.
  intros H. rewrite <- (string_of_list_ascii_of_string a),
    <- (string_of_list_ascii_of_string b). unfold chars in H. by rewrite H.
Qed.

Lemma append_nil_r a : a +:+ "" = a.
Proof. apply chars_inj. by rewrite chars_app, app_nil_r. Qed.

Lemma append_assoc a b c : (a +:+ b) +:+ c = a +:+ b +:+ c.
Proof. apply chars_inj. by rewrite !chars_app, app_assoc. Qed.

Lemma chars_substring0 n s : chars (JS.substring0 n s) = take n (chars s).
Proof.
  unfold chars. revert s. induction n as [|n IH]; intros [|c s]; try done.
  cbn. f_equal. apply IH.
Qed.

Lemma le_bytes_length n z : List.length (MD5.le_bytes n z) = n.
Proof. revert z. induction n as [|n IH]; intros z; [done|]. cbn. by rewrite IH. Qed.

Lemma le_bytes_range n z :
  Forall (fun b => 0 <= b < 256) (MD5.le_bytes n z).
Proof.
  revert z. induction n as [|n IH]; intros z; cbn [MD5.le_bytes]; [done|].
  constructor; [|done]. apply Z.mod_pos_bound. lia.
Qed.

Lemma hex_digit_is_hex v : 0 <= v < 16 -> is_hex (JS.hex_digit v) = true.
Proof.
  intros Hv.
  assert (H : v = 0 \/ v = 1 \/ v = 2 \/ v = 3 \/ v = 4 \/ v = 5 \/ v = 6
              \/ v = 7 \/ v = 8 \/ v = 9 \/ v = 10 \/ v = 11 \/ v = 12
              \/ v = 13 \/ v = 14 \/ v = 15) by lia.
  repeat (destruct H as [->|H]; [reflexivity|]). by subst.
Qed.

Lemma hex_shape l :
  Forall (fun b => 0 <= b < 256) l ->
  List.length (chars (MD5.hex l)) = (2 * List.length l)%nat
  /\ Forall (fun c => is_hex c = true) (chars (MD5.hex l)).
Proof.
  induction 1 as [|b l Hb _ [IHlen IHhex]]; [done|].
  cbn [MD5.hex chars list_ascii_of_string List.length].
  fold (chars (MD5.hex l)). split; [rewrite IHlen; lia|].
  repeat constructor; [| |done]; apply hex_digit_is_hex.
  - split; [apply Z.div_pos; lia|apply Z.div_lt_upper_bound; lia].
  - apply Z.mod_pos_bound. lia.
Qed.

(** An MD5 digest in hexadecimal is 32 hexadecimal digits. *)
Lemma md5_hex_shape s :
  List.length (chars (MD5.md5_hex s)) = 32%nat
  /\ Forall (fun c => is_hex c = true) (chars (MD5.md5_hex s)).
Proof.
  unfold MD5.md5_hex, MD5.digest.
  destruct (MD5.blocks _ _ _) as [[[a b] c] d].
  destruct (hex_shape (MD5.le_bytes 4 a ++ MD5.le_bytes 4 b
                         ++ MD5.le_bytes 4 c ++ MD5.le_bytes 4 d)) as [Hlen Hhex].
  { repeat (apply Forall_app; split); apply le_bytes_range. }
  split; [|done]. rewrite Hlen, !length_app, !le_bytes_length. done.
Qed.

(** The source hash is the sentinel or 12 hexadecimal digits. *)
Lemma calculateSourceHash_shape t :
  hash_shaped (BuildCache.calculateSourceHash t).
Proof.
  unfold hash_shaped, BuildCache.calculateSourceHash.
  destruct (find_stdout t) as [out|]; [|by left].
  destruct (BuildCache.hashFiles t _ _) as [data|]; [|by left].
  right. rewrite chars_substring0.
  destruct (md5_hex_shape data) as [Hlen Hhex].
  split; [rewrite length_take; lia|by apply Forall_take].
Qed.

(** A 12-digit hash does not end in "unknown". *)
Lemma sentinel_apart (a b : list ascii) (sh : string) :
  List.length (chars sh) = 12%nat ->
  Forall (fun c => is_hex c = true) (chars sh) ->
  a ++ chars "unknown" = b ++ chars sh -> False.
Proof.
  intros Hlen Hhex Heq.
  rewrite <- (take_drop 5 (chars sh)), app_assoc in Heq.
  apply app_inj_2 in Heq as [_ Heq].
  - assert (Hbad : Forall (fun c => is_hex c = true) (chars "unknown")).
    { rewrite Heq. by apply Forall_drop. }
    apply Forall_cons in Hbad as [Hbad _]. discriminate Hbad.
  - rewrite length_drop, Hlen. reflexivity.
Qed.

(** The three parts of a key can be read back from it. *)
Lemma key_parts p1 p2 sh1 sh2 ch1 ch2 :
  hash_shaped sh1 -> hash_shaped sh2 ->
  List.length (chars ch1) = 32%nat -> List.length (chars ch2) = 32%nat ->
  p1 +:+ "-" +:+ sh1 +:+ "-" +:+ ch1 = p2 +:+ "-" +:+ sh2 +:+ "-" +:+ ch2 ->
  p1 = p2 /\ sh1 = sh2 /\ ch1 = ch2.
Proof.
  intros H1 H2 Hc1 Hc2 Heq. apply (f_equal chars) in Heq.
  rewrite !chars_app in Heq.
  rewrite !app_assoc in Heq.
  apply app_inj_2 in Heq as [Heq Hch]; [|by rewrite Hc1, Hc2].
  apply app_inj_2 in Heq as [Heq _]; [|done].
  assert (Hsame : List.length (chars sh1) = List.length (chars sh2) ->
                  p1 = p2 /\ sh1 = sh2 /\ ch1 = ch2).
  { intros Hlen. apply app_inj_2 in Heq as [Heq Hsh]; [|done].
    apply app_inj_2 in Heq as [Hp _]; [|done].
    repeat split; by apply chars_inj. }
  destruct H1 as [->|[Hl1 Hh1]], H2 as [->|[Hl2 Hh2]].
  - by apply Hsame.
  - exfalso. by eapply sentinel_apart.
  - exfalso. symmetry in Heq. by eapply sentinel_apart.
  - apply Hsame. by rewrite Hl1, Hl2.
Qed.

End KeyShape.

(** ** Source hash and cache key *)

Section Hashing.
Import BuildCache.

Lemma hashFiles_ext t1 t2 fs : forall h,
  (forall f, In f fs -> files t1 !! f = files t2 !! f) ->
  hashFiles t1 fs h = hashFiles t2 fs h.
Proof.
  induction fs as [|f fs IH]; intros h Hagree; [done|].
  cbn [hashFiles]. rewrite <- (Hagree f) by (by left).
  destruct (files t1 !! f) as [[content|]|]; try done;
    apply IH; intros g Hg; apply Hagree; by right.
Qed.

(** The hash folds the contents in the order of the enumeration: when
    every listed file is read, it is the first 12 digits of the MD5 of
    their concatenation. *)
Lemma hashFiles_concat t fs cs : forall h,
  Forall2 (fun f c => files t !! f = Some (Some c)) fs cs ->
  hashFiles t fs h = Some (h +:+ JS.join "" cs).
Proof.
  intros h H. revert h. induction H as [|f c fs cs Hf _ IH]; intros h.
  - cbn. by rewrite append_nil_r.
  - cbn [hashFiles]. rewrite Hf, IH.
    assert (Hj : JS.join "" (c :: cs) = c +:+ JS.join "" cs).
    { destruct cs; cbn [JS.join]; [by rewrite append_nil_r|done]. }
    by rewrite Hj, append_assoc.
Qed.

Lemma calculateSourceHash_ext t1 t2 :
  find_stdout t1 = find_stdout t2 ->
  (forall out f, find_stdout t1 = Some out -> In f (goFiles out) ->
                 files t1 !! f = files t2 !! f) ->
  calculateSourceHash t1 = calculateSourceHash t2.
Proof.
  intros Hfind Hfiles. unfold calculateSourceHash. rewrite <- Hfind.
  destruct (find_stdout t1) as [out|]; [|done].
  rewrite (hashFiles_ext t1 t2) by (intros f Hf; by eapply Hfiles). done.
Qed.

End Hashing.

(** C2, as the code has it. The source hash folds the contents of the
    files in the order the [find] enumeration lists them; no sort is
    applied. Two runs that get the same enumeration and read the same
    contents from the files it lists produce the same hash; when every
    listed file is read, the hash is the first 12 hexadecimal digits of
    the MD5 of the contents concatenated in that order. *)
Theorem source_hash_deterministic t1 t2 :
  find_stdout t1 = find_stdout t2 ->
  (forall out f, find_stdout t1 = Some out -> In f (BuildCache.goFiles out) ->
                 files t1 !! f = files t2 !! f) ->
  BuildCache.calculateSourceHash t1 = BuildCache.calculateSourceHash t2
  /\ forall out cs,
       find_stdout t1 = Some out ->
       Forall2 (fun f c => files t1 !! f = Some (Some c)) (BuildCache.goFiles out) cs ->
       BuildCache.calculateSourceHash t1
       = JS.substring0 12 (MD5.md5_hex (JS.join "" cs)).
Proof.
  intros Hfind Hfiles. split; [by apply calculateSourceHash_ext|].
  intros out cs Hout Hread. unfold BuildCache.calculateSourceHash.
  by rewrite Hout, (hashFiles_concat _ _ cs).
Qed.

Lemma source_hash_deterministic_witness :
  BuildCache.calculateSourceHash Samples.sources
  = BuildCache.calculateSourceHash Samples.sources_with_notes
  /\ forall out cs,
       find_stdout Samples.sources = Some out ->
       Forall2 (fun f c => files Samples.sources !! f = Some (Some c))
         (BuildCache.goFiles out) cs ->
       BuildCache.calculateSourceHash Samples.sources
       = JS.substring0 12 (MD5.md5_hex (JS.join "" cs)).
Proof.
  apply (source_hash_deterministic Samples.sources Samples.sources_with_notes);
    [reflexivity|].
  intros out f [= <-] Hin. vm_compute in Hin.
  destruct Hin as [<-|[<-|[]]]; by vm_compute.
Defined.

(** The same files listed in two directory orders hash differently. *)
Lemma source_hash_deterministic_counterexample :
  files Samples.sources = files Samples.sources_reordered
  /\ BuildCache.calculateSourceHash Samples.sources = "e1dfb8155737"
  /\ BuildCache.calculateSourceHash Samples.sources_reordered = "6da59249298d".
Proof. repeat split; by vm_compute. Qed.

(** C1, as the code has it. The key of a target is its platform label,
    the source hash and the MD5 of [JSON.stringify] of the whole
    configuration, joined by dashes, and two computations give the same
    key if and only if these three parts agree. In particular the same
    enumeration of sources with the same contents, the same
    configuration record (targets, timestamp and random hash included)
    and the same platform label give the same key. *)
Theorem cache_key_determinism tr1 tr2 t1 t2 c1 c2 :
  (BuildCache.getCacheKey tr1 t1 c1 = BuildCache.getCacheKey tr2 t2 c2
   <-> platform t1 = platform t2
       /\ BuildCache.calculateSourceHash tr1 = BuildCache.calculateSourceHash tr2
       /\ MD5.md5_hex (BuildCache.stringify c1)
          = MD5.md5_hex (BuildCache.stringify c2))
  /\ (find_stdout tr1 = find_stdout tr2 ->
      (forall out f, find_stdout tr1 = Some out ->
                     In f (BuildCache.goFiles out) ->
                     files tr1 !! f = files tr2 !! f) ->
      c1 = c2 -> platform t1 = platform t2 ->
      BuildCache.getCacheKey tr1 t1 c1 = BuildCache.getCacheKey tr2 t2 c2).
Proof.
  assert (Hparts : platform t1 = platform t2
            /\ BuildCache.calculateSourceHash tr1 = BuildCache.calculateSourceHash tr2
            /\ MD5.md5_hex (BuildCache.stringify c1)
               = MD5.md5_hex (BuildCache.stringify c2) ->
            BuildCache.getCacheKey tr1 t1 c1 = BuildCache.getCacheKey tr2 t2 c2).
  { intros (Hp & Hs & Hc). unfold BuildCache.getCacheKey. by rewrite Hp, Hs, Hc. }
  split; [split; [|done]|].
  - unfold BuildCache.getCacheKey. intros Hkey.
    exact (key_parts _ _ _ _ _ _
             (calculateSourceHash_shape tr1) (calculateSourceHash_shape tr2)
             (proj1 (md5_hex_shape _)) (proj1 (md5_hex_shape _)) Hkey).
  - intros Hfind Hfiles -> Hp. apply Hparts.
    split; [done|]. split; [|done].
    by apply calculateSourceHash_ext.
Qed.

Lemma cache_key_determinism_witness :
  BuildCache.getCacheKey Samples.sources Samples.linux Samples.two_targets
  = BuildCache.getCacheKey Samples.sources_with_notes Samples.linux Samples.two_targets.
Proof.
  apply (proj2 (cache_key_determinism Samples.sources Samples.sources_with_notes
                  Samples.linux Samples.linux Samples.two_targets Samples.two_targets));
    try reflexivity.
  intros out f [= <-] Hin. vm_compute in Hin.
  destruct Hin as [<-|[<-|[]]]; by vm_compute.
Defined.

(** The claim fails in both directions. Renaming [util.go] to
    [util_windows.go] changes the source tree and not the key. Two
    configurations that differ in the output path of a target alone have
    different keys. And the same command line run twice on the same
    sources gives two keys, the clock and the random hash of
    [createBuildConfig] being part of what is hashed. *)
Lemma cache_key_determinism_counterexample :
  (files Samples.sources <> files Samples.sources_renamed
   /\ BuildCache.getCacheKey Samples.sources Samples.linux Samples.two_targets
      = BuildCache.getCacheKey Samples.sources_renamed Samples.linux Samples.two_targets)
  /\ (without_target_fields Samples.two_targets
      = without_target_fields Samples.two_targets_moved
      /\ String.eqb
           (BuildCache.getCacheKey Samples.sources Samples.linux Samples.two_targets)
           (BuildCache.getCacheKey Samples.sources Samples.linux Samples.two_targets_moved)
         = false)
  /\ (exists c1 c2,
        CLI.createBuildConfig Samples.defaults Samples.host = Ok c1
        /\ CLI.createBuildConfig Samples.defaults Samples.host_later = Ok c2
        /\ targets c1 = [Samples.linux] /\ targets c2 = [Samples.linux]
        /\ String.eqb
             (BuildCache.getCacheKey Samples.sources Samples.linux c1)
             (BuildCache.getCacheKey Samples.sources Samples.linux c2)
           = false).
Proof.
  split; [split|split].
  - intros H. apply (f_equal (fun m => m !! "./util.go")) in H.
    vm_compute in H. discriminate H.
  - by vm_compute.
  - split; by vm_compute.
  - eexists _, _. split; [reflexivity|]. split; [reflexivity|].
    repeat split; by vm_compute.
Qed.

(** ** Balances between the trace and the phases of the jobs *)

Ltac job_cases H :=
  unfold GoBuilder.job_step, BuildCache.restoreFromCache,
    BuildCache.saveToCache, GoBuilder.caught, GoBuilder.spawn in H;
  repeat (case_match; simplify_eq); simplify_eq;
  cbn [GoBuilder.next_phase GoBuilder.emitted GoBuilder.next_world
       GoBuilder.next_builder].

Section Balance.
Import GoBuilder Trace.

Variable penv : gmap string string.
Variable config : BuildConfig.
Variable m : phase -> Z.
Variable e : event -> Z.

Hypothesis m_terminal : forall ph, terminal ph = true -> m ph = 0.
Hypothesis m_fresh : m Hashing = 0.
Hypothesis m_step : forall target o ph w b js,
  job_step penv config target o ph w b = Some js ->
  m (next_phase js) <= m ph + weight e (emitted js).

Lemma weight_app tr1 tr2 : weight e (tr1 ++ tr2) = weight e tr1 + weight e tr2.
Proof.
  induction tr1 as [|ev tr1 IH]; [done|]. cbn [app weight]. lia.
Qed.

Lemma load_app a b : load m (a ++ b) = load m a + load m b.
Proof.
  induction a as [|j a IH]; [done|]. cbn [app load]. lia.
Qed.

Lemma load_settled jobs : settled jobs = true -> load m jobs = 0.
Proof.
  induction jobs as [|j jobs IH]; [done|].
  cbn [settled forallb load]. intros [Hj Hjobs]%andb_prop.
  rewrite (m_terminal _ Hj). apply IH in Hjobs. lia.
Qed.

Lemma load_fresh batch : load m (map (fun t => (t, Hashing)) batch) = 0.
Proof.
  induction batch as [|t batch IH]; [done|].
  cbn [map load snd]. lia.
Qed.

Lemma load_insert jobs i t ph ph' :
  jobs !! i = Some (t, ph) ->
  load m (<[i := (t, ph')]> jobs) = load m jobs - m ph + m ph'.
Proof.
  intros Hi.
  rewrite insert_take_drop by (by eapply lookup_lt_Some).
  rewrite <- (take_drop_middle jobs i _ Hi) at 3.
  rewrite !load_app. cbn [load snd]. lia.
Qed.

Lemma balance_step l s s' :
  sched_step penv config l s = Some s' ->
  load m (running s') - weight e (trace s')
  <= load m (running s) - weight e (trace s).
Proof.
  intros Hstep. destruct l as [|i o]; cbn [sched_step] in Hstep.
  - destruct (settled (running s)) eqn:Hset; [|done].
    destruct (waiting s); simplify_eq. cbn [running trace].
    rewrite load_fresh, (load_settled _ Hset). lia.
  - destruct (running s !! i) as [[target ph]|] eqn:Hi; [|done].
    destruct (job_step penv config target o ph (world s) (builder s))
      as [js|] eqn:Hjs; simplify_eq.
    cbn [running trace]. rewrite (load_insert _ _ _ _ _ Hi), weight_app.
    pose proof (m_step _ _ _ _ _ _ Hjs). lia.
Qed.

Lemma balance_run ls s0 s :
  run penv config ls s0 = Some s ->
  load m (running s) - weight e (trace s)
  <= load m (running s0) - weight e (trace s0).
Proof.
  revert s0. induction ls as [|l ls IH]; intros s0 Hrun; cbn [run] in Hrun.
  - simplify_eq. lia.
  - destruct (sched_step penv config l s0) as [s1|] eqn:Hstep; [|done].
    apply IH in Hrun. apply balance_step in Hstep. lia.
Qed.

End Balance.

Section Counting.
Import GoBuilder Trace.

Lemma weight_indicator p tr : weight (indicator p) tr = Z.of_nat (count p tr).
Proof.
  unfold count, indicator. induction tr as [|ev tr IH]; [done|].
  cbn [weight List.filter]. destruct (p ev); cbn [List.length]; lia.
Qed.

Lemma weight_difference p q tr :
  weight (fun ev => indicator p ev - indicator q ev) tr
  = Z.of_nat (count p tr) - Z.of_nat (count q tr).
Proof.
  rewrite <- !weight_indicator. induction tr as [|ev tr IH]; [done|].
  cbn [weight]. lia.
Qed.

Lemma load_indicator p jobs :
  load (indicator p) jobs
  = Z.of_nat (List.length (List.filter (fun j => p (snd j)) jobs)).
Proof.
  unfold indicator. induction jobs as [|j jobs IH]; [done|].
  cbn [load List.filter]. destruct (p (snd j)); cbn [List.length]; lia.
Qed.

Lemma load_opposite (m : phase -> Z) jobs :
  load (fun ph => - m ph) jobs = - load m jobs.
Proof.
  induction jobs as [|j jobs IH]; [done|]. cbn [load]. lia.
Qed.

Lemma weight_opposite (e : event -> Z) tr :
  weight (fun ev => - e ev) tr = - weight e tr.
Proof.
  induction tr as [|ev tr IH]; [done|]. cbn [weight]. lia.
Qed.

End Counting.

Section TraceBalances.
Import GoBuilder Trace.

Variable penv : gmap string string.
Variable config : BuildConfig.

Lemma flight_step target o ph w b js :
  job_step penv config target o ph w b = Some js ->
  indicator is_building (next_phase js)
  = indicator is_building ph
    + weight (fun ev => indicator is_spawn ev - indicator is_exit ev) (emitted js).
Proof.
  intros H. destruct ph, o; simplify_eq; job_cases H; reflexivity.
Qed.



End TraceBalances.

(** X1. The toolchain processes in flight are those spawned and not yet
    exited: along every run of the scheduler, under any interleaving and
    any answers, the number of [go build] spawns in the trace is the
    number of exits plus the number of jobs awaiting the toolchain. *)
Theorem in_flight_is_spawned_minus_exited penv config ls s0 s :
  Trace.count Trace.is_spawn (GoBuilder.trace s0)
  = (Trace.count Trace.is_exit (GoBuilder.trace s0) + GoBuilder.in_flight s0)%nat ->
  GoBuilder.run penv config ls s0 = Some s ->
  Trace.count Trace.is_spawn (GoBuilder.trace s)
  = (Trace.count Trace.is_exit (GoBuilder.trace s) + GoBuilder.in_flight s)%nat.
Proof.
  intros H0 Hrun.
  pose proof (balance_run penv config (Trace.indicator GoBuilder.is_building)
    (fun ev => Trace.indicator Trace.is_spawn ev - Trace.indicator Trace.is_exit ev)) as Hle.
  pose proof (balance_run penv config
    (fun ph => - Trace.indicator GoBuilder.is_building ph)
    (fun ev => - (Trace.indicator Trace.is_spawn ev - Trace.indicator Trace.is_exit ev))) as Hge.
  specialize (Hle ltac:(by intros []) eq_refl).
  specialize (Hge ltac:(by intros []) eq_refl).
  specialize (Hle ltac:(intros; erewrite flight_step by done; lia) ls s0 s Hrun).
  specialize (Hge ltac:(intros; rewrite weight_opposite; erewrite flight_step by done; lia)
                ls s0 s Hrun).
  rewrite !load_opposite, !weight_opposite, !load_indicator, !weight_difference in Hge.
  rewrite !load_indicator, !weight_difference in Hle.
  unfold GoBuilder.in_flight in *. lia.
Qed.

Lemma in_flight_is_spawned_minus_exited_witness :
  Trace.count Trace.is_spawn (GoBuilder.trace Samples.after_windows_fails)
  = (Trace.count Trace.is_exit (GoBuilder.trace Samples.after_windows_fails)
     + GoBuilder.in_flight Samples.after_windows_fails)%nat.
Proof.
  apply (in_flight_is_spawned_minus_exited ∅ Samples.two_targets
           Samples.windows_fails
           (Samples.batch_started [Samples.linux; Samples.windows]));
    by vm_compute.
Defined.



(** ** A whole build *)

Section WholeBuild.
Import GoBuilder Jobs.

(** What a build that returns a result went through. *)
Lemma build_returns penv cpus config ls elapsed w r res :
  build penv cpus config ls elapsed w = Some r ->
  outcome_of r = Ok res ->
  go_project w = true
  /\ exists w1 evs s0 s,
       start config cpus w1 fresh evs = Some s0
       /\ run penv config ls s0 = Some s
       /\ completed s = true
       /\ world_after r = world s /\ trace_of r = trace s
       /\ failed res = failedBuilds (builder s)
       /\ binaries res = builtBinaries (builder s)
       /\ success res = Nat.eqb (List.length (failedBuilds (builder s))) 0
       /\ duration res = elapsed
       /\ tree w1 = tree w
       /\ (clean config = false -> w1 = w /\ evs = []).
Proof.
  unfold build. intros Hbuild Hres.
  destruct (go_project w); cbn [negb] in Hbuild; [|by simplify_eq].
  split; [done|].
  destruct (clean config);
    [destruct (cleanBuildDir _ w) as [wa e1] eqn:Ha;
     destruct (BuildCache.cleanCache wa) as [wb e2] eqn:Hb|];
    (destruct (buildTargetsParallel _ _ _ _ _ _ _) as [s|] eqn:Hpar; [|done]);
    unfold buildTargetsParallel in Hpar;
    (destruct (start _ _ _ _ _) as [s0|] eqn:Hstart; [|done]);
    (destruct (run _ _ _ s0) as [s'|] eqn:Hrun; [|done]);
    (destruct (completed s') eqn:Hdone; [|done]); simplify_eq;
    cbn [outcome_of] in Hres; simplify_eq; eexists _, _, s0, s;
    (split; [exact Hstart|]); (split; [exact Hrun|]); (split; [exact Hdone|]);
    cbn [world_after trace_of failed binaries success duration createBuildResult];
    repeat split; try done; try (by case_match).
  - unfold cleanBuildDir in Ha. unfold BuildCache.cleanCache in Hb.
    simplify_eq. by destruct (cache _); simplify_eq.
Qed.

Lemma settled_partition jobs :
  settled jobs = true ->
  (List.length (fails jobs) + List.length (built jobs))%nat = List.length jobs.
Proof.
  induction jobs as [|[t ph] jobs IH]; [done|].
  cbn [settled forallb snd]. intros [Hph Hset]%andb_prop.
  specialize (IH Hset). unfold fails, built in *.
  destruct ph; try done; cbn in *; lia.
Qed.

End WholeBuild.

(** X3. Every target is accounted for exactly once. When the limit
    [min(config.parallel, cpus)] is at least one and the build returns
    its result, there is one settled job for each target of the
    configuration, in order; the failed list is a rearrangement of the
    platform labels of the jobs that failed, the binaries one of the
    outputs of the jobs that were restored or built; the two lists
    together have as many entries as there are targets, and every binary
    of the result is a file that exists. *)
Theorem every_target_accounted penv cpus config ls elapsed w r res n :
  GoBuilder.parallelLimit config cpus = JS.Int n -> 1 <= n ->
  GoBuilder.build penv cpus config ls elapsed w = Some r ->
  GoBuilder.outcome_of r = Ok res ->
  exists jobs,
    map fst jobs = targets config
    /\ GoBuilder.settled jobs = true
    /\ failed res ≡ₚ Jobs.fails jobs
    /\ binaries res ≡ₚ Jobs.built jobs
    /\ (List.length (binaries res) + List.length (failed res))%nat
       = List.length (targets config)
    /\ Forall (fun p => is_Some (fsys (GoBuilder.world_after r) !! p)) (binaries res).
Proof.
  intros Hlimit Hn Hbuild Hres.
  destruct (build_returns _ _ _ _ _ _ _ _ Hbuild Hres)
    as (_ & w1 & evs & s0 & s & Hstart & Hrun & Hdone & Hw & _ & Hf & Hb & _).
  destruct (batches_loop_positive n (targets config) Hn
              (List.length (targets config)) 0)
    as (bs & Hbs & Hcat & _); [lia|lia|].
  change (concat bs = targets config) in Hcat.
  unfold GoBuilder.start, GoBuilder.make_batches in Hstart.
  rewrite Hlimit, Hbs in Hstart. cbn in Hstart. simplify_eq.
  assert (Hseq : Jobs.in_sequence bs s).
  { eapply in_sequence_run; [|exact Hrun].
    split; [done|]. exists []. split; [done|]. by left. }
  destruct (in_sequence_targets bs s Hseq) as [Hall _].
  destruct Hseq as [Hfin _].
  unfold GoBuilder.completed in Hdone. apply andb_prop in Hdone as [Hset Hwait].
  destruct (GoBuilder.waiting s); [|done].
  destruct (accounted_run penv config ls _ s Hrun)
    as (F & B & HF & HB & _ & HpF & HpB & Hex).
  cbn in HF, HB, HpF, HpB.
  exists (GoBuilder.finished s ++ GoBuilder.running s).
  assert (Hjobs : GoBuilder.settled (GoBuilder.finished s ++ GoBuilder.running s) = true)
    by (by rewrite settled_app, Hfin, Hset).
  rewrite Hf, Hb, HF, HB, Hw.
  split; [|split; [done|split; [by symmetry|split; [by symmetry|split; [|done]]]]].
  - rewrite map_app, <- Hcat, <- Hall. cbn. by rewrite app_nil_r.
  - rewrite <- HpF, <- HpB, Nat.add_comm, (settled_partition _ Hjobs).
    rewrite <- Hcat, <- Hall. cbn. rewrite app_nil_r, <- map_app. by rewrite length_map.
Qed.

Lemma every_target_accounted_witness :
  exists jobs,
    map fst jobs = targets Samples.two_targets
    /\ GoBuilder.settled jobs = true
    /\ failed Cases.timed_out_result ≡ₚ Jobs.fails jobs
    /\ binaries Cases.timed_out_result ≡ₚ Jobs.built jobs
    /\ (List.length (binaries Cases.timed_out_result)
        + List.length (failed Cases.timed_out_result))%nat
       = List.length (targets Samples.two_targets)
    /\ Forall (fun p => is_Some (fsys (GoBuilder.world_after Cases.timed_out) !! p))
         (binaries Cases.timed_out_result).
Proof.
  apply (every_target_accounted ∅ 8 Samples.two_targets Samples.second_times_out
           300500 Samples.empty_world Cases.timed_out Cases.timed_out_result 2).
  - reflexivity.
  - lia.
  - vm_compute. reflexivity.
  - vm_compute. reflexivity.
Defined.

(** ** The cache store and the source hash *)

Section CacheFacts.
Import GoBuilder BuildCache.

Lemma job_step_tree penv config target o ph w b js :
  job_step penv config target o ph w b = Some js ->
  tree (next_world js) = tree w.
Proof.
  intros H. destruct ph, o; simplify_eq; job_cases H; reflexivity.
Qed.

Lemma run_tree penv config ls s0 s :
  run penv config ls s0 = Some s -> tree (world s) = tree (world s0).
Proof.
  revert s0. induction ls as [|l ls IH]; intros s0 Hrun; cbn [run] in Hrun.
  - by simplify_eq.
  - destruct (sched_step penv config l s0) as [s1|] eqn:Hstep; [|done].
    rewrite (IH _ Hrun). clear IH Hrun.
    destruct l as [|i o]; cbn [sched_step] in Hstep.
    + destruct (settled (running s0)); [|done].
      by destruct (waiting s0); simplify_eq.
    + destruct (running s0 !! i) as [[target ph]|]; [|done].
      destruct (job_step penv config target o ph (world s0) (builder s0))
        as [js|] eqn:Hjs; simplify_eq.
      by eapply job_step_tree.
Qed.

(** A read that throws anywhere in the list ends the loop. *)
Lemma hashFiles_unreadable t fs f : forall h,
  In f fs -> files t !! f = Some None -> hashFiles t fs h = None.
Proof.
  induction fs as [|g fs IH]; intros h Hin Hf; [done|].
  cbn [hashFiles]. destruct Hin as [->|Hin].
  - by rewrite Hf.
  - destruct (files t !! g) as [[content|]|]; [by apply IH|done|by apply IH].
Qed.

(** Paths that do not exist leave the hash as it is. *)
Lemma hashFiles_missing t fs : forall h,
  Forall (fun f => files t !! f = None) fs -> hashFiles t fs h = Some h.
Proof.
  induction fs as [|g fs IH]; intros h Hall; [done|].
  apply Forall_cons in Hall as [Hg Hall]. cbn [hashFiles]. rewrite Hg. by apply IH.
Qed.

End CacheFacts.

(** X4. A rebuild restores what the build stored. After the job of a
    target has missed the cache, built [binary] and stored it, a later
    job of the same target under the same configuration record and the
    same sources hits the cache and copies the same [binary] to the
    output path without spawning the toolchain, whatever the environment
    of the later process and whatever became of the other files. *)
Theorem rebuild_restores penv config target binary w b fin wait tr :
  BuildCache.entries w !! BuildCache.getCacheKey (tree w) target config = None ->
  exists s1,
    GoBuilder.run penv config (GoBuilder.builds target binary)
      (GoBuilder.mkSched w b fin [(target, GoBuilder.Hashing)] wait tr) = Some s1
    /\ forall penv' f' b' fin' wait' tr',
         GoBuilder.run penv' config GoBuilder.looks_up
           (GoBuilder.mkSched (set_fsys f' (GoBuilder.world s1)) b' fin'
              [(target, GoBuilder.Hashing)] wait' tr')
         = Some (GoBuilder.mkSched
                   (set_fsys (<[output target := binary]> f') (GoBuilder.world s1))
                   (GoBuilder.push_built (output target) b') fin'
                   [(target, GoBuilder.Restored)] wait'
                   (tr' ++ [EvLookup (BuildCache.getCacheKey (tree w) target config) true])).
Proof.
  intros Hmiss.
  destruct (job_builds penv config target _ binary w b fin wait tr eq_refl Hmiss)
    as (s1 & Hrun & _ & Hstored & _).
  exists s1. split; [exact Hrun|].
  intros penv' f' b' fin' wait' tr'.
  pose proof (run_tree _ _ _ _ _ Hrun) as Htree. cbn [GoBuilder.world] in Htree.
  rewrite (job_restores penv' config target
             (BuildCache.getCacheKey (tree w) target config) binary);
    [done|by cbn; rewrite Htree|exact Hstored].
Qed.

Lemma rebuild_restores_witness :
  exists s1,
    GoBuilder.run ∅ Samples.two_targets (GoBuilder.builds Samples.linux "ELF")
      (GoBuilder.mkSched Samples.empty_world GoBuilder.fresh []
         [(Samples.linux, GoBuilder.Hashing)] [] []) = Some s1
    /\ forall penv' f' b' fin' wait' tr',
         GoBuilder.run penv' Samples.two_targets GoBuilder.looks_up
           (GoBuilder.mkSched (set_fsys f' (GoBuilder.world s1)) b' fin'
              [(Samples.linux, GoBuilder.Hashing)] wait' tr')
         = Some (GoBuilder.mkSched
                   (set_fsys (<[output Samples.linux := "ELF"]> f') (GoBuilder.world s1))
                   (GoBuilder.push_built (output Samples.linux) b') fin'
                   [(Samples.linux, GoBuilder.Restored)] wait'
                   (tr' ++ [EvLookup
                              (BuildCache.getCacheKey (tree Samples.empty_world)
                                 Samples.linux Samples.two_targets) true])).
Proof.
  apply (rebuild_restores ∅ Samples.two_targets Samples.linux "ELF"
           Samples.empty_world GoBuilder.fresh [] [] []).
  vm_compute. reflexivity.
Defined.

(** X6. The source hash fails open. When [find] fails, or a file it
    lists exists and cannot be read, the hash is the sentinel "unknown";
    the key is then the same for every content of the sources. A listed
    path that does not exist is skipped, so a listing of missing paths
    only hashes like the empty input. *)
Theorem source_hash_fails_open t :
  (find_stdout t = None -> BuildCache.calculateSourceHash t = "unknown")
  /\ (forall out f, find_stdout t = Some out -> In f (BuildCache.goFiles out) ->
                    files t !! f = Some None ->
                    BuildCache.calculateSourceHash t = "unknown")
  /\ (forall t' target config,
        BuildCache.calculateSourceHash t = "unknown" ->
        BuildCache.calculateSourceHash t' = "unknown" ->
        BuildCache.getCacheKey t target config
        = BuildCache.getCacheKey t' target config)
  /\ (forall out, find_stdout t = Some out ->
        Forall (fun f => files t !! f = None) (BuildCache.goFiles out) ->
        BuildCache.calculateSourceHash t = "d41d8cd98f00").
Proof.
  unfold BuildCache.calculateSourceHash. repeat split.
  - by intros ->.
  - intros out f -> Hin Hf. by rewrite (hashFiles_unreadable t _ f).
  - intros t' target config H1 H2. unfold BuildCache.getCacheKey.
    unfold BuildCache.calculateSourceHash. by rewrite H1, H2.
  - intros out -> Hall. by rewrite hashFiles_missing.
Qed.

(** ** Splitting and joining *)

Section SplitJoin.
Import Text.

Variable c : ascii.

Lemma split_nonempty s : JS.split c s <> [].
Proof.
  destruct s as [|d s]; [done|]. cbn [JS.split].
  destruct (Ascii.eqb d c); [done|]. by destruct (JS.split c s).
Qed.

(** No piece of a split holds the separator. *)
Lemma split_pieces_free s :
  Forall (fun x => has_char c x = false) (JS.split c s).
Proof.
  induction s as [|d s IH]; [by repeat constructor|]. cbn [JS.split].
  destruct (Ascii.eqb d c) eqn:E; [by constructor|].
  destruct (JS.split c s) as [|x xs]; [by repeat constructor; cbn; rewrite E|].
  apply Forall_cons in IH as [Hx Hxs]. constructor; [|done].
  cbn [has_char]. by rewrite E, Hx.
Qed.

(** Joining the pieces with the separator gives the string back. *)
Lemma join_split s : JS.join (String c "") (JS.split c s) = s.
Proof.
  induction s as [|d s IH]; [done|]. cbn [JS.split].
  destruct (Ascii.eqb d c) eqn:E.
  - apply Ascii.eqb_eq in E as ->.
    pose proof (split_nonempty s) as Hne.
    destruct (JS.split c s) as [|x xs]; [done|].
    cbn [JS.join] in *. by rewrite IH.
  - pose proof (split_nonempty s) as Hne.
    destruct (JS.split c s) as [|x xs]; [done|].
    destruct xs as [|y ys]; cbn [JS.join] in *; by rewrite <- IH.
Qed.

Lemma split_free s : has_char c s = false -> JS.split c s = [s].
Proof.
  induction s as [|d s IH]; [done|]. cbn [has_char JS.split].
  intros [Hd Hs]%orb_false_elim. rewrite Hd, (IH Hs). done.
Qed.

Lemma split_append a b :
  has_char c a = false ->
  JS.split c (a +:+ String c b) = a :: JS.split c b.
Proof.
  induction a as [|d a IH]; cbn [has_char].
  - intros _. change ("" +:+ String c b) with (String c b).
    cbn [JS.split]. by rewrite Ascii.eqb_refl.
  - intros [Hd Ha]%orb_false_elim.
    change (String d a +:+ String c b) with (String d (a +:+ String c b)).
    cbn [JS.split]. by rewrite Hd, (IH Ha).
Qed.

Lemma remove_chars_free cs s :
  In c cs -> has_char c (JS.remove_chars cs s) = false.
Proof.
  intros Hc. induction s as [|d s IH]; [done|]. cbn [JS.remove_chars].
  destruct (existsb (Ascii.eqb d) cs) eqn:E; [done|].
  cbn [has_char]. rewrite IH, orb_false_r.
  destruct (Ascii.eqb d c) eqn:Hd; [|done].
  rewrite <- E. symmetry. apply existsb_exists. by exists c.
Qed.

End SplitJoin.

Lemma prefix_append a b : String.prefix a (a +:+ b) = true.
Proof.
  induction a as [|d a IH]; [by destruct b|].
  change (String d a +:+ b) with (String d (a +:+ b)). cbn [String.prefix].
  by destruct (ascii_dec d d).
Qed.

(** ** What target resolution yields *)

Section Resolved.
Import Text.

Variable options : CLIOptions.
Variable e : Env.

Lemma resolveTarget_inv now p t :
  CLI.resolveTarget options now p = Ok t ->
  exists rest,
    JS.split "/" p = os t :: arch t :: rest
    /\ os t <> "" /\ arch t <> "" /\ platform t = p
    /\ output t
       = CLI.generateOutputName now (os t) (arch t)
           (JS.or_default (opt_version options) "1.0.0")
           (JS.or_default (opt_output options) "dist")
           (JS.or_default (opt_name options) "app").
Proof.
  unfold CLI.resolveTarget. intros H.
  destruct (JS.split "/" p) as [|o [|a rest]]; try done.
  destruct o as [|c o]; [done|]. destruct a as [|c' a]; [done|].
  cbn [JS.truthy andb] in H. simplify_eq. cbn. by exists rest.
Qed.

Lemma resolveTargets_fields ps : forall k ts,
  CLI.resolveTargets options e k ps = Ok ts ->
  Forall (fun t =>
            component (os t) /\ component (arch t)
            /\ (exists rest, platform t = JS.join "/" (os t :: arch t :: rest))
            /\ exists j,
                 output t
                 = CLI.generateOutputName (clock e j) (os t) (arch t)
                     (JS.or_default (opt_version options) "1.0.0")
                     (JS.or_default (opt_output options) "dist")
                     (JS.or_default (opt_name options) "app")) ts.
Proof.
  induction ps as [|p ps IH]; intros k ts H; cbn [CLI.resolveTargets] in H.
  - by simplify_eq.
  - destruct (CLI.resolveTarget options (clock e k) p) as [t|] eqn:Ht; [|done].
    destruct (CLI.resolveTargets options e (S k) ps) as [ts'|] eqn:Hts; [|done].
    simplify_eq. constructor; [|by eapply IH].
    destruct (resolveTarget_inv _ _ _ Ht) as (rest & Hsplit & Ho & Ha & Hp & Hout).
    pose proof (split_pieces_free "/" p) as Hfree. rewrite Hsplit in Hfree.
    apply Forall_cons in Hfree as [Hfo Hfree].
    apply Forall_cons in Hfree as [Hfa _].
    repeat split; try done.
    + exists rest. by rewrite <- Hsplit, join_split.
    + by exists k.
Qed.

(** A list of [os/arch] strings made of components resolves to the pairs
    it was made of. *)
Lemma resolveTargets_pairs pairs : forall k,
  Forall (fun p => component (fst p) /\ component (snd p)) pairs ->
  exists ts,
    CLI.resolveTargets options e k
      (map (fun p => fst p +:+ "/" +:+ snd p) pairs) = Ok ts
    /\ map (fun t => (os t, arch t)) ts = pairs.
Proof.
  induction pairs as [|[o a] pairs IH]; intros k Hall; [by exists []|].
  apply Forall_cons in Hall as [[[Ho Hfo] [Ha Hfa]] Hall]. cbn [fst snd] in *.
  destruct (IH (S k) Hall) as (ts & Hts & Hpairs).
  cbn [map CLI.resolveTargets fst snd]. unfold CLI.resolveTarget.
  change (o +:+ "/" +:+ a) with (o +:+ String "/" a).
  rewrite (split_append "/" o a Hfo), (split_free "/" a Hfa).
  destruct o as [|c o]; [done|]. destruct a as [|c' a]; [done|].
  cbn [JS.truthy andb]. rewrite Hts. eexists. split; [reflexivity|].
  cbn [map os arch]. by rewrite Hpairs.
Qed.

End Resolved.

Lemma supported_well_formed : Forall Jobs.well_formed SUPPORTED_PLATFORMS.
Proof.
  unfold SUPPORTED_PLATFORMS, Jobs.well_formed.
  repeat constructor; eexists _, _, _; (split; [by vm_compute|done]).
Qed.

Lemma has_char_append c a b :
  Text.has_char c (a +:+ b) = Text.has_char c a || Text.has_char c b.
Proof.
  induction a as [|d a IH]; [done|].
  change (String d a +:+ b) with (String d (a +:+ b)).
  cbn [Text.has_char]. by rewrite IH, orb_assoc.
Qed.

Lemma NODE_TO_GO_ARCH_component a :
  Text.component a -> Text.component (CLI.NODE_TO_GO_ARCH a).
Proof.
  intros [Hne Hfree]. unfold CLI.NODE_TO_GO_ARCH.
  do 4 (case_match; [by split|]).
  do 2 (case_match; [split; by vm_compute|]).
  case_match; [|done]. unfold CLI.native. split; [done|].
  by rewrite !has_char_append, Hfree.
Qed.

(** X7. The all-platforms flag always resolves: whatever the other
    directives say, and whatever the host is, [--all] gives one target
    for each of the eight supported platforms, in their order, and never
    throws. *)
Theorem all_platforms_resolve options e :
  JS.or_false (opt_all options) = true ->
  exists ts,
    CLI.determineTargets options e = Ok ts
    /\ map platform ts = SUPPORTED_PLATFORMS
    /\ List.length ts = 8%nat.
Proof.
  intros Hall.
  assert (Hps : CLI.platforms options e = SUPPORTED_PLATFORMS)
    by (unfold CLI.platforms; by rewrite Hall).
  pose proof (resolveTargets_throws options e (CLI.platforms options e) 0) as H.
  unfold CLI.determineTargets.
  destruct (CLI.resolveTargets options e 0 (CLI.platforms options e))
    as [ts|m] eqn:Hts.
  - exists ts. apply resolveTargets_labels in Hts. rewrite Hps in Hts.
    repeat split; [done|]. by rewrite <- (length_map platform), Hts.
  - destruct H as (p & Hin & Hbad & _). exfalso. apply Hbad.
    rewrite Hps in Hin. pose proof supported_well_formed as Hok.
    rewrite List.Forall_forall in Hok. by apply Hok.
Qed.

Lemma all_platforms_resolve_witness :
  exists ts,
    CLI.determineTargets Samples.everything Samples.host = Ok ts
    /\ map platform ts = SUPPORTED_PLATFORMS
    /\ List.length ts = 8%nat.
Proof. apply (all_platforms_resolve Samples.everything Samples.host). reflexivity. Defined.

(** X8. Every resolved target has a non-empty operating system and a
    non-empty architecture without a slash, its platform label is these
    two joined by a slash (followed by whatever further components the
    directive had), and its output path is the name
    [generateOutputName] makes of them with the version, the output
    directory and the binary name of the options or their defaults. *)
Theorem resolved_target_fields options e ts :
  CLI.determineTargets options e = Ok ts ->
  Forall (fun t =>
            Text.component (os t) /\ Text.component (arch t)
            /\ (exists rest, platform t = JS.join "/" (os t :: arch t :: rest))
            /\ exists j,
                 output t
                 = CLI.generateOutputName (clock e j) (os t) (arch t)
                     (JS.or_default (opt_version options) "1.0.0")
                     (JS.or_default (opt_output options) "dist")
                     (JS.or_default (opt_name options) "app")) ts.
Proof. apply resolveTargets_fields. Qed.

Lemma resolved_target_fields_witness :
  Forall (fun t =>
            Text.component (os t) /\ Text.component (arch t)
            /\ (exists rest, platform t = JS.join "/" (os t :: arch t :: rest))
            /\ exists j,
                 output t
                 = CLI.generateOutputName (clock Samples.host j) (os t) (arch t)
                     (JS.or_default (opt_version Samples.odd_platforms) "1.0.0")
                     (JS.or_default (opt_output Samples.odd_platforms) "dist")
                     (JS.or_default (opt_name Samples.odd_platforms) "app"))
    [ mkTarget "plan9" "mips" "dist/app-1.0.0-plan9-mips-20261103" "plan9/mips";
      mkTarget "linux" "amd64" "dist/app-1.0.0-linux-amd64-20261103"
        "linux/amd64/extra";
      mkTarget "linux" "amd64,darwin"
        "dist/app-1.0.0-linux-amd64,darwin-20261103" "linux/amd64,darwin/arm64" ].
Proof.
  apply (resolved_target_fields Samples.odd_platforms Samples.host).
  by vm_compute.
Defined.

(** X9. The cross product of [--os] and [--arch]. Without [--all] and
    without [--target], when every operating system and every
    architecture given is a non-empty name without a slash, resolution
    succeeds and yields, in order, one target for each pair of an
    operating system and an architecture, the architecture being what
    the lookup in [NODE_TO_GO_ARCH] gives: Go's name for Node's [x64]
    and [ia32], the printed function for a name the object literal
    inherits ([constructor], [toString], ...), the name itself
    otherwise. *)
Theorem cross_product_resolves options e oses archs :
  JS.or_false (opt_all options) = false ->
  opt_target options = None \/ opt_target options = Some [] ->
  opt_os options = Some oses -> opt_arch options = Some archs ->
  Forall Text.component oses -> Forall Text.component archs ->
  exists ts,
    CLI.determineTargets options e = Ok ts
    /\ map (fun t => (os t, arch t)) ts
       = flat_map (fun o => map (fun a => (o, CLI.NODE_TO_GO_ARCH a)) archs) oses
    /\ List.length ts = (List.length oses * List.length archs)%nat.
Proof.
  intros Hall Htarget Hos Harch Hoses Harchs.
  set (pairs := flat_map (fun o => map (fun a => (o, CLI.NODE_TO_GO_ARCH a)) archs) oses).
  assert (Hps : CLI.platforms options e
                = map (fun p => fst p +:+ "/" +:+ snd p) pairs).
  { unfold CLI.platforms. rewrite Hall, Hos, Harch.
    assert (Hflat : flat_map (fun o => map (fun a => o +:+ "/" +:+ CLI.NODE_TO_GO_ARCH a) archs) oses
                    = map (fun p => fst p +:+ "/" +:+ snd p) pairs).
    { subst pairs. clear. induction oses as [|o oses IH]; [done|].
      cbn [flat_map]. rewrite map_app, IH, map_map. done. }
    by destruct Htarget as [->| ->]. }
  assert (Hgood : Forall (fun p => Text.component (fst p) /\ Text.component (snd p)) pairs).
  { subst pairs. clear -Hoses Harchs.
    induction Hoses as [|o oses Ho _ IH]; [done|].
    cbn [flat_map]. apply Forall_app. split; [|done].
    clear IH. induction Harchs as [|a archs Ha _ IH]; [done|].
    constructor; [|done]. split; [done|]. by apply NODE_TO_GO_ARCH_component. }
  destruct (resolveTargets_pairs options e pairs 0 Hgood) as (ts & Hts & Hpairs).
  exists ts. unfold CLI.determineTargets. rewrite Hps. split; [done|]. split; [done|].
  rewrite <- (length_map (fun t => (os t, arch t))), Hpairs. subst pairs. clear.
  induction oses as [|o oses IH]; [done|].
  cbn [flat_map List.length]. rewrite length_app, length_map, IH. lia.
Qed.

Lemma cross_product_resolves_witness :
  exists ts,
    CLI.determineTargets Samples.aliased Samples.host = Ok ts
    /\ map (fun t => (os t, arch t)) ts
       = flat_map (fun o => map (fun a => (o, CLI.NODE_TO_GO_ARCH a)) ["x64"; "amd64"])
           ["linux"]
    /\ List.length ts = (List.length ["linux"] * List.length ["x64"; "amd64"])%nat.
Proof.
  apply (cross_product_resolves Samples.aliased Samples.host ["linux"] ["x64"; "amd64"]);
    try reflexivity; [by left|..]; repeat constructor; done.
Defined.

(** [--os linux --arch constructor]: the lookup finds the constructor
    the object literal inherits, and the target is built for it. *)
Example inherited_architecture :
  exists ts,
    CLI.determineTargets
      (Samples.options None (Some ["linux"]) (Some ["constructor"; "toString"; "__proto__"])
         None "2" true) Samples.host = Ok ts
    /\ map arch ts
       = [ "function Object() { [native code] }";
           "function toString() { [native code] }";
           "[object Object]" ]
    /\ map platform ts
       = [ "linux/function Object() { [native code] }";
           "linux/function toString() { [native code] }";
           "linux/[object Object]" ].
Proof. eexists. split; [by vm_compute|]. by vm_compute. Qed.

Section NormalForm.

Lemma resolve_plain absolute stack components :
  forallb Text.named components = true ->
  JS.resolve absolute stack components = rev stack ++ components.
Proof.
  revert stack. induction components as [|c rest IH]; intros stack Hall.
  - cbn [JS.resolve]. by rewrite app_nil_r.
  - cbn [forallb] in Hall. apply andb_prop in Hall as [Hc Hrest].
    cbn [JS.resolve]. unfold Text.named in Hc.
    destruct (String.eqb c ""), (String.eqb c "."), (String.eqb c "..");
      try done.
    cbn [orb]. rewrite IH by done. cbn [rev]. by rewrite <- app_assoc.
Qed.

(** A path in normal form is its own normal form. *)
Lemma normalize_plain p : Text.plain p = true -> JS.normalize p = p.
Proof.
  unfold Text.plain, JS.normalize. intros Hp.
  rewrite resolve_plain by exact Hp. cbn [rev app].
  change "/" with (String "/"%char "") at 2 4.
  rewrite join_split.
  destruct p as [|c r]; [done|].
  cbn [String.prefix]. destruct (ascii_dec "/" c) as [<-|_]; [|done].
  cbn [JS.split] in Hp. by rewrite Ascii.eqb_refl in Hp.
Qed.

End NormalForm.

(** X10. The binaries of a configuration lie in its output directory,
    and cleaning removes them. For the configuration the command line
    is turned into, with an output directory and output paths in
    normal form, the output path of every target starts with the
    output directory followed by a slash and [cleanBuildDir] leaves
    none of them behind: of the files with a path in normal form it
    removes those at the directory's path or below it, and keeps the
    others. *)
Theorem clean_removes_outputs options e config w :
  CLI.createBuildConfig options e = Ok config ->
  Text.plain (outputDir config) = true ->
  Forall (fun t => Text.plain (output t) = true) (targets config) ->
  Forall (fun t =>
            String.prefix (outputDir config +:+ "/") (output t) = true
            /\ fsys (fst (GoBuilder.cleanBuildDir (outputDir config) w))
                 !! output t = None) (targets config)
  /\ forall p,
       Text.plain p = true ->
       fsys (fst (GoBuilder.cleanBuildDir (outputDir config) w)) !! p
       = if String.eqb (outputDir config) p
            || String.prefix (outputDir config +:+ "/") p
         then None else fsys w !! p.
Proof.
  intros H Hdir Hplain.
  assert (Hclean : forall p,
             Text.plain p = true ->
             fsys (fst (GoBuilder.cleanBuildDir (outputDir config) w)) !! p
             = if String.eqb (outputDir config) p
                  || String.prefix (outputDir config +:+ "/") p
               then None else fsys w !! p).
  { intros p Hp. unfold GoBuilder.cleanBuildDir. cbn [fst fsys set_fsys].
    destruct (String.eqb (outputDir config) p
              || String.prefix (outputDir config +:+ "/") p) eqn:Hin.
    - apply map_lookup_filter_None. right. intros x _. cbn [fst].
      rewrite (normalize_plain _ Hdir), (normalize_plain _ Hp).
      unfold GoBuilder.inside. rewrite Hin. by intros [].
    - destruct (fsys w !! p) as [content|] eqn:Hw.
      + apply map_lookup_filter_Some. split; [done|]. cbn [fst].
        rewrite (normalize_plain _ Hdir), (normalize_plain _ Hp).
        unfold GoBuilder.inside. by rewrite Hin.
      + apply map_lookup_filter_None. by left. }
  split; [|exact Hclean].
  unfold CLI.createBuildConfig in H.
  destruct (CLI.determineTargets options e) as [ts|] eqn:Hts; [|done].
  simplify_eq. cbn [targets outputDir] in *.
  pose proof (resolveTargets_fields options e _ _ _ Hts) as Hfields.
  rewrite List.Forall_forall in Hfields, Hplain. apply List.Forall_forall.
  intros t Ht. destruct (Hfields t Ht) as (_ & _ & _ & j & Hout).
  assert (Hpre : String.prefix (JS.or_default (opt_output options) "dist" +:+ "/")
                   (output t) = true).
  { rewrite Hout. unfold CLI.generateOutputName.
    rewrite <- !append_assoc. rewrite !append_assoc. rewrite <- append_assoc.
    apply prefix_append. }
  split; [done|]. rewrite (Hclean _ (Hplain t Ht)), Hpre. by rewrite orb_true_r.
Qed.

Lemma clean_removes_outputs_witness :
  Forall (fun t =>
            String.prefix (outputDir Cases.default_config +:+ "/") (output t) = true
            /\ fsys (fst (GoBuilder.cleanBuildDir (outputDir Cases.default_config)
                            Samples.after_both_build))
                 !! output t = None) (targets Cases.default_config)
  /\ forall p,
       Text.plain p = true ->
       fsys (fst (GoBuilder.cleanBuildDir (outputDir Cases.default_config)
                    Samples.after_both_build)) !! p
       = if String.eqb (outputDir Cases.default_config) p
            || String.prefix (outputDir Cases.default_config +:+ "/") p
         then None else fsys Samples.after_both_build !! p.
Proof.
  apply (clean_removes_outputs Samples.defaults Samples.host Cases.default_config
           Samples.after_both_build).
  - vm_compute. reflexivity.
  - vm_compute. reflexivity.
  - repeat constructor.
Defined.

(** [-o ./dist] and [-o dist/] clean what [-o dist] cleans. *)
Example clean_other_spellings :
  JS.normalize "./dist" = "dist" /\ JS.normalize "dist/" = "dist"
  /\ fsys (fst (GoBuilder.cleanBuildDir "./dist" Samples.after_both_build)) = ∅
  /\ fsys (fst (GoBuilder.cleanBuildDir "dist/" Samples.after_both_build)) = ∅
  /\ fsys Samples.after_both_build
       !! "dist/app-1.0.0-linux-amd64-20261103" = Some "ELF".
Proof. repeat split; by vm_compute. Qed.

Section DirectorySize.
Import Disk.

Lemma getDirectorySize_folder items :
  getDirectorySize (Folder items)
  = match totalSize items with Some bytes => round_mb bytes | None => 0 end.
Proof.
  cbn [getDirectorySize].
  assert (H : forall l,
    (fix total (l : list node) : option Z :=
       match l with
       | [] => Some 0
       | item :: rest =>
           match item with
           | Gone => None
           | File size => Z.add size <$> total rest
           | Folder _ | Locked => Z.add (getDirectorySize item) <$> total rest
           end
       end) l = totalSize l).
  { induction l as [|item rest IH]; [done|]. cbn [totalSize]. by rewrite IH. }
  by rewrite H.
Qed.

Lemma totalSize_files sizes : totalSize (map File sizes) = Some (sum sizes).
Proof.
  induction sizes as [|z sizes IH]; [done|].
  cbn [map totalSize sum]. by rewrite IH.
Qed.

Lemma round_mb_bounds bytes :
  0 <= bytes -> 0 <= round_mb bytes /\ 2 * MiB * round_mb bytes <= 2 * bytes + MiB.
Proof.
  intros H. unfold round_mb, MiB. split.
  - apply Z.div_pos; lia.
  - apply Z.mul_div_le. lia.
Qed.

Lemma sum_nonneg sizes : Forall (fun z => 0 <= z) sizes -> 0 <= sum sizes.
Proof. induction 1 as [|z sizes Hz _ IH]; cbn [sum]; lia. Qed.

(** The megabytes of folders of files, added up as the loop does. *)
Lemma totalSize_folders groups :
  Forall (Forall (fun z => 0 <= z)) groups ->
  exists t,
    totalSize (map flat groups) = Some t
    /\ 0 <= t
    /\ 2 * MiB * t <= 2 * sum (map sum groups) + MiB * Z.of_nat (List.length groups).
Proof.
  induction 1 as [|g groups Hg _ (t & Ht & Hpos & Hle)].
  - exists 0. cbn. unfold MiB. repeat split; lia.
  - cbn [map]. unfold flat at 1. cbn [totalSize]. rewrite Ht.
    cbn [fmap option_fmap option_map].
    rewrite getDirectorySize_folder, totalSize_files.
    pose proof (round_mb_bounds (sum g) (sum_nonneg _ Hg)) as [Hr1 Hr2].
    eexists. split; [reflexivity|].
    cbn [map sum List.length].
    split; [lia|]. rewrite Nat2Z.inj_succ. unfold MiB in *. lia.
Qed.

End DirectorySize.

(** X11. The size of a directory mixes its units. For a directory of
    files, [getDirectorySize] is the total of their bytes in megabytes,
    rounded. For a directory of directories of files, as the cache
    directory is (every key starts with [os/]), the rounded megabytes of
    each subdirectory are added up as if they were bytes: the result is
    0 as long as the bytes below, plus half a megabyte for each
    subdirectory, stay under 512 gigabytes. And an item that cannot be
    examined makes the result 0 whatever the rest holds. *)
Theorem directory_size_units groups sizes before after :
  Forall (Forall (fun z => 0 <= z)) groups ->
  2 * Disk.sum (map Disk.sum groups)
    + Disk.MiB * Z.of_nat (List.length groups) < Disk.MiB * Disk.MiB ->
  Disk.getDirectorySize (Disk.flat sizes)
  = (2 * Disk.sum sizes + Disk.MiB) / (2 * Disk.MiB)
  /\ Disk.getDirectorySize (Disk.Folder (map Disk.flat groups)) = 0
  /\ Disk.getDirectorySize (Disk.Folder (before ++ Disk.Gone :: after)) = 0.
Proof.
  intros Hgroups Hsmall. split; [|split].
  - unfold Disk.flat. by rewrite getDirectorySize_folder, totalSize_files.
  - rewrite getDirectorySize_folder.
    destruct (totalSize_folders groups Hgroups) as (t & -> & Hpos & Hle).
    unfold Disk.round_mb. apply Z.div_small. unfold Disk.MiB in *. lia.
  - rewrite getDirectorySize_folder.
    assert (H : Disk.totalSize (before ++ Disk.Gone :: after) = None).
    { induction before as [|item before IH]; [done|].
      cbn [app Disk.totalSize]. rewrite IH. by destruct item. }
    by rewrite H.
Qed.

Lemma directory_size_units_witness :
  Disk.getDirectorySize (Disk.flat [3000000; 2000000])
  = (2 * Disk.sum [3000000; 2000000] + Disk.MiB) / (2 * Disk.MiB)
  /\ Disk.getDirectorySize
       (Disk.Folder (map Disk.flat [[30000000; 20000000]; [70000000]])) = 0
  /\ Disk.getDirectorySize
       (Disk.Folder ([Disk.File 900000000] ++ Disk.Gone :: [])) = 0.
Proof.
  apply (directory_size_units [[30000000; 20000000]; [70000000]]
           [3000000; 2000000] [Disk.File 900000000] []).
  - repeat constructor; lia.
  - by vm_compute.
Defined.

(** ** The lists of a result *)

Section Checksums.
Import GoBuilder Jobs.

Lemma build_counts penv cpus config ls elapsed w r res n :
  parallelLimit config cpus = JS.Int n -> 1 <= n ->
  build penv cpus config ls elapsed w = Some r ->
  outcome_of r = Ok res ->
  (List.length (binaries res) + List.length (failed res))%nat
  = List.length (targets config).
Proof.
  intros Hlimit Hn Hbuild Hres.
  destruct (build_returns _ _ _ _ _ _ _ _ Hbuild Hres)
    as (_ & w1 & evs & s0 & s & Hstart & Hrun & Hdone & Hw & _ & Hf & Hb & _).
  destruct (batches_loop_positive n (targets config) Hn
              (List.length (targets config)) 0)
    as (bs & Hbs & Hcat & _); [lia|lia|].
  change (concat bs = targets config) in Hcat.
  unfold start, make_batches in Hstart.
  rewrite Hlimit, Hbs in Hstart. cbn in Hstart. simplify_eq.
  assert (Hseq : in_sequence bs s).
  { eapply in_sequence_run; [|exact Hrun].
    split; [done|]. exists []. split; [done|]. by left. }
  destruct (in_sequence_targets bs s Hseq) as [Hall _].
  destruct Hseq as [Hfin _].
  unfold completed in Hdone. apply andb_prop in Hdone as [Hset Hwait].
  destruct (waiting s); [|done].
  destruct (accounted_run penv config ls _ s Hrun)
    as (F & B & HF & HB & _ & HpF & HpB & _).
  cbn in HF, HB, HpF, HpB.
  assert (Hjobs : settled (finished s ++ running s) = true)
    by (by rewrite settled_app, Hfin, Hset).
  rewrite Hf, Hb, HF, HB.
  rewrite <- HpF, <- HpB, Nat.add_comm, (settled_partition _ Hjobs).
  rewrite <- Hcat, <- Hall. cbn. rewrite app_nil_r, <- map_app. by rewrite length_map.
Qed.

Lemma build_checksums penv cpus config ls elapsed w r res :
  build penv cpus config ls elapsed w = Some r ->
  outcome_of r = Ok res ->
  checksums res
  = if checksum config && negb (Nat.eqb (List.length (binaries res)) 0)
    then writeChecksumFiles (binaries res) (outputDir config)
    else [].
Proof.
  unfold build. intros Hbuild Hres.
  destruct (go_project w); cbn [negb] in Hbuild; [|by simplify_eq].
  destruct (clean config);
    [destruct (cleanBuildDir _ w) as [wa e1];
     destruct (BuildCache.cleanCache wa) as [wb e2]|];
    (destruct (buildTargetsParallel _ _ _ _ _ _ _) as [s|] eqn:Hpar; [|done]);
    simplify_eq; cbn [outcome_of] in Hres; simplify_eq.
  all: unfold buildTargetsParallel in Hpar;
    (destruct (start _ _ _ _ _) as [s0|] eqn:Hstart; [|done]);
    (destruct (run _ _ _ s0) as [s'|] eqn:Hrun; [|done]);
    (destruct (completed s'); [|done]); simplify_eq.
  all: assert (Hnone : checksumFiles (builder s) = [])
    by (destruct (accounted_run penv config ls _ s Hrun) as (_ & _ & _ & _ & -> & _);
        unfold start in Hstart; destruct (make_batches config cpus);
        cbn in Hstart; by simplify_eq).
  all: destruct (checksum config && _) eqn:Hask;
    cbn [checksums binaries createBuildResult generateChecksums
         builtBinaries checksumFiles];
    rewrite ?Hask; done.
Qed.

End Checksums.

(** ** Every build can be brought to its end *)

Section Completion.
Import GoBuilder.
Variable penv : gmap string string.
Variable config : BuildConfig.

Lemma job_can_step target ph w b :
  terminal ph = false ->
  exists o js,
    job_step penv config target o ph w b = Some js
    /\ (Trace.rank (next_phase js) < Trace.rank ph)%nat.
Proof.
  destruct ph; try done; intros _.
  - exists Done. eexists. split; [reflexivity|]. cbn. lia.
  - exists Failed. unfold job_step, BuildCache.restoreFromCache.
    destruct (BuildCache.entries w !! key); eexists; (split; [reflexivity|]); cbn; lia.
  - exists Failed. eexists. split; [reflexivity|]. cbn. lia.
  - exists Failed. eexists. split; [reflexivity|]. cbn. lia.
  - exists Failed. eexists. split; [reflexivity|]. cbn. lia.
Qed.

Lemma job_settles n i target ph s :
  (Trace.rank ph <= n)%nat ->
  running s !! i = Some (target, ph) ->
  exists ls s' ph',
    run penv config ls s = Some s'
    /\ terminal ph' = true
    /\ running s' = <[i := (target, ph')]> (running s)
    /\ waiting s' = waiting s.
Proof.
  revert ph s. induction n as [|n IH]; intros ph s Hrank Hi.
  - exists [], s, ph. split; [done|].
    split; [destruct ph; cbn in Hrank; (done || lia)|].
    split; [by rewrite list_insert_id|done].
  - destruct (terminal ph) eqn:Hph.
    { exists [], s, ph. split; [done|]. split; [done|].
      split; [by rewrite list_insert_id|done]. }
    destruct (job_can_step target ph (world s) (builder s) Hph)
      as (o & js & Hjs & Hlt).
    set (s1 := mkSched (next_world js) (next_builder js) (finished s)
                 (<[i := (target, next_phase js)]> (running s))
                 (waiting s) (trace s ++ emitted js)).
    assert (Hstep : sched_step penv config (Job i o) s = Some s1).
    { cbn [sched_step]. by rewrite Hi, Hjs. }
    destruct (IH (next_phase js) s1) as (ls & s' & ph' & Hrun & Hterm & Hr & Hw);
      [lia| |].
    { cbn [s1 running]. apply list_lookup_insert_eq. by eapply lookup_lt_Some. }
    exists (Job i o :: ls), s', ph'. cbn [run]. rewrite Hstep.
    split; [done|]. split; [done|]. split; [|done].
    rewrite Hr. cbn [s1 running]. by rewrite list_insert_insert_eq.
Qed.

Lemma batch_settles k s :
  (k <= List.length (running s))%nat ->
  exists ls s',
    run penv config ls s = Some s'
    /\ settled (take k (running s')) = true
    /\ List.length (running s') = List.length (running s)
    /\ waiting s' = waiting s.
Proof.
  induction k as [|k IH]; intros Hk.
  - by exists [], s.
  - destruct IH as (ls & s1 & Hrun & Hset & Hlen & Hw); [lia|].
    destruct (lookup_lt_is_Some_2 (running s1) k) as [[target ph] Hi]; [lia|].
    destruct (job_settles (Trace.rank ph) k target ph s1 (le_n _) Hi)
      as (ls2 & s2 & ph' & Hrun2 & Hterm & Hr & Hw2).
    exists (ls ++ ls2), s2. rewrite run_app, Hrun.
    split; [done|]. split; [|split; [|congruence]].
    + rewrite Hr. erewrite take_S_r by (apply list_lookup_insert_eq; lia).
      rewrite take_insert_ge by lia.
      rewrite settled_app, Hset. cbn. by rewrite Hterm.
    + by rewrite Hr, length_insert.
Qed.

(** From any state some answers of the surroundings take the build to
    the end of its last batch. *)
Lemma run_completes batches :
  forall s, waiting s = batches ->
    exists ls s', run penv config ls s = Some s' /\ completed s' = true.
Proof.
  induction batches as [|batch rest IH]; intros s Hw.
  all: destruct (batch_settles (List.length (running s)) s (le_n _))
    as (ls & s1 & Hrun & Hset & Hlen & Hw1).
  all: rewrite <- Hlen, firstn_all in Hset.
  - exists ls, s1. split; [done|]. unfold completed. by rewrite Hset, Hw1, Hw.
  - set (s2 := mkSched (world s1) (builder s1) (finished s1 ++ running s1)
                 (map (fun t => (t, Hashing)) batch) rest (trace s1)).
    assert (Hstep : sched_step penv config Next s1 = Some s2).
    { cbn [sched_step]. by rewrite Hset, Hw1, Hw. }
    destruct (IH s2 eq_refl) as (ls2 & s' & Hrun2 & Hdone).
    exists (ls ++ Next :: ls2), s'. rewrite run_app, Hrun. cbn [run].
    by rewrite Hstep.
Qed.

Lemma build_ends cpus elapsed w :
  make_batches config cpus <> None ->
  exists ls r, build penv cpus config ls elapsed w = Some r.
Proof.
  intros Hbs. unfold build.
  destruct (go_project w); cbn [negb]; [|by eexists [], _].
  destruct (make_batches config cpus) as [bs|] eqn:Hmake; [|done].
  set (prepared := if clean config then _ else _).
  destruct prepared as [w1 evs].
  destruct (run_completes bs (mkSched w1 fresh [] [] bs evs) eq_refl)
    as (ls & s & Hrun & Hdone).
  exists ls. unfold buildTargetsParallel, start. rewrite Hmake. cbn [fmap option_fmap option_map].
  rewrite Hrun, Hdone. by eexists.
Qed.

Lemma build_hangs cpus n ls elapsed w :
  go_project w = true -> targets config <> [] ->
  parallelLimit config cpus = JS.Int n -> n <= 0 ->
  build penv cpus config ls elapsed w = None.
Proof.
  intros Hgo Hts Hlimit Hn. unfold build. rewrite Hgo. cbn [negb].
  assert (Hnone : make_batches config cpus = None).
  { unfold make_batches. rewrite Hlimit. apply batches_loop_diverges; [done|].
    destruct (targets config); [done|]. cbn. lia. }
  destruct (clean config);
    [destruct (cleanBuildDir _ w) as [wa e1];
     destruct (BuildCache.cleanCache wa) as [wb e2]|];
    unfold buildTargetsParallel, start; by rewrite Hnone.
Qed.

Lemma batches_formed cpus :
  (forall n, parallelLimit config cpus = JS.Int n -> n <= 0 -> targets config = []) ->
  make_batches config cpus <> None.
Proof.
  intros Hok. unfold make_batches.
  destruct (parallelLimit config cpus) as [n|] eqn:Hlimit.
  - destruct (Z_le_gt_dec n 0) as [Hle|Hgt].
    + rewrite (Hok n eq_refl Hle). by rewrite batches_loop_eq.
    + destruct (batches_loop_positive n (targets config) ltac:(lia)
                  (List.length (targets config)) 0) as (bs & -> & _); [lia|lia|done].
  - destruct (targets config) as [|t ts]; [by rewrite batches_loop_eq|].
    change (List.length (t :: ts)) with (S (List.length ts)).
    by rewrite batches_loop_nan.
Qed.

End Completion.

(** X12. How the [build] command ends. Apart from [--list-platforms],
    the command comes to an end, under answers of the surroundings that
    take every job to its end, unless the configuration is assembled,
    [go.mod] is there, the output directory is prepared, there is a
    target and the limit [min(parallel, cpus)] is zero or negative:
    then the loop that forms the batches never ends, and the command
    gets neither to return nor to its [process.exit]. When it ends it
    has returned or exited with status 1, and it has returned exactly
    when the configuration was assembled, the directory operations of
    the build went through, the build returned a result with no failed
    platform, the checksum files, if any were due, could be written
    and so could the metrics, if they were asked for; so one failed
    target, an invalid platform string or a missing [go.mod] all end
    in status 1. *)
Theorem execute_status flags options e cpus elapsed io w :
  Command.listPlatforms flags = false ->
  ((exists ls run,
      Command.execute flags options e cpus ls elapsed io w = Some run)
   <-> ~ exists config n,
           CLI.createBuildConfig options e = Ok config
           /\ go_project w = true
           /\ Command.prepared io = true
           /\ targets config <> []
           /\ GoBuilder.parallelLimit config cpus = JS.Int n
           /\ n <= 0)
  /\ forall ls run,
       Command.execute flags options e cpus ls elapsed io w = Some run ->
       (Command.status_of run = Command.Returned
        \/ Command.status_of run = Command.Exited 1)
       /\ (Command.status_of run = Command.Returned
           <-> exists config r result,
                 CLI.createBuildConfig options e = Ok config
                 /\ GoBuilder.build (process_env e) cpus config ls elapsed w = Some r
                 /\ Command.built_of run = Some r
                 /\ GoBuilder.outcome_of r = Ok result
                 /\ go_project w = true
                 /\ Command.prepared io = true
                 /\ failed result = []
                 /\ (checksums result <> [] -> Command.summed io = true)
                 /\ (Command.metrics flags = true ->
                     Command.metrics_written io = true)).
Proof.
  intros Hlist. split.
  - unfold Command.execute, CLI.runBuild. rewrite Hlist. split.
    + intros (ls & run & Hrun) (config & n & Hconfig & Hgo & Hio & Hts & Hlimit & Hn).
      rewrite Hconfig, Hgo, Hio in Hrun. cbn [andb negb] in Hrun.
      by rewrite (build_hangs _ config cpus n ls elapsed w Hgo Hts Hlimit Hn) in Hrun.
    + intros Hends.
      destruct (CLI.createBuildConfig options e) as [config|m] eqn:Hconfig;
        [|by exists [], (Command.mkRun (Command.Exited 1) None)].
      destruct (go_project w && negb (Command.prepared io)) eqn:Hprep;
        [by exists [], (Command.mkRun (Command.Exited 1) None)|].
      assert (Hsome : exists ls r,
                 GoBuilder.build (process_env e) cpus config ls elapsed w = Some r).
      { destruct (go_project w) eqn:Hgo.
        - apply build_ends, batches_formed. intros n Hlimit Hn.
          destruct (targets config) as [|t ts] eqn:Hts; [done|].
          destruct Hends. exists config, n. rewrite Hts.
          by destruct (Command.prepared io).
        - exists []. unfold GoBuilder.build. rewrite Hgo. by eexists. }
      destruct Hsome as (ls & r & Hbuild). exists ls. rewrite Hbuild.
      repeat case_match; by eexists.
  - intros ls run Hrun.
    unfold Command.execute, CLI.runBuild in Hrun. rewrite Hlist in Hrun.
    destruct (CLI.createBuildConfig options e) as [config|m] eqn:Hconfig.
    2:{ simplify_eq. split; [by right|]. split; [done|].
        intros (c & ? & ? & Hc & _). congruence. }
    destruct (go_project w && negb (Command.prepared io)) eqn:Hprep.
    { simplify_eq. split; [by right|]. split; [done|].
      intros (_ & _ & _ & _ & _ & _ & _ & Hgo & Hio & _).
      by rewrite Hgo, Hio in Hprep. }
    destruct (GoBuilder.build _ cpus config ls elapsed w) as [r|] eqn:Hbuild; [|done].
    destruct (GoBuilder.outcome_of r) as [result|m] eqn:Hout.
    2:{ simplify_eq. split; [by right|]. split; [done|].
        intros (c & r' & res & Hc & Hb & _ & Ho & _). congruence. }
    pose proof (build_returns _ _ _ _ _ _ _ _ Hbuild Hout)
      as (Hgo & _ & _ & _ & s & _ & _ & _ & _ & _ & Hfailed & _ & Hsuccess & _).
    pose proof (build_checksums _ _ _ _ _ _ _ _ Hbuild Hout) as Hsums.
    assert (Hio : Command.prepared io = true)
      by (rewrite Hgo in Hprep; by destruct (Command.prepared io)).
    assert (Hiff : success result = true <-> failed result = []).
    { rewrite Hsuccess, Hfailed. destruct (GoBuilder.failedBuilds _); cbn; split; congruence. }
    assert (Hdue : checksum config
                   && negb (Nat.eqb (List.length (binaries result)) 0) = true
                   <-> checksums result <> []).
    { rewrite Hsums. destruct (checksum config && _); [|done].
      split; [|done]. intros _. unfold GoBuilder.writeChecksumFiles. done. }
    destruct (checksum config && negb (Nat.eqb (List.length (binaries result)) 0))
      eqn:Hguard; cbn [andb] in Hrun.
    all: destruct (Command.summed io) eqn:Hsummed; cbn [negb andb] in Hrun.
    all: destruct (Command.metrics flags) eqn:Hm,
           (Command.metrics_written io) eqn:Hwritten; cbn [andb negb] in Hrun;
      try (destruct (success result) eqn:Hs; cbn [negb] in Hrun);
      simplify_eq; cbn [Command.status_of Command.built_of];
      (split; [by (left + right)|]); split; try done.
    all: try (intros _; eexists config, r, result; repeat split; try done;
              try (by apply Hiff); intros Hne; apply Hdue in Hne; congruence).
    all: intros (c & r' & res & Hc & Hb & Hbuilt & Ho & _ & _ & Hf & Hsum & Hw).
    all: assert (c = config) by congruence; subst c.
    all: assert (r' = r) by congruence; subst r'.
    all: assert (res = result) by congruence; subst res.
    all: try (apply Hiff in Hf; congruence).
    all: try (by specialize (Hw eq_refl)).
    all: try (specialize (Hsum (proj1 Hdue eq_refl)); congruence).
Qed.

Lemma execute_status_witness :
  Command.execute Cases.plain Samples.defaults Samples.host 8 Cases.one_build 1200
    Cases.writable Samples.empty_world = Some Cases.ended
  /\ Command.status_of Cases.ended = Command.Returned
  /\ ((exists ls run,
         Command.execute Cases.plain Samples.defaults Samples.host 8 ls 1200
           Cases.writable Samples.empty_world = Some run)
      <-> ~ exists config n,
              CLI.createBuildConfig Samples.defaults Samples.host = Ok config
              /\ go_project Samples.empty_world = true
              /\ Command.prepared Cases.writable = true
              /\ targets config <> []
              /\ GoBuilder.parallelLimit config 8 = JS.Int n
              /\ n <= 0)
  /\ forall ls run,
       Command.execute Cases.plain Samples.defaults Samples.host 8 ls 1200
         Cases.writable Samples.empty_world = Some run ->
       (Command.status_of run = Command.Returned
        \/ Command.status_of run = Command.Exited 1)
       /\ (Command.status_of run = Command.Returned
           <-> exists config r result,
                 CLI.createBuildConfig Samples.defaults Samples.host = Ok config
                 /\ GoBuilder.build (process_env Samples.host) 8 config ls 1200
                      Samples.empty_world = Some r
                 /\ Command.built_of run = Some r
                 /\ GoBuilder.outcome_of r = Ok result
                 /\ go_project Samples.empty_world = true
                 /\ Command.prepared Cases.writable = true
                 /\ failed result = []
                 /\ (checksums result <> [] -> Command.summed Cases.writable = true)
                 /\ (Command.metrics Cases.plain = true ->
                     Command.metrics_written Cases.writable = true)).
Proof.
  split; [vm_compute; reflexivity|]. split; [vm_compute; reflexivity|].
  apply (execute_status Cases.plain Samples.defaults Samples.host 8 1200
           Cases.writable Samples.empty_world).
  reflexivity.
Defined.

(** ** Counting batches *)

Lemma batches_counted (n : nat) (bs : list (list BuildTarget)) :
  (1 <= n)%nat ->
  Forall (fun b => List.length b = n) (removelast bs) ->
  Forall (fun b => (0 < List.length b <= n)%nat) bs ->
  List.length bs = ((List.length (concat bs) + n - 1) / n)%nat.
Proof.
  intros Hn. induction bs as [|b bs IH]; intros Hfull Hlen.
  - cbn. symmetry. apply Nat.div_small. lia.
  - apply Forall_cons in Hlen as [Hb Hlen]. destruct bs as [|b' bs].
    + cbn [concat List.length]. rewrite app_nil_r.
      apply (Nat.div_unique _ n 1 (List.length b - 1)); lia.
    + change (removelast (b :: b' :: bs)) with (b :: removelast (b' :: bs)) in Hfull.
      apply Forall_cons in Hfull as [Hbn Hfull].
      specialize (IH Hfull Hlen).
      change (concat (b :: b' :: bs)) with (b ++ concat (b' :: bs)).
      rewrite length_app, Hbn.
      change (List.length (b :: b' :: bs)) with (S (List.length (b' :: bs))).
      rewrite IH.
      replace (n + List.length (concat (b' :: bs)) + n - 1)%nat
        with (1 * n + (List.length (concat (b' :: bs)) + n - 1))%nat by lia.
      rewrite Nat.div_add_l by lia. lia.
Qed.

(** X13. The number of rounds. With a limit [n] of at least one, the
    targets are built in as many batches as [n] goes into their number,
    rounded up; a limit that reaches the number of targets takes one
    batch for them all. *)
Theorem batch_count config cpus n :
  GoBuilder.parallelLimit config cpus = JS.Int n -> 1 <= n ->
  exists bs,
    GoBuilder.make_batches config cpus = Some bs
    /\ List.length bs
       = ((List.length (targets config) + Z.to_nat n - 1) / Z.to_nat n)%nat
    /\ (targets config <> [] ->
        Z.of_nat (List.length (targets config)) <= n -> bs = [targets config]).
Proof.
  intros Hlimit Hn.
  destruct (batches_loop_positive n (targets config) Hn
              (List.length (targets config)) 0)
    as (bs & Hbs & Hcat & Hfull & Hlen); [lia|lia|].
  change (concat bs = targets config) in Hcat.
  exists bs. unfold GoBuilder.make_batches. rewrite Hlimit. split; [done|].
  assert (Hcount := batches_counted (Z.to_nat n) bs ltac:(lia) Hfull Hlen).
  rewrite Hcat in Hcount. split; [done|].
  intros Hne Hfit.
  assert (Hone : List.length bs = 1%nat).
  { rewrite Hcount. destruct (targets config) as [|t ts] eqn:E; [done|].
    symmetry. apply (Nat.div_unique _ _ 1 (List.length (t :: ts) - 1)); cbn in *; lia. }
  destruct bs as [|b [|b' bs]]; try done.
  cbn in Hcat. rewrite app_nil_r in Hcat. by rewrite Hcat.
Qed.

Lemma batch_count_witness :
  exists bs,
    GoBuilder.make_batches Samples.two_targets 8 = Some bs
    /\ List.length bs
       = ((List.length (targets Samples.two_targets) + Z.to_nat 2 - 1) / Z.to_nat 2)%nat
    /\ (targets Samples.two_targets <> [] ->
        Z.of_nat (List.length (targets Samples.two_targets)) <= 2 ->
        bs = [targets Samples.two_targets]).
Proof.
  apply (batch_count Samples.two_targets 8 2); [reflexivity|lia].
Defined.

(** ** Tags and the random hash *)

Section Tags.
Import Text.

Lemma split_join (c : ascii) (l : list string) :
  l <> [] -> Forall (fun x => has_char c x = false) l ->
  JS.split c (JS.join (String c "") l) = l.
Proof.
  intros Hne Hall. induction Hall as [|x l Hx Hl IH]; [done|].
  destruct l as [|y l].
  - cbn [JS.join]. by apply split_free.
  - change (JS.join (String c "") (x :: y :: l))
      with (x +:+ String c "" +:+ JS.join (String c "") (y :: l)).
    change (String c "" +:+ ?s) with (String c s).
    rewrite split_append by done. by rewrite IH.
Qed.

Lemma filter_all {A} (p : A -> bool) (l : list A) :
  Forall (fun x => p x = true) l -> List.filter p l = l.
Proof.
  induction 1 as [|x l Hx _ IH]; [done|]. cbn [List.filter]. by rewrite Hx, IH.
Qed.

Lemma join_truthy (l : list string) :
  Forall (fun x => JS.has_text x = true) l -> l <> [] ->
  JS.truthy (JS.join "," l) = true.
Proof.
  intros Hall Hne. destruct Hall as [|x l Hx _]; [done|].
  destruct x as [|d x]; [done|]. by destruct l.
Qed.

End Tags.

(** X14. The tags that reach the compiler. [parseTags] keeps the pieces
    between commas that are not blank: every tag it returns has text and
    no comma, and a piece of the option is a tag exactly when it has
    text. Parsing the comma-joined list that [-tags] receives gives the
    same tags again. *)
Theorem parseTags_keeps_text o :
  Forall (fun tag => JS.has_text tag = true /\ Text.has_char "," tag = false)
    (GoUtils.parseTags o)
  /\ (forall s tag, o = Some s -> s <> "" ->
        (In tag (GoUtils.parseTags o)
         <-> In tag (JS.split "," s) /\ JS.has_text tag = true))
  /\ GoUtils.parseTags (Some (JS.join "," (GoUtils.parseTags o)))
     = GoUtils.parseTags o.
Proof.
  assert (Hclean : Forall (fun tag => JS.has_text tag = true
                                      /\ Text.has_char "," tag = false)
                     (GoUtils.parseTags o)).
  { unfold GoUtils.parseTags. destruct o as [s|]; [|done].
    destruct (JS.truthy s); [|done].
    apply List.Forall_forall. intros tag [Hin Htext]%filter_In. split; [done|].
    pose proof (split_pieces_free "," s) as Hfree.
    rewrite List.Forall_forall in Hfree. by apply Hfree. }
  split; [done|]. split.
  - intros s tag -> Hs. unfold GoUtils.parseTags.
    destruct s as [|d s]; [done|]. cbn [JS.truthy]. apply filter_In.
  - destruct (GoUtils.parseTags o) as [|t ts] eqn:E; [done|].
    unfold GoUtils.parseTags at 1.
    rewrite join_truthy;
      [|eapply Forall_impl; [exact Hclean|]; by intros ? [? _]|done].
    change "," with (String ","%char "") at 1.
    rewrite split_join;
      [|done|eapply Forall_impl; [exact Hclean|]; by intros ? [_ ?]].
    apply filter_all. eapply Forall_impl; [exact Hclean|]. by intros ? [? _].
Qed.

(** X15. The random hash has the length asked for. When
    [crypto.randomBytes] gives as many bytes as it is asked for,
    [generateRandomHash] returns exactly [length] hexadecimal digits,
    for odd lengths too. *)
Theorem random_hash_length e len :
  List.length (randomBytes e (Nat.div (len + 1) 2)) = Nat.div (len + 1) 2 ->
  Forall (fun b => 0 <= b < 256) (randomBytes e (Nat.div (len + 1) 2)) ->
  List.length (Jobs.chars (GoUtils.generateRandomHash e len)) = len
  /\ Forall (fun c => Jobs.is_hex c = true)
       (Jobs.chars (GoUtils.generateRandomHash e len)).
Proof.
  intros Hlen Hrange. unfold GoUtils.generateRandomHash.
  destruct (hex_shape _ Hrange) as [Hl Hh].
  rewrite chars_substring0. split; [|by apply Forall_take].
  rewrite length_take, Hl, Hlen.
  pose proof (Nat.div_mod_eq (len + 1) 2) as Hd.
  pose proof (Nat.mod_upper_bound (len + 1) 2). lia.
Qed.

Lemma random_hash_length_witness :
  List.length (Jobs.chars (GoUtils.generateRandomHash Samples.host 9)) = 9%nat
  /\ Forall (fun c => Jobs.is_hex c = true)
       (Jobs.chars (GoUtils.generateRandomHash Samples.host 9)).
Proof.
  apply (random_hash_length Samples.host 9); [reflexivity|].
  repeat constructor; by vm_compute.
Defined.

(** X16. When checksum files are reported. The result of a build lists
    checksum files exactly when the configuration asks for them and at
    least one binary was restored or built: then [checksums.txt] and one
    file for each binary. With a limit of at least one, a build in
    which every target failed reports none. *)
Theorem checksums_reported penv cpus config ls elapsed w r res :
  GoBuilder.build penv cpus config ls elapsed w = Some r ->
  GoBuilder.outcome_of r = Ok res ->
  (checksums res <> [] <-> checksum config = true /\ binaries res <> [])
  /\ (checksums res <> [] ->
      checksums res = GoBuilder.writeChecksumFiles (binaries res) (outputDir config)
      /\ List.length (checksums res) = S (List.length (binaries res)))
  /\ (forall n, GoBuilder.parallelLimit config cpus = JS.Int n -> 1 <= n ->
        List.length (failed res) = List.length (targets config) ->
        checksums res = []).
Proof.
  intros Hbuild Hres.
  pose proof (build_checksums _ _ _ _ _ _ _ _ Hbuild Hres) as Hsum.
  assert (Hlen : forall l d, List.length (GoBuilder.writeChecksumFiles l d)
                             = S (List.length l))
    by (intros l d; unfold GoBuilder.writeChecksumFiles; cbn; by rewrite length_map).
  split; [|split].
  - rewrite Hsum. destruct (checksum config), (binaries res) as [|p ps]; cbn; split;
      try done; intros [? ?]; done.
  - intros Hne. rewrite Hsum in Hne |- *.
    destruct (checksum config && _); [|done]. by rewrite Hlen.
  - intros n Hlimit Hn Hall.
    pose proof (build_counts _ _ _ _ _ _ _ _ _ Hlimit Hn Hbuild Hres) as Hcount.
    rewrite Hsum. destruct (binaries res); [|cbn in Hcount; lia].
    by rewrite andb_false_r.
Qed.

Lemma checksums_reported_witness :
  (checksums Cases.timed_out_result <> []
   <-> checksum Samples.two_targets = true /\ binaries Cases.timed_out_result <> [])
  /\ (checksums Cases.timed_out_result <> [] ->
      checksums Cases.timed_out_result
      = GoBuilder.writeChecksumFiles (binaries Cases.timed_out_result)
          (outputDir Samples.two_targets)
      /\ List.length (checksums Cases.timed_out_result)
         = S (List.length (binaries Cases.timed_out_result)))
  /\ (forall n, GoBuilder.parallelLimit Samples.two_targets 8 = JS.Int n -> 1 <= n ->
        List.length (failed Cases.timed_out_result)
        = List.length (targets Samples.two_targets) ->
        checksums Cases.timed_out_result = []).
Proof.
  apply (checksums_reported ∅ 8 Samples.two_targets Samples.second_times_out
           300500 Samples.empty_world Cases.timed_out Cases.timed_out_result).
  - vm_compute. reflexivity.
  - vm_compute. reflexivity.
Defined.
